(** * gofsen: request routing, middleware chains and diagnostics

    A shallow embedding of the two routers of the repository and of the
    helpers they use:

    - package [gofsen] (gofsen.go): slice-backed route table with
      [:param] templates compiled to regular expressions, a middleware
      chain driven by [Context.Next] and a cursor, the built-in [Logger],
      [Recovery] and [CORSWithConfig] middlewares;
    - packages [internal/router], [internal/types], [internal/utils] and
      [internal/middlewares]: map-backed route table, middlewares as
      handler transformers, structured error payloads and the route
      suggestion heuristic.

    Go strings are byte strings: [string] with one [ascii] per byte. *)

From Stdlib Require Import ZArith Ascii String List Bool Lia.
From stdpp Require Import base option list gmap strings sorting.

Local Open Scope string_scope.
Local Open Scope Z_scope.

(* ===================================================================== *)
(** * Go string helpers (package [strings] and slicing)                   *)
(* ===================================================================== *)

Module GoStr.

(** [len(s)] *)
Definition len (s : string) : Z := Z.of_nat (String.length s).

(** [s[:n]] for [0 <= n <= len(s)] *)
Definition slice_to (n : nat) (s : string) : string := substring 0 n s.

(** [s[n:]] for [0 <= n <= len(s)] *)
Definition slice_from (n : nat) (s : string) : string :=
  substring n (String.length s - n) s.

(** [strings.HasPrefix(s, p)] *)
Definition HasPrefix (s p : string) : bool := String.prefix p s.

(** [strings.Contains(s, sub)] for a one-byte [sub] *)
Fixpoint ContainsByte (s : string) (b : ascii) : bool :=
  match s with
  | EmptyString => false
  | String c s' => if Ascii.eqb c b then true else ContainsByte s' b
  end.

(** [strings.Replace(s, old, new, 1)]: the first occurrence of [old]
    (non-empty) is replaced; without an occurrence [s] is returned. *)
Fixpoint ReplaceFirst (s old new : string) : string :=
  if String.prefix old s then new ++ slice_from (String.length old) s
  else match s with
       | EmptyString => EmptyString
       | String c s' => String c (ReplaceFirst s' old new)
       end.

(** [strings.Join(elems, sep)] *)
Fixpoint Join (elems : list string) (sep : string) : string :=
  match elems with
  | [] => ""
  | [e] => e
  | e :: rest => e ++ sep ++ Join rest sep
  end.

(** [strings.Split(s, sep)] for a one-byte separator: always at least one
    field, empty fields are kept. *)
Fixpoint SplitByteAcc (s : string) (sep : ascii) (field : string) : list string :=
  match s with
  | EmptyString => [field]
  | String c s' =>
      if Ascii.eqb c sep then field :: SplitByteAcc s' sep ""
      else SplitByteAcc s' sep (field ++ String c "")
  end.

Definition SplitByte (s : string) (sep : ascii) : list string :=
  SplitByteAcc s sep "".

(** [strings.SplitN(s, sep, 2)] for a one-byte separator: cut at the first
    separator only. *)
Fixpoint SplitN2Acc (s : string) (sep : ascii) (field : string) : list string :=
  match s with
  | EmptyString => [field]
  | String c s' =>
      if Ascii.eqb c sep then [field; s']
      else SplitN2Acc s' sep (field ++ String c "")
  end.

Definition SplitN2 (s : string) (sep : ascii) : list string :=
  SplitN2Acc s sep "".

End GoStr.

(* ===================================================================== *)
(** * Characters of a string (package [unicode/utf8])                     *)
(* ===================================================================== *)

Module Utf8.

(** The value of a byte. *)
Definition byte (c : ascii) : Z := Z.of_N (N_of_ascii c).

(** A byte below [utf8.RuneSelf]. *)
Definition asciiByte (c : ascii) : bool := byte c <? 128.

(** Every byte of the string is an ASCII byte. *)
Definition isASCII (s : string) : bool := forallb asciiByte (list_ascii_of_string s).

(** [utf8.RuneError] *)
Definition RuneError : Z := 65533.

(** A continuation byte, from [locb] to [hicb]. *)
Definition continuation (b : Z) : bool := (128 <=? b) && (b <=? 191).

(** [utf8.DecodeRuneInString(s)]: the first character of [s] and its width
    in bytes; [(RuneError, 0)] for the empty string and [(RuneError, 1)]
    when the first byte starts no well-formed sequence.  The second byte
    of a sequence has a narrower range after the lead bytes E0, ED, F0 and
    F4 (no overlong form, no surrogate, nothing above U+10FFFF). *)
Definition DecodeRuneInString (s : string) : Z * nat :=
  match s with
  | EmptyString => (RuneError, 0%nat)
  | String c0 rest =>
      let s0 := byte c0 in
      if s0 <? 128 then (s0, 1%nat)
      else if (194 <=? s0) && (s0 <=? 223) then
        match rest with
        | String c1 _ =>
            let s1 := byte c1 in
            if continuation s1
            then (Z.lor (Z.shiftl (Z.land s0 31) 6) (Z.land s1 63), 2%nat)
            else (RuneError, 1%nat)
        | _ => (RuneError, 1%nat)
        end
      else if (224 <=? s0) && (s0 <=? 239) then
        match rest with
        | String c1 (String c2 _) =>
            let s1 := byte c1 in
            let s2 := byte c2 in
            let lo := if s0 =? 224 then 160 else 128 in
            let hi := if s0 =? 237 then 159 else 191 in
            if (lo <=? s1) && (s1 <=? hi) && continuation s2
            then (Z.lor (Z.shiftl (Z.land s0 15) 12)
                    (Z.lor (Z.shiftl (Z.land s1 63) 6) (Z.land s2 63)), 3%nat)
            else (RuneError, 1%nat)
        | _ => (RuneError, 1%nat)
        end
      else if (240 <=? s0) && (s0 <=? 244) then
        match rest with
        | String c1 (String c2 (String c3 _)) =>
            let s1 := byte c1 in
            let s2 := byte c2 in
            let s3 := byte c3 in
            let lo := if s0 =? 240 then 144 else 128 in
            let hi := if s0 =? 244 then 143 else 191 in
            if (lo <=? s1) && (s1 <=? hi) && continuation s2 && continuation s3
            then (Z.lor (Z.shiftl (Z.land s0 7) 18)
                    (Z.lor (Z.shiftl (Z.land s1 63) 12)
                       (Z.lor (Z.shiftl (Z.land s2 63) 6) (Z.land s3 63))), 4%nat)
            else (RuneError, 1%nat)
        | _ => (RuneError, 1%nat)
        end
      else (RuneError, 1%nat)
  end.

(** The characters of a string, as [for _, r := range s] and [[]rune(s)]
    give them: decoded one after the other, a byte that starts no
    well-formed sequence counting as one [RuneError].  Every step takes at
    least one byte, so the length of the string is fuel enough. *)
Fixpoint runesFrom (fuel : nat) (s : string) : list Z :=
  match fuel, s with
  | _, EmptyString => []
  | O, _ => []
  | S fuel', _ =>
      let '(r, width) := DecodeRuneInString s in
      r :: runesFrom fuel' (GoStr.slice_from width s)
  end.

Definition runes (s : string) : list Z := runesFrom (String.length s) s.

(** [utf8.ValidString(s)]: no decoding step gives a [RuneError] of width
    one. *)
Fixpoint validFrom (fuel : nat) (s : string) : bool :=
  match fuel, s with
  | _, EmptyString => true
  | O, _ => false
  | S fuel', _ =>
      let '(r, width) := DecodeRuneInString s in
      if (r =? RuneError) && (width =? 1)%nat then false
      else validFrom fuel' (GoStr.slice_from width s)
  end.

Definition ValidString (s : string) : bool := validFrom (String.length s) s.

End Utf8.

(* ===================================================================== *)
(** * The part of [net/http] and [encoding/json] the routers rely on      *)
(* ===================================================================== *)

Module Http.

(** A JSON document as [encoding/json] writes it.  Objects keep the order
    of their members: struct fields in declaration order, map keys in
    sorted order. *)
#[local] Unset Elimination Schemes.
Inductive JSON : Type :=
| JNull
| JBool (b : bool)
| JNum (n : Z)
| JStr (s : string)
| JArr (items : list JSON)
| JObj (members : list (string * JSON)).
#[local] Set Elimination Schemes.

Definition JStrings (l : list string) : JSON := JArr (map JStr l).

(** Member lookup in an object. *)
Definition member (k : string) (j : JSON) : option JSON :=
  match j with
  | JObj ms => snd <$> List.find (fun kv => String.eqb (fst kv) k) ms
  | _ => None
  end.

Definition keys (j : JSON) : list string :=
  match j with
  | JObj ms => map fst ms
  | _ => []
  end.

(** The document is an object with a member for each of the keys. *)
Definition hasKeys (ks : list string) (j : JSON) : Prop :=
  Forall (fun k => is_Some (member k j)) ks.

(** [http.Header]: canonical key to values.  Every key used below is
    already in canonical form. *)
Definition Header_Get (h : gmap string (list string)) (k : string) : string :=
  match h !! k with
  | Some (v :: _) => v
  | _ => ""
  end.

Definition Header_Set (h : gmap string (list string)) (k v : string)
  : gmap string (list string) := <[k := [v]]> h.

Record Request := mkRequest {
  Method : string;
  URL_Path : string;
  URL_RawQuery : string;
  Header : gmap string (list string);
}.

(** One [Write] on the response body. *)
Inductive Chunk : Type :=
| JSONDoc (j : JSON)
| Text (s : string).

(** [http.ResponseWriter].  [rw_header] is the map returned by [Header()];
    [rw_status] is set by the first [WriteHeader] (later calls are
    ignored), which also freezes the headers that go on the wire
    ([rw_sent]); [rw_body] lists the [Write]s in order. *)
Record ResponseWriter := mkResponseWriter {
  rw_header : gmap string (list string);
  rw_status : option Z;
  rw_sent : gmap string (list string);
  rw_body : list Chunk;
}.

Definition NewRecorder : ResponseWriter :=
  mkResponseWriter ∅ None ∅ [].

Definition SetHeader (k v : string) (w : ResponseWriter) : ResponseWriter :=
  mkResponseWriter (Header_Set (rw_header w) k v) (rw_status w) (rw_sent w) (rw_body w).

(** [WriteHeader] with a final status code, 200 to 999 (the library
    panics on a code outside 100 to 999, and a 1xx code is not final). *)
Definition WriteHeader (code : Z) (w : ResponseWriter) : ResponseWriter :=
  match rw_status w with
  | Some _ => w
  | None => mkResponseWriter (rw_header w) (Some code) (rw_header w) (rw_body w)
  end.

(** [Write]: an implicit [WriteHeader(200)] when no status was written. *)
Definition Write (b : Chunk) (w : ResponseWriter) : ResponseWriter :=
  let w' := WriteHeader 200 w in
  mkResponseWriter (rw_header w') (rw_status w') (rw_sent w') (rw_body w' ++ [b]).

(** [json.NewEncoder(w).Encode(data)]: [JSONDoc data] is the value handed
    to the encoder.  A string of it that is valid UTF-8 is what the client
    decodes; the encoder replaces bytes that are not by U+FFFD. *)
Definition Encode (data : JSON) (w : ResponseWriter) : ResponseWriter :=
  Write (JSONDoc data) w.

(** [http.StatusText] *)
Definition StatusText (code : Z) : string :=
  match code with
  | 100 => "Continue"
  | 101 => "Switching Protocols"
  | 102 => "Processing"
  | 103 => "Early Hints"
  | 200 => "OK"
  | 201 => "Created"
  | 202 => "Accepted"
  | 203 => "Non-Authoritative Information"
  | 204 => "No Content"
  | 205 => "Reset Content"
  | 206 => "Partial Content"
  | 207 => "Multi-Status"
  | 208 => "Already Reported"
  | 226 => "IM Used"
  | 300 => "Multiple Choices"
  | 301 => "Moved Permanently"
  | 302 => "Found"
  | 303 => "See Other"
  | 304 => "Not Modified"
  | 305 => "Use Proxy"
  | 307 => "Temporary Redirect"
  | 308 => "Permanent Redirect"
  | 400 => "Bad Request"
  | 401 => "Unauthorized"
  | 402 => "Payment Required"
  | 403 => "Forbidden"
  | 404 => "Not Found"
  | 405 => "Method Not Allowed"
  | 406 => "Not Acceptable"
  | 407 => "Proxy Authentication Required"
  | 408 => "Request Timeout"
  | 409 => "Conflict"
  | 410 => "Gone"
  | 411 => "Length Required"
  | 412 => "Precondition Failed"
  | 413 => "Request Entity Too Large"
  | 414 => "Request URI Too Long"
  | 415 => "Unsupported Media Type"
  | 416 => "Requested Range Not Satisfiable"
  | 417 => "Expectation Failed"
  | 418 => "I'm a teapot"
  | 421 => "Misdirected Request"
  | 422 => "Unprocessable Entity"
  | 423 => "Locked"
  | 424 => "Failed Dependency"
  | 425 => "Too Early"
  | 426 => "Upgrade Required"
  | 428 => "Precondition Required"
  | 429 => "Too Many Requests"
  | 431 => "Request Header Fields Too Large"
  | 451 => "Unavailable For Legal Reasons"
  | 500 => "Internal Server Error"
  | 501 => "Not Implemented"
  | 502 => "Bad Gateway"
  | 503 => "Service Unavailable"
  | 504 => "Gateway Timeout"
  | 505 => "HTTP Version Not Supported"
  | 506 => "Variant Also Negotiates"
  | 507 => "Insufficient Storage"
  | 508 => "Loop Detected"
  | 510 => "Not Extended"
  | 511 => "Network Authentication Required"
  | _ => ""
  end.

End Http.

(* ===================================================================== *)
(** * Packages [internal/types], [internal/utils], [internal/middlewares]
      and [internal/router]                                               *)
(* ===================================================================== *)

Module Internal.

(** ** internal/utils: logger configuration *)

Definition LogDebug : Z := 0.
Definition LogInfo : Z := 1.
Definition LogWarn : Z := 2.
Definition LogError : Z := 3.

Record GofsenLogger := mkLogger {
  Level : Z;
  EnableDetailedErrors : bool;
}.

Definition defaultLogger : GofsenLogger := mkLogger LogInfo true.

(** Process-wide values a request reads: the clock as
    [time.Now().Format(time.RFC3339)] gives it, the logger behind
    [utils.GetLogger()], and the text [debug.Stack()] returns. *)
Record Ambient := mkAmbient {
  Now : string;
  Logger : GofsenLogger;
  Stack : string;
}.

(** ** internal/types *)

(** [types.Context] is handled through a pointer: a handler receives the
    current state and returns the state it leaves.  [Env] and [Events] are
    not fields of the Go struct: [Env] holds the ambient values above, and
    [Events] records the observable steps of user handlers and middlewares
    (the closure variables of the tests). *)
Record Context := mkContext {
  Request : Http.Request;
  Writer : Http.ResponseWriter;
  Params : gmap string string;
  Env : Ambient;
  Events : list string;
}.

Definition with_Writer (w : Http.ResponseWriter) (c : Context) : Context :=
  mkContext (Request c) w (Params c) (Env c) (Events c).

Definition emit (e : string) (c : Context) : Context :=
  mkContext (Request c) (Writer c) (Params c) (Env c) (Events c ++ [e]).

(** A call either returns or unwinds with a panic value (rendered with
    [%v]); in both cases the writes made so far stay. *)
Inductive Outcome : Type :=
| Returned (c : Context)
| Panicked (v : string) (c : Context).

Definition HandlerFunc : Type := Context -> Outcome.
Definition Middleware : Type := HandlerFunc -> HandlerFunc.

(** [func (c *Context) JSON(status int, data interface{}) error] *)
Definition Context_JSON (status : Z) (data : Http.JSON) (c : Context) : Context :=
  with_Writer
    (Http.Encode data
       (Http.WriteHeader status
          (Http.SetHeader "Content-Type" "application/json" (Writer c)))) c.

(** [func (c *Context) Error(status int, message string)] *)
Definition Context_Error (status : Z) (message : string) (c : Context) : Context :=
  Context_JSON status (Http.JObj [("error", Http.JStr message)]) c.

(** ** internal/utils: error payloads *)

Record ErrorResponse := mkErrorResponse {
  er_Error : string;
  er_Message : string;
  er_Path : string;
  er_Method : string;
  er_Timestamp : string;
  er_Code : Z;
  er_RequestID : string;
}.

(** Members tagged [omitempty] are left out when empty. *)
Definition omitempty_string (k v : string) : list (string * Http.JSON) :=
  if String.eqb v "" then [] else [(k, Http.JStr v)].

Definition ErrorResponse_members (e : ErrorResponse) : list (string * Http.JSON) :=
  [("error", Http.JStr (er_Error e))]
  ++ omitempty_string "message" (er_Message e)
  ++ [("path", Http.JStr (er_Path e));
      ("method", Http.JStr (er_Method e));
      ("timestamp", Http.JStr (er_Timestamp e));
      ("code", Http.JNum (er_Code e))]
  ++ omitempty_string "request_id" (er_RequestID e).

(** [DetailedErrorResponse]: the embedded [ErrorResponse] is inlined;
    [Details] is an interface value ([None] is nil), [Headers] a map. *)
Record DetailedErrorResponse := mkDetailed {
  de_ErrorResponse : ErrorResponse;
  de_Details : option Http.JSON;
  de_Trace : string;
  de_Headers : list (string * string);
}.

Definition DetailedErrorResponse_members (d : DetailedErrorResponse)
  : list (string * Http.JSON) :=
  ErrorResponse_members (de_ErrorResponse d)
  ++ match de_Details d with
     | None => []
     | Some j => [("details", j)]
     end
  ++ omitempty_string "trace" (de_Trace d)
  ++ match de_Headers d with
     | [] => []
     | hs => [("headers", Http.JObj (map (fun kv => (fst kv, Http.JStr (snd kv))) hs))]
     end.

(** [func maskAuthHeader(auth string) string] *)
Definition maskAuthHeader (auth : string) : string :=
  if String.eqb auth "" then ""
  else if GoStr.len auth <=? 10 then "***"
  else GoStr.slice_to 10 auth ++ "***".

(** [func (gl *GofsenLogger) SendDetailedError(ctx, code, message, details)] *)
Definition SendDetailedError (gl : GofsenLogger) (code : Z) (message : string)
    (details : option Http.JSON) (ctx : Context) : Context :=
  let req := Request ctx in
  let errorResp :=
    mkErrorResponse (Http.StatusText code) message (Http.URL_Path req)
      (Http.Method req) (Now (Env ctx)) code "" in
  if EnableDetailedErrors gl && (Level gl <=? LogDebug) then
    let detailedResp :=
      mkDetailed errorResp details ""
        [("Authorization", maskAuthHeader (Http.Header_Get (Http.Header req) "Authorization"));
         ("Content-Type", Http.Header_Get (Http.Header req) "Content-Type");
         ("Origin", Http.Header_Get (Http.Header req) "Origin");
         ("User-Agent", Http.Header_Get (Http.Header req) "User-Agent")] in
    with_Writer
      (Http.Encode (Http.JObj (DetailedErrorResponse_members detailedResp))
         (Http.WriteHeader code
            (Http.SetHeader "Content-Type" "application/json" (Writer ctx)))) ctx
  else
    with_Writer
      (Http.Encode (Http.JObj (ErrorResponse_members errorResp))
         (Http.WriteHeader code
            (Http.SetHeader "Content-Type" "application/json" (Writer ctx)))) ctx.

(** The members every error payload is specified to have. *)
Definition diagnosticKeys : list string :=
  ["error"; "message"; "path"; "method"; "timestamp"; "code"].

(** Detailed errors are on and the level is debug: the test of
    [SendDetailedError]. *)
Definition detailed (gl : GofsenLogger) : bool :=
  EnableDetailedErrors gl && (Level gl <=? LogDebug).

(** ** internal/utils: route suggestions *)

(** The test of the loop body of [SuggestSimilarRoutes]. *)
Definition similar (requestedPath route : string) : bool :=
  (0 <? GoStr.len route) && (0 <? GoStr.len requestedPath) &&
  (String.eqb (GoStr.slice_to 1 route) (GoStr.slice_to 1 requestedPath)
   || ((3 <? GoStr.len route) && (3 <? GoStr.len requestedPath) &&
       String.eqb (GoStr.slice_from (String.length route - 3) route)
                  (GoStr.slice_from (String.length requestedPath - 3) requestedPath))).

(** [func SuggestSimilarRoutes(requestedPath string, availableRoutes []string) []string] *)
Definition SuggestSimilarRoutes (requestedPath : string) (availableRoutes : list string)
  : list string :=
  let suggestions := List.filter (similar requestedPath) availableRoutes in
  if (3 <? Z.of_nat (length suggestions)) then firstn 3 suggestions else suggestions.

(** The eligibility rule of the specification read on bytes: a known path
    qualifies when it shares its first byte with the requested path, or
    when both have more than three bytes and the same last three. *)
Definition firstChar (s : string) : option ascii := String.get 0 s.

Definition lastChars (n : nat) (s : string) : list ascii :=
  reverse (take n (reverse (list_ascii_of_string s))).

Definition eligible (requestedPath known : string) : Prop :=
  (exists c, firstChar known = Some c /\ firstChar requestedPath = Some c)
  \/ ((3 < String.length known)%nat /\ (3 < String.length requestedPath)%nat
      /\ lastChars 3 known = lastChars 3 requestedPath).

(** The same rule in the words of the specification, on characters: a
    known path qualifies when it shares its first character with the
    requested path, or when both have more than three characters and the
    same last three characters. *)
Definition lastRunes (n : nat) (s : string) : list Z :=
  reverse (take n (reverse (Utf8.runes s))).

Definition eligibleByCharacters (requestedPath known : string) : Prop :=
  (exists r, head (Utf8.runes known) = Some r /\ head (Utf8.runes requestedPath) = Some r)
  \/ ((3 < length (Utf8.runes known))%nat /\ (3 < length (Utf8.runes requestedPath))%nat
      /\ lastRunes 3 known = lastRunes 3 requestedPath).

(** ** internal/utils: CORS helpers and token validation *)

(** [func SetCORSHeaders(ctx *types.Context, origin string)] *)
Definition SetCORSHeaders (origin : string) (ctx : Context) : Context :=
  with_Writer
    (Http.SetHeader "Access-Control-Allow-Credentials" "true"
       (Http.SetHeader "Access-Control-Allow-Headers" "Content-Type, Authorization"
          (Http.SetHeader "Access-Control-Allow-Methods" "GET, POST, PUT, DELETE, OPTIONS"
             (Http.SetHeader "Access-Control-Allow-Origin" origin (Writer ctx))))) ctx.

(** [func IsAllowedOrigin(origin string) bool] *)
Definition IsAllowedOrigin (origin : string) : bool :=
  existsb (fun o => String.eqb o origin)
    ["https://example.com"; "https://another-example.com"].

(** ** internal/middlewares *)

(** [func RecoveryMiddleware(next types.HandlerFunc) types.HandlerFunc]:
    the deferred function runs when [next] unwinds and ends the panic. *)
Definition RecoveryMiddleware : Middleware := fun next ctx =>
  match next ctx with
  | Returned c => Returned c
  | Panicked r c =>
      Returned
        (SendDetailedError (Logger (Env c)) 500 "Erreur interne du serveur"
           (Some (Http.JObj
              [("panic_message", Http.JStr r);
               ("recovery_note", Http.JStr "L'application a récupéré d'une erreur critique");
               ("stack_trace", Http.JStr (Stack (Env c)))])) c)
  end.


(** [func AuthMiddleware(validator types.TokenValidator) types.Middleware];
    the [TokenValidator] interface is its one method. *)
Definition AuthMiddleware (ValidateToken : string -> bool) : Middleware :=
  fun next ctx =>
    let logger := Logger (Env ctx) in
    let token := Http.Header_Get (Http.Header (Request ctx)) "Authorization" in
    if String.eqb token "" then
      Returned
        (SendDetailedError logger 401 "En-tête Authorization manquant"
           (Some (Http.JObj
              [("example", Http.JStr "Authorization: Bearer valid-token");
               ("required_format", Http.JStr "Authorization: Bearer <token>")])) ctx)
    else if negb (ValidateToken token) then
      Returned
        (SendDetailedError logger 401 "Token d'authentification invalide"
           (Some (Http.JObj
              [("note", Http.JStr "Vérifiez que votre token est valide et non expiré");
               ("token_format", Http.JStr "Bearer <token>")])) ctx)
    else next ctx.

(** [func CorsMiddleware(next types.HandlerFunc) types.HandlerFunc] *)
Definition CorsMiddleware : Middleware := fun next ctx =>
  let origin := Http.Header_Get (Http.Header (Request ctx)) "Origin" in
  let ctx1 :=
    if negb (String.eqb origin "") && IsAllowedOrigin origin
    then SetCORSHeaders origin ctx else ctx in
  if String.eqb (Http.Method (Request ctx1)) "OPTIONS" then
    Returned (with_Writer (Http.WriteHeader 200 (Writer ctx1)) ctx1)
  else next ctx1.

(** [func JSONEncoder(next types.HandlerFunc) types.HandlerFunc] *)
Definition JSONEncoder : Middleware := fun next ctx =>
  next (with_Writer (Http.SetHeader "Content-Type" "application/json" (Writer ctx)) ctx).

(** ** internal/handlers *)

(** [func HealthCheckHandler(ctx *types.Context)]; the [BindJSON] call
    reads the request body and its result is dropped. *)
Definition HealthCheckHandler : HandlerFunc := fun ctx =>
  Returned (Context_JSON 200 (Http.JObj [("status", Http.JStr "ok")]) ctx).

(** ** Handlers and middlewares as applications write them *)

(** A handler that leaves a mark. *)
Definition record (name : string) : HandlerFunc := fun ctx => Returned (emit name ctx).

(** A middleware that leaves a mark and calls [next]. *)
Definition passing (name : string) : Middleware := fun next ctx => next (emit name ctx).

(** A handler that panics with the given value. *)
Definition panicking (v : string) : HandlerFunc := fun ctx => Panicked v ctx.

(** ** internal/router *)

Record Router := mkRouter {
  routes : gmap string (gmap string HandlerFunc);
  middlewares : list Middleware;
}.

(** A group is held by the code that registers routes; [parent] is the
    router the registration functions below are applied to. *)
Record RouteGroup := mkRouteGroup {
  prefix : string;
  group_middlewares : list Middleware;
}.

(** The struct literal [NewRouter] starts from, before it registers the
    health, test and demonstration routes. *)
Definition emptyRouter : Router := mkRouter ∅ [].

(** [func (r *Router) Group(prefix string) *RouteGroup] *)
Definition Group (prefix : string) : RouteGroup := mkRouteGroup prefix [].

(** [func (g *RouteGroup) Use(mws ...types.Middleware)] *)
Definition RouteGroup_Use (mws : list Middleware) (g : RouteGroup) : RouteGroup :=
  mkRouteGroup (prefix g) (group_middlewares g ++ mws).

(** [func (r *Router) Use(mw ...types.Middleware)] *)
Definition Use (mw : list Middleware) (r : Router) : Router :=
  mkRouter (routes r) (middlewares r ++ mw).

(** [func (r *Router) Handle(method, path string, handler types.HandlerFunc, key ...string)] *)
Definition Handle (method path : string) (handler : HandlerFunc) (r : Router) : Router :=
  let methodRoutes := default ∅ (routes r !! method) in
  mkRouter (<[method := <[path := handler]> methodRoutes]> (routes r)) (middlewares r).

(** The loop [for i := len(mws) - 1; i >= 0; i-- { h = mws[i](h) }]. *)
Definition wrap (mws : list Middleware) (handler : HandlerFunc) : HandlerFunc :=
  fold_left (fun finalHandler mw => mw finalHandler) (rev mws) handler.

(** [func (g *RouteGroup) Handle(method, path string, handler types.HandlerFunc)] *)
Definition RouteGroup_Handle (g : RouteGroup) (method path : string)
    (handler : HandlerFunc) (parent : Router) : Router :=
  let fullPath := prefix g ++ path in
  Handle method fullPath (wrap (group_middlewares g) handler) parent.

Definition GET := Handle "GET".
Definition POST := Handle "POST".
Definition PUT := Handle "PUT".
Definition DELETE := Handle "DELETE".
Definition PATCH := Handle "PATCH".
Definition RouteGroup_GET (g : RouteGroup) := RouteGroup_Handle g "GET".
Definition RouteGroup_POST (g : RouteGroup) := RouteGroup_Handle g "POST".
Definition RouteGroup_PUT (g : RouteGroup) := RouteGroup_Handle g "PUT".
Definition RouteGroup_DELETE (g : RouteGroup) := RouteGroup_Handle g "DELETE".
Definition RouteGroup_PATCH (g : RouteGroup) := RouteGroup_Handle g "PATCH".

(** The order in which a [for ... range] loop visits a map is not fixed by
    the language: a visiting order is any enumeration of the entries. *)
Definition MapRange : Type := forall A : Type, gmap string A -> list (string * A).

Definition range_ok (rg : MapRange) : Prop :=
  forall (A : Type) (m : gmap string A), rg A m ≡ₚ map_to_list m.

(** The first [range] loop of [ServeHTTP]: the methods under which the
    path has a handler, in visiting order. *)
Definition allowedMethodsFor (rg : MapRange) (r : Router) (path : string) : list string :=
  flat_map (fun entry : string * gmap string HandlerFunc =>
              match snd entry !! path with
              | Some _ => [fst entry]
              | None => []
              end) (rg _ (routes r)).

(** The nested [range] loops of [ServeHTTP]: every registered path, once
    per method. *)
Definition availableRoutesOf (rg : MapRange) (r : Router) : list string :=
  flat_map (fun entry : string * gmap string HandlerFunc =>
              map fst (rg _ (snd entry))) (rg _ (routes r)).

(** [func (r *Router) ServeHTTP(w http.ResponseWriter, req *http.Request)] *)
Definition ServeHTTP (rg : MapRange) (r : Router) (env : Ambient) (events : list string)
    (w : Http.ResponseWriter) (req : Http.Request) : Outcome :=
  let ctx := mkContext req w ∅ env events in
  let logger := Logger env in
  match routes r !! Http.Method req ≫= (fun methodRoutes => methodRoutes !! Http.URL_Path req) with
  | Some handler => wrap (middlewares r) handler ctx
  | None =>
      let allowedMethods := allowedMethodsFor rg r (Http.URL_Path req) in
      match allowedMethods with
      | first :: _ =>
          Returned
            (SendDetailedError logger 405 "Méthode HTTP non autorisée pour cette route"
               (Some (Http.JObj
                  [("allowed_methods", Http.JStrings allowedMethods);
                   ("suggestion", Http.JStr ("Essayez avec: " ++ first))])) ctx)
      | [] =>
          let availableRoutes := availableRoutesOf rg r in
          let suggestions := SuggestSimilarRoutes (Http.URL_Path req) availableRoutes in
          Returned
            (SendDetailedError logger 404 "Route non trouvée"
               (Some (Http.JObj
                  [("available_routes", Http.JStrings availableRoutes);
                   ("suggestions", Http.JStrings suggestions);
                   ("tip", Http.JStr "Vérifiez l'URL et la méthode HTTP")])) ctx)
      end
  end.

End Internal.

(* ===================================================================== *)
(** * Package [gofsen]                                                    *)
(* ===================================================================== *)

Module Gofsen.

(** ** Package [regexp], as far as the router uses it

    [Compile] fails with [None]; [FindStringSubmatch] gives [None] for no
    match and otherwise the whole match followed by the capture groups. *)
Class RegexpLib := {
  Regexp : Type;
  Compile : string -> option Regexp;
  FindStringSubmatch : Regexp -> string -> option (list string);
}.

(** ** Context *)

(** [Context] is handled through a pointer: a step receives the current
    state and returns the state it leaves.  The [middleware] slice of the
    Go struct is set once per request by [ServeHTTP] and is passed to
    [Next] next to the context.  [Now], [Events] and [Invoked] are not
    fields of the Go struct: [Now] is the clock as
    [time.Now().Format(time.RFC3339)] gives it, [Events] records the
    observable steps of user handlers and middlewares, and [Invoked] lists
    the positions of the chain that [Next] has called. *)
Record Context := mkContext {
  Request : Http.Request;
  ResponseWriter : Http.ResponseWriter;
  Params : gmap string string;
  Query : gmap string string;
  middlewareIndex : Z;
  Now : string;
  Events : list string;
  Invoked : list Z;
}.

Definition with_ResponseWriter (w : Http.ResponseWriter) (c : Context) : Context :=
  mkContext (Request c) w (Params c) (Query c) (middlewareIndex c) (Now c) (Events c) (Invoked c).

Definition with_Params (ps : gmap string string) (c : Context) : Context :=
  mkContext (Request c) (ResponseWriter c) ps (Query c) (middlewareIndex c) (Now c)
    (Events c) (Invoked c).

Definition with_middlewareIndex (i : Z) (c : Context) : Context :=
  mkContext (Request c) (ResponseWriter c) (Params c) (Query c) i (Now c) (Events c) (Invoked c).

Definition emit (e : string) (c : Context) : Context :=
  mkContext (Request c) (ResponseWriter c) (Params c) (Query c) (middlewareIndex c) (Now c)
    (Events c ++ [e]) (Invoked c).

Definition invoked (i : Z) (c : Context) : Context :=
  mkContext (Request c) (ResponseWriter c) (Params c) (Query c) (middlewareIndex c) (Now c)
    (Events c) (Invoked c ++ [i]).

(** A call returns, unwinds with a panic value, or nests calls of [Next]
    deeper than the chain is long, which only a step that moves the cursor
    back can cause. *)
Inductive Outcome : Type :=
| Returned (c : Context)
| Panicked (v : string) (c : Context)
| Overflow.

(** [HandlerFunc] and [MiddlewareFunc]: functions of a pointer to the
    request's [Context].  The first argument is the method [c.Next] of that
    context. *)
Definition MiddlewareFunc : Type := (Context -> Outcome) -> Context -> Outcome.
Definition HandlerFunc : Type := MiddlewareFunc.

(** [func (c *Context) Next()] *)
Fixpoint Next (depth : nat) (middleware : list MiddlewareFunc) (c : Context) : Outcome :=
  let c1 := with_middlewareIndex (middlewareIndex c + 1) c in
  if middlewareIndex c1 <? Z.of_nat (length middleware) then
    if middlewareIndex c1 <? 0 then Panicked "runtime error: index out of range" c1
    else
      match middleware !! Z.to_nat (middlewareIndex c1), depth with
      | Some step, S d => step (Next d middleware) (invoked (middlewareIndex c1) c1)
      | Some _, O => Overflow
      | None, _ => Returned c1
      end
  else Returned c1.

(** [func (c *Context) Status(code int) *Context] *)
Definition Status (code : Z) (c : Context) : Context :=
  with_ResponseWriter (Http.WriteHeader code (ResponseWriter c)) c.

(** [func (c *Context) JSON(data interface{})] *)
Definition Context_JSON (data : Http.JSON) (c : Context) : Context :=
  with_ResponseWriter
    (Http.Encode data (Http.SetHeader "Content-Type" "application/json" (ResponseWriter c))) c.

(** [func (c *Context) Text(text string)] *)
Definition Context_Text (text : string) (c : Context) : Context :=
  with_ResponseWriter
    (Http.Write (Http.Text text) (Http.SetHeader "Content-Type" "text/plain" (ResponseWriter c))) c.

(** [func (c *Context) HTML(html string)] *)
Definition Context_HTML (html : string) (c : Context) : Context :=
  with_ResponseWriter
    (Http.Write (Http.Text html) (Http.SetHeader "Content-Type" "text/html" (ResponseWriter c))) c.

(** [func (c *Context) Param(key string) string] *)
Definition Param (key : string) (c : Context) : string := default "" (Params c !! key).

(** [func (c *Context) QueryParam(key string) string] *)
Definition QueryParam (key : string) (c : Context) : string := default "" (Query c !! key).

(** [func (c *Context) Error(code int, message string)] *)
Definition Context_Error (code : Z) (message : string) (c : Context) : Context :=
  Context_JSON
    (Http.JObj
       [("error", Http.JStr message);
        ("method", Http.JStr (Http.Method (Request c)));
        ("path", Http.JStr (Http.URL_Path (Request c)));
        ("status", Http.JNum code);
        ("time", Http.JStr (Now c))])
    (Status code c).

(** [func parseQuery(rawQuery string) map[string]string] *)
Definition parseQuery (rawQuery : string) : gmap string string :=
  if String.eqb rawQuery "" then ∅
  else
    fold_left
      (fun query pair =>
         match GoStr.SplitN2 pair "="%char with
         | [k; v] => <[k := v]> query
         | _ => query
         end)
      (GoStr.SplitByte rawQuery "&"%char) ∅.

(** ** Built-in middlewares *)

(** [func Logger() MiddlewareFunc]: the log line goes to the process log. *)
Definition Logger : MiddlewareFunc := fun next c => next c.

(** [func Recovery() MiddlewareFunc]: the deferred function runs when
    [c.Next()] unwinds and ends the panic. *)
Definition Recovery : MiddlewareFunc := fun next c =>
  match next c with
  | Panicked r c' => Returned (Context_Error 500 "Internal Server Error" c')
  | o => o
  end.

Record CORSConfig := mkCORSConfig {
  AllowOrigins : list string;
  AllowMethods : list string;
  AllowHeaders : list string;
}.

(** The loop over [config.AllowOrigins] with its [break]. *)
Definition originAllowed (config : CORSConfig) (origin : string) : bool :=
  existsb (fun allowedOrigin => String.eqb allowedOrigin "*" || String.eqb allowedOrigin origin)
    (AllowOrigins config).

(** [func CORSWithConfig(config CORSConfig) MiddlewareFunc] *)
Definition CORSWithConfig (config : CORSConfig) : MiddlewareFunc := fun next c =>
  let origin := Http.Header_Get (Http.Header (Request c)) "Origin" in
  let allowed := originAllowed config origin in
  let w0 := ResponseWriter c in
  let w1 :=
    if allowed then
      if negb (String.eqb origin "") then Http.SetHeader "Access-Control-Allow-Origin" origin w0
      else Http.SetHeader "Access-Control-Allow-Origin" "*" w0
    else w0 in
  let w2 := Http.SetHeader "Access-Control-Allow-Methods" (GoStr.Join (AllowMethods config) ", ") w1 in
  let w3 := Http.SetHeader "Access-Control-Allow-Headers" (GoStr.Join (AllowHeaders config) ", ") w2 in
  let w4 := Http.SetHeader "Access-Control-Allow-Credentials" "true" w3 in
  let c' := with_ResponseWriter w4 c in
  if String.eqb (Http.Method (Request c')) "OPTIONS" then Returned (Status 204 c')
  else next c'.

(** ** Handlers and middlewares as applications write them *)

(** A handler that leaves a mark, as the closures of the tests do. *)
Definition record (name : string) : HandlerFunc := fun next c => Returned (emit name c).

(** A middleware that leaves a mark and calls [c.Next()]. *)
Definition passing (name : string) : MiddlewareFunc := fun next c => next (emit name c).

(** A handler that panics with the given value. *)
Definition panicking (v : string) : HandlerFunc := fun next c => Panicked v c.

(** The authentication middleware of the package documentation
    (README_PACKAGE.md): without an [Authorization] header it answers 401
    and returns, otherwise it calls [c.Next()]. *)
Definition authMiddleware : MiddlewareFunc := fun next c =>
  let token := Http.Header_Get (Http.Header (Request c)) "Authorization" in
  if String.eqb token "" then Returned (Context_Error 401 "Missing token" c)
  else next c.

(** A middleware that calls [c.Next()] a second time when the first call
    has returned. *)
Definition callsNextTwice : MiddlewareFunc := fun next c =>
  match next c with
  | Returned c1 => next c1
  | o => o
  end.

(** The handler of [TestParams] (gofsen_test.go). *)
Definition paramsHandler : HandlerFunc := fun next c =>
  Returned (Context_JSON (Http.JObj [("id", Http.JStr (Param "id" c))]) c).

(** The handler of [TestQueryParams] (gofsen_test.go). *)
Definition queryHandler : HandlerFunc := fun next c =>
  Returned (Context_JSON (Http.JObj [("query", Http.JStr (QueryParam "q" c))]) c).

(** The query string a client writes for a list of pairs:
    [k1=v1&k2=v2&...]. *)
Definition encodeQuery (pairs : list (string * string)) : string :=
  GoStr.Join (map (fun kv => fst kv ++ "=" ++ snd kv) pairs) "&".

(** ** Path templates *)

(** [paramRegex.FindAllStringSubmatch(path, -1)] for the fixed expression
    [:([^/]+)]: the successive, non-overlapping, leftmost matches, each as
    the pair of the whole match and of its group.  A match starts at a
    colon that is followed by at least one byte other than a slash and
    runs up to the next slash or to the end.  [cur] is the group read so
    far when the scan is inside a match. *)
Fixpoint paramMatchesFrom (s : string) (cur : option string) : list (string * string) :=
  match s, cur with
  | EmptyString, None => []
  | EmptyString, Some name =>
      if String.eqb name "" then [] else [(":" ++ name, name)]
  | String c s', None =>
      if Ascii.eqb c ":" then paramMatchesFrom s' (Some "") else paramMatchesFrom s' None
  | String c s', Some name =>
      if Ascii.eqb c "/" then
        (if String.eqb name "" then [] else [(":" ++ name, name)]) ++ paramMatchesFrom s' None
      else paramMatchesFrom s' (Some (name ++ String c ""))
  end.

Definition paramMatches (path : string) : list (string * string) :=
  paramMatchesFrom path None.

Section Routing.
Context `{RegexpLib}.

(** [type Route struct] *)
Record Route := mkRoute {
  Method : string;
  Path : string;
  Handler : HandlerFunc;
  Pattern : option Regexp;
  Route_Params : list string;
}.

(** [type RouteGroup struct]; the [router] pointer is the router the group
    was created on. *)
Record RouteGroup := mkRouteGroup {
  prefix : string;
  group_middlewares : list MiddlewareFunc;
}.

(** [type Router struct].  [groups] maps a prefix to a pointer: [heap]
    holds the groups allocated so far and a pointer is a position in it. *)
Record Router := mkRouter {
  routes : list Route;
  middlewares : list MiddlewareFunc;
  groups : gmap string nat;
  heap : list RouteGroup;
}.

(** [func New() *Router] *)
Definition New : Router := mkRouter [] [] ∅ [].

(** [func (r *Router) Use(middleware MiddlewareFunc)] *)
Definition Use (middleware : MiddlewareFunc) (r : Router) : Router :=
  mkRouter (routes r) (middlewares r ++ [middleware]) (groups r) (heap r).

(** [func (r *Router) Group(prefix string) *RouteGroup]: the router after
    the call and the pointer returned. *)
Definition Group (prefix : string) (r : Router) : Router * nat :=
  let group := length (heap r) in
  (mkRouter (routes r) (middlewares r) (<[prefix := group]> (groups r))
     (heap r ++ [mkRouteGroup prefix []]), group).

(** [func convertPathToRegex(path string)]: the compiled pattern, or nil,
    and the parameter names. *)
Definition convertPathToRegex (path : string) : option Regexp * list string :=
  if negb (GoStr.ContainsByte path ":") then (None, [])
  else
    let matches := paramMatches path in
    let params := map snd matches in
    let regexPath :=
      fold_left (fun regexPath m => GoStr.ReplaceFirst regexPath (fst m) "([^/]+)")
        matches path in
    match Compile ("^" ++ regexPath ++ "$") with
    | Some pattern => (Some pattern, params)
    | None => (None, [])
    end.

(** [func (r *Router) addRoute(method, path string, handler HandlerFunc)] *)
Definition addRoute (method path : string) (handler : HandlerFunc) (r : Router) : Router :=
  let '(pattern, params) := convertPathToRegex path in
  let route := mkRoute method path handler pattern params in
  mkRouter (routes r ++ [route]) (middlewares r) (groups r) (heap r).

Definition GET := addRoute "GET".
Definition POST := addRoute "POST".
Definition PUT := addRoute "PUT".
Definition DELETE := addRoute "DELETE".
Definition PATCH := addRoute "PATCH".

(** [func (g *RouteGroup) Use(middleware MiddlewareFunc)] *)
Definition RouteGroup_Use (g : nat) (middleware : MiddlewareFunc) (r : Router) : Router :=
  mkRouter (routes r) (middlewares r) (groups r)
    (alter (fun grp => mkRouteGroup (prefix grp) (group_middlewares grp ++ [middleware]))
       g (heap r)).

(** [func (g *RouteGroup) GET(path string, handler HandlerFunc)] and its
    siblings: [g.router.addRoute(method, g.prefix+path, handler)]. *)
Definition RouteGroup_addRoute (g : nat) (method path : string) (handler : HandlerFunc)
    (r : Router) : Router :=
  match heap r !! g with
  | Some grp => addRoute method (prefix grp ++ path) handler r
  | None => r
  end.

Definition RouteGroup_GET (g : nat) := RouteGroup_addRoute g "GET".
Definition RouteGroup_POST (g : nat) := RouteGroup_addRoute g "POST".
Definition RouteGroup_PUT (g : nat) := RouteGroup_addRoute g "PUT".
Definition RouteGroup_DELETE (g : nat) := RouteGroup_addRoute g "DELETE".
Definition RouteGroup_PATCH (g : nat) := RouteGroup_addRoute g "PATCH".

(** The inner loop of [findRoute]:
    [for i, param := range route.Params { if i+1 < len(matches) { params[param] = matches[i+1] } }] *)
Definition bindParams (names matches : list string) : gmap string string :=
  fold_left
    (fun params ip =>
       match matches !! (fst ip + 1)%nat with
       | Some v => <[snd ip := v]> params
       | None => params
       end)
    (imap (fun i param => (i, param)) names) ∅.

(** What one iteration of the loop of [findRoute] returns, if it returns. *)
Definition matchRoute (route : Route) (method path : string) : option (gmap string string) :=
  if String.eqb (Method route) method then
    match Pattern route with
    | Some pattern =>
        match FindStringSubmatch pattern path with
        | Some matches => Some (bindParams (Route_Params route) matches)
        | None => None
        end
    | None => if String.eqb (Path route) path then Some ∅ else None
    end
  else None.

Fixpoint findRouteIn (rs : list Route) (method path : string)
  : option (Route * gmap string string) :=
  match rs with
  | [] => None
  | route :: rest =>
      match matchRoute route method path with
      | Some params => Some (route, params)
      | None => findRouteIn rest method path
      end
  end.

(** [func (r *Router) findRoute(method, path string)]: the route and its
    parameters, or [None] for the pair of nils. *)
Definition findRoute (r : Router) (method path : string) : option (Route * gmap string string) :=
  findRouteIn (routes r) method path.

(** [func (r *Router) ServeHTTP(w http.ResponseWriter, req *http.Request)] *)
Definition ServeHTTP (r : Router) (now : string) (events : list string)
    (w : Http.ResponseWriter) (req : Http.Request) : Outcome :=
  let ctx := mkContext req w ∅ (parseQuery (Http.URL_RawQuery req)) (-1) now events [] in
  match findRoute r (Http.Method req) (Http.URL_Path req) with
  | None =>
      Returned (Context_JSON (Http.JObj [("error", Http.JStr "Route not found")])
                  (Status 404 ctx))
  | Some (route, params) =>
      let ctx := with_Params params ctx in
      let finalHandler : MiddlewareFunc := fun next c => Handler route next c in
      let middleware := (middlewares r ++ [finalHandler])%list in
      Next (length middleware) middleware ctx
  end.

End Routing.

(** ** The expressions [convertPathToRegex] builds

    An instance of the library for the expressions of the form
    [^ ... $] whose body is made of literal ASCII bytes and of groups
    [([^/]+)]: what a template gives when its text outside the parameter
    markers is ASCII and has no byte with a meaning in the expression
    syntax.  Other expressions are outside this instance and are refused;
    among them are those that are not valid UTF-8, which the library
    refuses as well. *)
Inductive Tok : Type :=
| Lit (c : ascii)
| Seg.

Definition isMeta (c : ascii) : bool :=
  existsb (Ascii.eqb c)
    ["\"; "."; "+"; "*"; "?"; "("; ")"; "|"; "["; "]"; "{"; "}"; "^"; "$"]%char.

(** Body of an expression up to the closing [$]; [skip] is the number of
    bytes of a group still to pass. *)
Fixpoint parseBody (skip : nat) (s : string) : option (list Tok) :=
  match s with
  | EmptyString => None
  | String c s' =>
      match skip with
      | S k => parseBody k s'
      | O =>
          if String.prefix "([^/]+)" s then cons Seg <$> parseBody 6 s'
          else if Ascii.eqb c "$" then (if String.eqb s' "" then Some [] else None)
          else if isMeta c then None
          else if negb (Utf8.asciiByte c) then None
          else cons (Lit c) <$> parseBody 0 s'
      end
  end.

Definition compileSegments (expr : string) : option (list Tok) :=
  match expr with
  | String c body => if Ascii.eqb c "^" then parseBody 0 body else None
  | EmptyString => None
  end.

(** A group takes as many bytes other than a slash as possible, at least
    one, and gives bytes back while the rest [k] of the expression fails. *)
Fixpoint matchSeg (k : string -> option (list string)) (taken s : string)
  : option (list string) :=
  let stop := if String.eqb taken "" then None else cons taken <$> k s in
  match s with
  | EmptyString => stop
  | String c s' =>
      if Ascii.eqb c "/" then stop
      else match matchSeg k (taken ++ String c "") s' with
           | Some caps => Some caps
           | None => stop
           end
  end.

(** The groups of a match of the whole of [s]. *)
Fixpoint matchToks (p : list Tok) (s : string) : option (list string) :=
  match p with
  | [] => if String.eqb s "" then Some [] else None
  | Lit c :: p' =>
      match s with
      | String c' s' => if Ascii.eqb c c' then matchToks p' s' else None
      | EmptyString => None
      end
  | Seg :: p' => matchSeg (matchToks p') "" s
  end.

#[global] Instance SegmentRegexp : RegexpLib := {|
  Regexp := list Tok;
  Compile := compileSegments;
  FindStringSubmatch := fun re s => cons s <$> matchToks re s;
|}.

(** ** Templates by segments

    A template [/s1/s2/...] read segment by segment: a segment is either
    literal text or a parameter marker [:name]. *)
Inductive Segment : Type :=
| Static (text : string)
| Marker (name : string).

Definition segmentText (seg : Segment) : string :=
  match seg with
  | Static text => text
  | Marker name => ":" ++ name
  end.

(** The template a list of segments spells. *)
Fixpoint templateOf (segs : list Segment) : string :=
  match segs with
  | [] => ""
  | seg :: rest => "/" ++ segmentText seg ++ templateOf rest
  end.

(** Literal text is ASCII and has no slash, no colon and no byte with a
    meaning in the expression syntax; a parameter name is not empty and
    has no slash. *)
Definition plainByte (c : ascii) : bool :=
  negb (isMeta c) && negb (Ascii.eqb c ":") && negb (Ascii.eqb c "/") && Utf8.asciiByte c.

Definition wellFormed (seg : Segment) : bool :=
  match seg with
  | Static text => forallb plainByte (list_ascii_of_string text)
  | Marker name => negb (String.eqb name "") && negb (GoStr.ContainsByte name "/")
  end.

Definition markerNames (segs : list Segment) : list string :=
  omap (fun seg => match seg with Marker name => Some name | Static _ => None end) segs.

(** The tokens of the expression the template compiles to. *)
Fixpoint segmentsPattern (segs : list Segment) : list Tok :=
  match segs with
  | [] => []
  | Static text :: rest =>
      Lit "/" :: map Lit (list_ascii_of_string text) ++ segmentsPattern rest
  | Marker _ :: rest => Lit "/" :: Seg :: segmentsPattern rest
  end.

(** The text of the expression, between [^] and [$]: the template with
    each marker replaced by a group. *)
Fixpoint expressionOf (segs : list Segment) : string :=
  match segs with
  | [] => ""
  | Static text :: rest => "/" ++ text ++ expressionOf rest
  | Marker _ :: rest => "/" ++ "([^/]+)" ++ expressionOf rest
  end.

(** The path obtained by writing the values in place of the markers, in
    order. *)
Fixpoint fill (segs : list Segment) (values : list string) : string :=
  match segs with
  | [] => ""
  | Static text :: rest => "/" ++ text ++ fill rest values
  | Marker _ :: rest =>
      match values with
      | v :: vs => "/" ++ v ++ fill rest vs
      | [] => "/" ++ fill rest []
      end
  end.

(** A value a marker can take: not empty, no slash. *)
Definition segmentValue (v : string) : Prop :=
  v <> "" /\ GoStr.ContainsByte v "/" = false.

End Gofsen.

(* ===================================================================== *)
(** * Properties                                                          *)
(* ===================================================================== *)

Local Open Scope list_scope.

(** ** Strings *)

Lemma substring_all (s : string) : substring 0 (String.length s) s = s.
Proof. induction s as [|c s IH]; simpl; [reflexivity | now rewrite IH]. Qed.

Lemma slice_from_chars (n : nat) (s : string) :
  list_ascii_of_string (GoStr.slice_from n s) = drop n (list_ascii_of_string s).
Proof.
  unfold GoStr.slice_from. revert n.
  induction s as [|c s IH]; intros [|n]; simpl; try reflexivity.
  - now rewrite substring_all.
  - apply IH.
Qed.

Lemma list_ascii_of_string_inj (s t : string) :
  list_ascii_of_string s = list_ascii_of_string t -> s = t.
Proof.
  intros E. rewrite <- (string_of_list_ascii_of_string s),
    <- (string_of_list_ascii_of_string t). now rewrite E.
Qed.

Lemma length_list_ascii (s : string) :
  length (list_ascii_of_string s) = String.length s.
Proof. induction s; simpl; congruence. Qed.

Lemma lastChars_slice (n : nat) (s : string) :
  Internal.lastChars n s = list_ascii_of_string (GoStr.slice_from (String.length s - n) s).
Proof.
  unfold Internal.lastChars.
  rewrite slice_from_chars, take_reverse, reverse_involutive, length_list_ascii.
  reflexivity.
Qed.

Lemma append_cons (c : ascii) (s t : string) :
  (String c s ++ t)%string = String c (s ++ t)%string.
Proof. reflexivity. Qed.

Lemma append_nil_r (s : string) : (s ++ "")%string = s.
Proof. induction s as [|c s IH]; [reflexivity|]. now rewrite append_cons, IH. Qed.

Lemma append_assoc (a b c : string) : ((a ++ b) ++ c)%string = (a ++ (b ++ c))%string.
Proof. induction a as [|x a IH]; [reflexivity|]. now rewrite !append_cons, IH. Qed.

Lemma slice_to_1 (c : ascii) (s : string) : GoStr.slice_to 1 (String c s) = String c "".
Proof. unfold GoStr.slice_to. simpl. now destruct s. Qed.

(** ** The response writer *)

Lemma body_WriteHeader (code : Z) (w : Http.ResponseWriter) :
  Http.rw_body (Http.WriteHeader code w) = Http.rw_body w.
Proof. unfold Http.WriteHeader. now destruct (Http.rw_status w). Qed.

Lemma status_WriteHeader (code : Z) (w : Http.ResponseWriter) :
  Http.rw_status (Http.WriteHeader code w) = Some (default code (Http.rw_status w)).
Proof. unfold Http.WriteHeader. now destruct (Http.rw_status w) eqn:E. Qed.

Lemma header_WriteHeader (code : Z) (w : Http.ResponseWriter) :
  Http.rw_header (Http.WriteHeader code w) = Http.rw_header w.
Proof. unfold Http.WriteHeader. now destruct (Http.rw_status w). Qed.

Lemma body_Write (b : Http.Chunk) (w : Http.ResponseWriter) :
  Http.rw_body (Http.Write b w) = Http.rw_body w ++ [b].
Proof. unfold Http.Write. cbn [Http.rw_body]. now rewrite body_WriteHeader. Qed.

Lemma status_Write (b : Http.Chunk) (w : Http.ResponseWriter) :
  Http.rw_status (Http.Write b w) = Some (default 200 (Http.rw_status w)).
Proof. unfold Http.Write. cbn [Http.rw_status]. apply status_WriteHeader. Qed.

Lemma header_Write (b : Http.Chunk) (w : Http.ResponseWriter) :
  Http.rw_header (Http.Write b w) = Http.rw_header w.
Proof. unfold Http.Write. cbn [Http.rw_header]. apply header_WriteHeader. Qed.

Lemma body_SetHeader (k v : string) (w : Http.ResponseWriter) :
  Http.rw_body (Http.SetHeader k v w) = Http.rw_body w.
Proof. reflexivity. Qed.

Lemma status_SetHeader (k v : string) (w : Http.ResponseWriter) :
  Http.rw_status (Http.SetHeader k v w) = Http.rw_status w.
Proof. reflexivity. Qed.

Lemma header_SetHeader (k v : string) (w : Http.ResponseWriter) :
  Http.rw_header (Http.SetHeader k v w) = <[k := [v]]> (Http.rw_header w).
Proof. reflexivity. Qed.

Create Rewrite HintDb writer.
#[export] Hint Rewrite body_Write status_Write header_Write body_WriteHeader
  status_WriteHeader header_WriteHeader body_SetHeader status_SetHeader
  header_SetHeader : writer.

(** ** Route suggestions *)

Lemma similar_eligible (requestedPath known : string) :
  Internal.similar requestedPath known = true <-> Internal.eligible requestedPath known.
Proof.
  unfold Internal.similar, Internal.eligible, Internal.firstChar, GoStr.len.
  rewrite !andb_true_iff, orb_true_iff, !andb_true_iff, !Z.ltb_lt, !String.eqb_eq.
  rewrite !lastChars_slice.
  split.
  - intros [[Hk Hr] [Hfirst | [[Hk3 Hr3] Hlast]]].
    + left. destruct known as [|a k]; [simpl in Hk; lia|].
      destruct requestedPath as [|b q]; [simpl in Hr; lia|].
      rewrite !slice_to_1 in Hfirst. injection Hfirst as ->.
      exists b. now simpl.
    + right. repeat split; [lia | lia | now rewrite Hlast].
  - intros [[c [Hk Hr]] | (Hk3 & Hr3 & Hlast)].
    + destruct known as [|a k]; [discriminate|].
      destruct requestedPath as [|b q]; [discriminate|].
      simpl in Hk, Hr. injection Hk as ->. injection Hr as ->.
      split; [simpl; lia|]. left. now rewrite !slice_to_1.
    + split; [lia|]. right. split; [lia|].
      now apply list_ascii_of_string_inj.
Qed.

(** ** Characters and bytes *)

Lemma slice_from_1 (c : ascii) (s : string) : GoStr.slice_from 1 (String c s) = s.
Proof.
  apply list_ascii_of_string_inj. now rewrite slice_from_chars.
Qed.

Lemma byte_inj (a b : ascii) : Utf8.byte a = Utf8.byte b -> a = b.
Proof.
  unfold Utf8.byte. intros Hab%(inj Z.of_N).
  rewrite <- (ascii_N_embedding a), <- (ascii_N_embedding b). now rewrite Hab.
Qed.

Lemma map_byte_inj (l1 l2 : list ascii) :
  map Utf8.byte l1 = map Utf8.byte l2 -> l1 = l2.
Proof.
  revert l2. induction l1 as [|a l1 IH]; intros [|b l2]; cbn [map]; try discriminate;
    [reflexivity|].
  intros [= Hab Hrest]. f_equal; [now apply byte_inj | now apply IH].
Qed.

(** The characters of an ASCII string are its bytes. *)
Lemma runes_ascii (s : string) :
  Utf8.isASCII s = true -> Utf8.runes s = map Utf8.byte (list_ascii_of_string s).
Proof.
  unfold Utf8.runes, Utf8.isASCII.
  induction s as [|c s IH]; [reflexivity|].
  cbn [list_ascii_of_string forallb String.length map].
  intros [Hc Hs]%andb_true_iff. cbn [Utf8.runesFrom Utf8.DecodeRuneInString].
  unfold Utf8.asciiByte in Hc. rewrite Hc, slice_from_1. now rewrite IH.
Qed.

Lemma reverse_map {A B : Type} (f : A -> B) (l : list A) :
  reverse (map f l) = map f (reverse l).
Proof.
  induction l as [|x l IH]; [reflexivity|].
  cbn [map]. now rewrite !reverse_cons, map_app, IH.
Qed.

Lemma lastRunes_ascii (n : nat) (s : string) :
  Utf8.isASCII s = true -> Internal.lastRunes n s = map Utf8.byte (Internal.lastChars n s).
Proof.
  intros Hs. unfold Internal.lastRunes, Internal.lastChars.
  now rewrite (runes_ascii s Hs), reverse_map, firstn_map, reverse_map.
Qed.

(** On ASCII paths the rule on characters and the rule on bytes agree. *)
Lemma eligibleByCharacters_ascii (requestedPath known : string) :
  Utf8.isASCII requestedPath = true -> Utf8.isASCII known = true ->
  Internal.eligibleByCharacters requestedPath known <-> Internal.eligible requestedPath known.
Proof.
  intros Hr Hk. unfold Internal.eligibleByCharacters, Internal.eligible, Internal.firstChar.
  rewrite !(lastRunes_ascii 3) by assumption.
  rewrite (runes_ascii _ Hr), (runes_ascii _ Hk), !length_map, !length_list_ascii.
  assert (Hhead : forall s, head (map Utf8.byte (list_ascii_of_string s))
                            = Utf8.byte <$> String.get 0 s) by (intros [|c s]; reflexivity).
  rewrite !Hhead. split.
  - intros [(r & Hkr & Hrr) | (Hk3 & Hr3 & Hlast)].
    + left. destruct (String.get 0 known) as [a|]; [|discriminate].
      destruct (String.get 0 requestedPath) as [b|]; [|discriminate].
      cbn in Hkr, Hrr. exists a. split; [reflexivity|]. f_equal.
      apply byte_inj. congruence.
    + right. repeat split; [exact Hk3 | exact Hr3 | now apply map_byte_inj].
  - intros [(c & Hkc & Hrc) | (Hk3 & Hr3 & Hlast)].
    + left. exists (Utf8.byte c). now rewrite Hkc, Hrc.
    + right. repeat split; [exact Hk3 | exact Hr3 | now rewrite Hlast].
Qed.

(** C8 (amended). [SuggestSimilarRoutes] returns the first three (at
    most) of the known paths that pass the test of its loop, in their
    order in the list, and a path passes that test exactly when it shares
    its first byte with the requested path, or when both have more than
    three bytes and the same last three bytes.  For ASCII paths this is the
    rule on characters: same first character, or both longer than three
    characters with equal last three characters. *)
Theorem SuggestSimilarRoutes_spec (requestedPath : string) (knownPaths : list string) :
  let suggestions := Internal.SuggestSimilarRoutes requestedPath knownPaths in
  (length suggestions <= 3)%nat
  /\ suggestions = take 3 (List.filter (Internal.similar requestedPath) knownPaths)
  /\ (forall p, p ∈ suggestions -> p ∈ knownPaths /\ Internal.eligible requestedPath p)
  /\ (forall p, Internal.similar requestedPath p = true <-> Internal.eligible requestedPath p)
  /\ (forall p, Utf8.isASCII requestedPath = true -> Utf8.isASCII p = true ->
        (Internal.similar requestedPath p = true
         <-> Internal.eligibleByCharacters requestedPath p)).
Proof.
  intros suggestions.
  assert (Hshape : suggestions = take 3 (List.filter (Internal.similar requestedPath) knownPaths)).
  { unfold suggestions, Internal.SuggestSimilarRoutes.
    destruct (Z.ltb_spec 3 (Z.of_nat (length (List.filter (Internal.similar requestedPath) knownPaths))))
      as [Hlt | Hge]; [reflexivity|].
    symmetry. apply take_ge. lia. }
  split; [|split; [exact Hshape|split; [|split]]].
  - rewrite Hshape, length_take. lia.
  - intros p Hp. rewrite Hshape in Hp.
    apply (subseteq_take 3), list_elem_of_In, List.filter_In in Hp as [Hin Hsim].
    split; [now apply list_elem_of_In | now apply similar_eligible].
  - intros p. apply similar_eligible.
  - intros p Hr Hp. rewrite similar_eligible. symmetry.
    now apply eligibleByCharacters_ascii.
Qed.

(** The claim as stated, on characters, fails on paths that are not ASCII:
    the two-byte characters of [éa] and [èb] start with the same byte, so
    [èb] is suggested for [éa], although the first characters differ and
    neither path has more than three characters. *)
Lemma SuggestSimilarRoutes_compares_bytes :
  Utf8.runes "éa" = [233; 97] /\ Utf8.runes "èb" = [232; 98]
  /\ Internal.SuggestSimilarRoutes "éa" ["èb"] = ["èb"]
  /\ ~ Internal.eligibleByCharacters "éa" "èb".
Proof.
  split; [reflexivity|]. split; [reflexivity|]. split; [reflexivity|].
  intros [(r & Hknown & Hrequested) | (Hlong & _)].
  - vm_compute in Hknown, Hrequested. congruence.
  - vm_compute in Hlong. lia.
Qed.

(** ** Package gofsen: the middleware chain *)

(** One call of [Next] with the cursor just before position [i]. *)
Lemma Next_step (depth : nat) (chain : list Gofsen.MiddlewareFunc) (c : Gofsen.Context)
    (i : nat) (step : Gofsen.MiddlewareFunc) :
  Gofsen.middlewareIndex c = Z.of_nat i - 1 ->
  chain !! i = Some step ->
  Gofsen.Next (S depth) chain c =
  step (Gofsen.Next depth chain)
    (Gofsen.invoked (Z.of_nat i) (Gofsen.with_middlewareIndex (Z.of_nat i) c)).
Proof.
  intros Hidx Hstep. cbn [Gofsen.Next]. cbv zeta.
  assert (Hset : forall j, Gofsen.middlewareIndex (Gofsen.with_middlewareIndex j c) = j)
    by reflexivity.
  rewrite !Hset, Hidx.
  replace (Z.of_nat i - 1 + 1) with (Z.of_nat i) by lia.
  pose proof (lookup_lt_Some _ _ _ Hstep) as Hlt.
  destruct (Z.ltb_spec (Z.of_nat i) (Z.of_nat (length chain))) as [_|]; [|lia].
  destruct (Z.ltb_spec (Z.of_nat i) 0) as [|_]; [lia|].
  rewrite Nat2Z.id. unfold Gofsen.MiddlewareFunc in *. rewrite Hstep. reflexivity.
Qed.

(** A run of middlewares that leave their mark and call [Next] moves the
    cursor over them, in order, and never exhausts the nesting depth. *)
Lemma Next_passing (names : list string) :
  forall (pre rest : list Gofsen.MiddlewareFunc) (depth : nat) (c : Gofsen.Context),
  Gofsen.middlewareIndex c = Z.of_nat (length pre) - 1 ->
  (length names <= depth)%nat ->
  Gofsen.Next depth (pre ++ map Gofsen.passing names ++ rest) c =
  Gofsen.Next (depth - length names) (pre ++ map Gofsen.passing names ++ rest)
    (Gofsen.mkContext (Gofsen.Request c) (Gofsen.ResponseWriter c) (Gofsen.Params c)
       (Gofsen.Query c) (Gofsen.middlewareIndex c + Z.of_nat (length names)) (Gofsen.Now c)
       (Gofsen.Events c ++ names)
       (Gofsen.Invoked c ++ map Z.of_nat (seq (length pre) (length names)))).
Proof.
  induction names as [|n names IH]; intros pre rest depth c Hidx Hdepth.
  - cbn [length map seq]. rewrite Nat.sub_0_r, Z.add_0_r, !app_nil_r. now destruct c.
  - destruct depth as [|d]; [cbn in Hdepth; lia|].
    assert (Hchain : pre ++ map Gofsen.passing (n :: names) ++ rest
                     = (pre ++ [Gofsen.passing n]) ++ map Gofsen.passing names ++ rest)
      by (cbn [map]; now rewrite <- app_assoc).
    rewrite Hchain.
    rewrite (Next_step d _ c (length pre) (Gofsen.passing n) Hidx).
    2:{ rewrite lookup_app_l by (rewrite length_app; cbn; lia).
        rewrite lookup_app_r by lia. now rewrite Nat.sub_diag. }
    unfold Gofsen.passing at 1.
    rewrite (IH (pre ++ [Gofsen.passing n]) rest d).
    2:{ cbn [Gofsen.middlewareIndex Gofsen.emit Gofsen.invoked Gofsen.with_middlewareIndex].
        rewrite length_app. cbn [length]. lia. }
    2:{ cbn in Hdepth. lia. }
    cbn [length Nat.sub]. f_equal.
    cbn [Gofsen.Request Gofsen.ResponseWriter Gofsen.Params Gofsen.Query
         Gofsen.middlewareIndex Gofsen.Now Gofsen.Events Gofsen.Invoked
         Gofsen.emit Gofsen.invoked Gofsen.with_middlewareIndex].
    rewrite length_app. cbn [length seq map].
    rewrite <- !app_assoc. cbn [app].
    replace (length pre + 1)%nat with (S (length pre)) by lia.
    f_equal. lia.
Qed.

Lemma Next_passing_in (names : list string) (pre rest : list Gofsen.MiddlewareFunc)
    (depth : nat) (c : Gofsen.Context) (chain : list Gofsen.MiddlewareFunc) :
  chain = pre ++ map Gofsen.passing names ++ rest ->
  Gofsen.middlewareIndex c = Z.of_nat (length pre) - 1 ->
  (length names <= depth)%nat ->
  Gofsen.Next depth chain c =
  Gofsen.Next (depth - length names) chain
    (Gofsen.mkContext (Gofsen.Request c) (Gofsen.ResponseWriter c) (Gofsen.Params c)
       (Gofsen.Query c) (Gofsen.middlewareIndex c + Z.of_nat (length names)) (Gofsen.Now c)
       (Gofsen.Events c ++ names)
       (Gofsen.Invoked c ++ map Z.of_nat (seq (length pre) (length names)))).
Proof. intros ->. apply Next_passing. Qed.

(** ** Package gofsen: route resolution *)

Section GofsenRouting.
Context `{RE : Gofsen.RegexpLib}.

Lemma findRouteIn_app (pre rest : list Gofsen.Route) (method path : string) :
  Gofsen.findRouteIn (pre ++ rest) method path =
  match Gofsen.findRouteIn pre method path with
  | Some found => Some found
  | None => Gofsen.findRouteIn rest method path
  end.
Proof.
  induction pre as [|rt pre IH]; simpl; [reflexivity|].
  destruct (Gofsen.matchRoute rt method path); [reflexivity | exact IH].
Qed.

Lemma findRouteIn_no_match (rs : list Gofsen.Route) (method path : string) :
  Forall (fun rt => Gofsen.matchRoute rt method path = None) rs ->
  Gofsen.findRouteIn rs method path = None.
Proof.
  induction 1 as [|rt rs Hrt _ IH]; simpl; [reflexivity|]. now rewrite Hrt.
Qed.

Lemma findRouteIn_first_match (pre post : list Gofsen.Route) (rt : Gofsen.Route)
    (method path : string) (ps : gmap string string) :
  Forall (fun x => Gofsen.matchRoute x method path = None) pre ->
  Gofsen.matchRoute rt method path = Some ps ->
  Gofsen.findRouteIn (pre ++ rt :: post) method path = Some (rt, ps).
Proof.
  intros Hpre Hrt. rewrite findRouteIn_app, (findRouteIn_no_match _ _ _ Hpre).
  simpl. now rewrite Hrt.
Qed.

Lemma matchRoute_static (rt : Gofsen.Route) :
  Gofsen.Pattern rt = None ->
  Gofsen.matchRoute rt (Gofsen.Method rt) (Gofsen.Path rt) = Some ∅.
Proof.
  intros Hpat. unfold Gofsen.matchRoute. now rewrite !String.eqb_refl, Hpat.
Qed.

(** A request that resolves to no route gets the fixed 404 answer, written
    on the context [ServeHTTP] has just built. *)
Lemma ServeHTTP_no_route (r : Gofsen.Router) (now : string) (events : list string)
    (w : Http.ResponseWriter) (req : Http.Request) :
  Gofsen.findRoute r (Http.Method req) (Http.URL_Path req) = None ->
  Gofsen.ServeHTTP r now events w req =
  Gofsen.Returned
    (Gofsen.mkContext req
       (Http.Encode (Http.JObj [("error", Http.JStr "Route not found")])
          (Http.SetHeader "Content-Type" "application/json" (Http.WriteHeader 404 w)))
       ∅ (Gofsen.parseQuery (Http.URL_RawQuery req)) (-1) now events []).
Proof. intros Hnone. unfold Gofsen.ServeHTTP. now rewrite Hnone. Qed.

(** C1 (amended). Resolution returns the first route, in registration
    order, that matches the request under its method.  A static route
    registered for (method, path) is therefore returned with an empty
    parameter map when no route registered before it matches; a route
    registered earlier that matches, dynamic or not, is returned instead. *)
Theorem findRoute_first_registered (r : Gofsen.Router) (method path : string)
    (pre post : list Gofsen.Route) (rt : Gofsen.Route) :
  Gofsen.routes r = pre ++ rt :: post ->
  Forall (fun x => Gofsen.matchRoute x method path = None) pre ->
  (forall ps, Gofsen.matchRoute rt method path = Some ps ->
              Gofsen.findRoute r method path = Some (rt, ps))
  /\ (Gofsen.Method rt = method -> Gofsen.Path rt = path -> Gofsen.Pattern rt = None ->
      Gofsen.findRoute r method path = Some (rt, ∅)).
Proof.
  intros Hroutes Hpre. unfold Gofsen.findRoute. rewrite Hroutes. split.
  - intros ps Hrt. now apply findRouteIn_first_match.
  - intros <- <- Hpat. apply findRouteIn_first_match; [exact Hpre|].
    now apply matchRoute_static.
Qed.

(** C10. When the request resolves to no route, [ServeHTTP] returns after
    writing the 404 answer: the status is 404 on a fresh writer, the body
    gains the one document [{error: Route not found}], no position of the
    middleware chain is called, the cursor has not moved and the marks of
    user code are those the request started with, whatever middlewares are
    registered. *)
Theorem ServeHTTP_not_found_runs_no_middleware (r : Gofsen.Router) (now : string)
    (events : list string) (w : Http.ResponseWriter) (req : Http.Request) :
  Gofsen.findRoute r (Http.Method req) (Http.URL_Path req) = None ->
  exists c,
    Gofsen.ServeHTTP r now events w req = Gofsen.Returned c
    /\ Gofsen.Invoked c = []
    /\ Gofsen.middlewareIndex c = -1
    /\ Gofsen.Events c = events
    /\ Http.rw_body (Gofsen.ResponseWriter c) =
         Http.rw_body w ++ [Http.JSONDoc (Http.JObj [("error", Http.JStr "Route not found")])]
    /\ (Http.rw_status w = None -> Http.rw_status (Gofsen.ResponseWriter c) = Some 404).
Proof.
  intros Hnone. eexists. split; [apply ServeHTTP_no_route; exact Hnone|].
  cbn [Gofsen.Invoked Gofsen.middlewareIndex Gofsen.Events Gofsen.ResponseWriter].
  repeat split.
  - unfold Http.Encode. now autorewrite with writer.
  - intros Hfresh. unfold Http.Encode. autorewrite with writer. now rewrite Hfresh.
Qed.

(** A second registration of a (method, template) pair is never reached:
    whatever it would match, the first one matches before it. *)
Lemma findRoute_addRoute_twice (r : Gofsen.Router) (m t : string)
    (h1 h2 : Gofsen.HandlerFunc) (method path : string) :
  Gofsen.findRoute (Gofsen.addRoute m t h2 (Gofsen.addRoute m t h1 r)) method path =
  Gofsen.findRoute (Gofsen.addRoute m t h1 r) method path.
Proof.
  unfold Gofsen.findRoute, Gofsen.addRoute.
  destruct (Gofsen.convertPathToRegex t) as [pattern params]. cbn [Gofsen.routes].
  rewrite (findRouteIn_app (_ ++ _)).
  destruct (Gofsen.findRouteIn (Gofsen.routes r ++ _) method path) eqn:Hfirst;
    [reflexivity|].
  rewrite findRouteIn_app in Hfirst.
  destruct (Gofsen.findRouteIn (Gofsen.routes r) method path); [discriminate|].
  cbn [Gofsen.findRouteIn] in Hfirst |- *.
  unfold Gofsen.matchRoute in *. cbn [Gofsen.Method Gofsen.Pattern Gofsen.Path
    Gofsen.Route_Params] in *.
  destruct (String.eqb m method); [|reflexivity].
  destruct pattern as [pat|].
  - destruct (Gofsen.FindStringSubmatch pat path); [discriminate|reflexivity].
  - destruct (String.eqb t path); [discriminate|reflexivity].
Qed.

Lemma ServeHTTP_addRoute_twice (r : Gofsen.Router) (m t : string)
    (h1 h2 : Gofsen.HandlerFunc) (now : string) (events : list string)
    (w : Http.ResponseWriter) (req : Http.Request) :
  Gofsen.ServeHTTP (Gofsen.addRoute m t h2 (Gofsen.addRoute m t h1 r)) now events w req =
  Gofsen.ServeHTTP (Gofsen.addRoute m t h1 r) now events w req.
Proof.
  unfold Gofsen.ServeHTTP. rewrite findRoute_addRoute_twice.
  unfold Gofsen.addRoute. now destruct (Gofsen.convertPathToRegex t).
Qed.

(** Global middlewares that call [Next] run in registration order, then
    the handler of the resolved route, on the parameters of the match. *)
Lemma ServeHTTP_chain_order (r : Gofsen.Router) (names : list string) (now : string)
    (events : list string) (w : Http.ResponseWriter) (req : Http.Request)
    (rt : Gofsen.Route) (ps : gmap string string) :
  Gofsen.middlewares r = map Gofsen.passing names ->
  Gofsen.findRoute r (Http.Method req) (Http.URL_Path req) = Some (rt, ps) ->
  exists next,
    Gofsen.ServeHTTP r now events w req =
    Gofsen.Handler rt next
      (Gofsen.mkContext req w ps (Gofsen.parseQuery (Http.URL_RawQuery req))
         (Z.of_nat (length names)) now (events ++ names)
         (map Z.of_nat (seq 0 (S (length names))))).
Proof.
  intros Hmws Hfound. unfold Gofsen.ServeHTTP. rewrite Hfound, Hmws.
  set (finalHandler := fun next c => Gofsen.Handler rt next c).
  rewrite length_app, length_map. cbn [length].
  rewrite (Next_passing names [] [finalHandler]) by (cbn; lia).
  cbn [app length Gofsen.Request Gofsen.ResponseWriter Gofsen.Params Gofsen.Query
       Gofsen.middlewareIndex Gofsen.Now Gofsen.Events Gofsen.Invoked
       Gofsen.with_Params].
  replace (length names + 1 - length names)%nat with 1%nat by lia.
  rewrite (Next_step 0 _ _ (length names) finalHandler).
  2:{ cbn [Gofsen.middlewareIndex]. lia. }
  2:{ rewrite lookup_app_r by (rewrite length_map; lia).
      rewrite length_map, Nat.sub_diag. reflexivity. }
  eexists. unfold finalHandler. f_equal.
  unfold Gofsen.invoked, Gofsen.with_middlewareIndex.
  cbn [Gofsen.Request Gofsen.ResponseWriter Gofsen.Params Gofsen.Query
       Gofsen.middlewareIndex Gofsen.Now Gofsen.Events Gofsen.Invoked].
  f_equal. replace (S (length names)) with (length names + 1)%nat by lia.
  rewrite seq_app, map_app. reflexivity.
Qed.


(** A middleware registered on a group changes no answer: the router
    differs in its group store only, which [ServeHTTP] does not read. *)
Lemma RouteGroup_Use_unobservable (r : Gofsen.Router) (g : nat)
    (middleware : Gofsen.MiddlewareFunc) (method path : string) (h : Gofsen.HandlerFunc)
    (now : string) (events : list string) (w : Http.ResponseWriter) (req : Http.Request) :
  Gofsen.ServeHTTP
    (Gofsen.RouteGroup_addRoute g method path h (Gofsen.RouteGroup_Use g middleware r))
    now events w req =
  Gofsen.ServeHTTP (Gofsen.RouteGroup_addRoute g method path h r) now events w req.
Proof.
  unfold Gofsen.RouteGroup_addRoute, Gofsen.RouteGroup_Use. cbn [Gofsen.heap].
  rewrite list_lookup_alter_eq.
  destruct (Gofsen.heap r !! g) as [grp|]; cbn [fmap option_fmap option_map Gofsen.prefix];
    [|reflexivity].
  unfold Gofsen.addRoute. now destruct (Gofsen.convertPathToRegex _).
Qed.

End GofsenRouting.

(** ** Package gofsen: templates with one parameter *)

Lemma matchSeg_last (taken s : string) :
  Gofsen.matchSeg (Gofsen.matchToks []) taken s =
  if negb (GoStr.ContainsByte s "/") && negb (String.eqb (taken ++ s) "")
  then Some [(taken ++ s)%string] else None.
Proof.
  revert taken. induction s as [|c s IH]; intros taken.
  - cbn. rewrite append_nil_r. now destruct (String.eqb taken "").
  - cbn [Gofsen.matchSeg GoStr.ContainsByte].
    assert (Hne : String.eqb (taken ++ String c s) "" = false).
    { destruct taken; reflexivity. }
    destruct (Ascii.eqb c "/") eqn:Hc.
    + cbn. now destruct (String.eqb taken "").
    + rewrite IH, append_assoc, append_cons. change ("" ++ s)%string with s. rewrite Hne.
      destruct (negb (GoStr.ContainsByte s "/")); cbn; [reflexivity|].
      now destruct (String.eqb taken "").
Qed.

Lemma matchToks_Lit (c : ascii) (p : list Gofsen.Tok) (s : string) (caps : list string) :
  Gofsen.matchToks (Gofsen.Lit c :: p) s = Some caps <->
  exists s', s = String c s' /\ Gofsen.matchToks p s' = Some caps.
Proof.
  cbn [Gofsen.matchToks]. split.
  - destruct s as [|c' s']; [discriminate|].
    destruct (Ascii.eqb_spec c c') as [->|]; [|discriminate]. eauto.
  - intros (s' & -> & Hm). now rewrite Ascii.eqb_refl.
Qed.

(** The expression compiled from [/users/:id]. *)
Lemma users_id_pattern (path : string) (caps : list string) :
  Gofsen.matchToks
    [Gofsen.Lit "/"; Gofsen.Lit "u"; Gofsen.Lit "s"; Gofsen.Lit "e"; Gofsen.Lit "r";
     Gofsen.Lit "s"; Gofsen.Lit "/"; Gofsen.Seg] path = Some caps <->
  exists v, path = ("/users/" ++ v)%string /\ v <> ""
            /\ GoStr.ContainsByte v "/" = false /\ caps = [v].
Proof.
  repeat setoid_rewrite matchToks_Lit.
  cbn [Gofsen.matchToks]. setoid_rewrite matchSeg_last.
  split.
  - intros (s1 & -> & s2 & -> & s3 & -> & s4 & -> & s5 & -> & s6 & -> & s7 & -> & Hm).
    exists s7. change ("" ++ s7)%string with s7 in Hm.
    destruct (GoStr.ContainsByte s7 "/"); [discriminate|].
    destruct (String.eqb_spec s7 ""); [discriminate|].
    cbn in Hm. injection Hm as <-. auto.
  - intros (v & -> & Hne & Hns & ->).
    do 7 (eexists; split; [reflexivity|]).
    change ("" ++ v)%string with v. rewrite Hns.
    destruct (String.eqb_spec v ""); [contradiction|reflexivity].
Qed.

(** C4. With [/users/:id] registered under GET, [/users/42] resolves to
    that route with parameters [{id: 42}]; [/users] resolves to nothing and
    is answered with the 404 of a route not found.  In general a path
    resolves exactly when it is [/users/] followed by one non-empty segment
    without a slash, and that segment is the value of [id]. *)
Theorem users_id_template (h : Gofsen.HandlerFunc) :
  let r := Gofsen.GET "/users/:id" h Gofsen.New in
  (exists rt, Gofsen.findRoute r "GET" "/users/42" = Some (rt, {["id" := "42"]})
              /\ Gofsen.Path rt = "/users/:id")
  /\ Gofsen.findRoute r "GET" "/users" = None
  /\ (forall now events q hd, exists c,
        Gofsen.ServeHTTP r now events Http.NewRecorder (Http.mkRequest "GET" "/users" q hd)
          = Gofsen.Returned c
        /\ Http.rw_status (Gofsen.ResponseWriter c) = Some 404
        /\ Http.rw_body (Gofsen.ResponseWriter c)
           = [Http.JSONDoc (Http.JObj [("error", Http.JStr "Route not found")])]
        /\ Gofsen.Events c = events)
  /\ (forall path ps,
        (exists rt, Gofsen.findRoute r "GET" path = Some (rt, ps)) <->
        (exists v, path = ("/users/" ++ v)%string /\ v <> ""
                   /\ GoStr.ContainsByte v "/" = false /\ ps = {["id" := v]})).
Proof.
  intros r.
  assert (Hgen : forall path ps,
    (exists rt, Gofsen.findRoute r "GET" path = Some (rt, ps)) <->
    (exists v, path = ("/users/" ++ v)%string /\ v <> ""
               /\ GoStr.ContainsByte v "/" = false /\ ps = {["id" := v]})).
  { intros path ps. unfold Gofsen.findRoute.
    change (Gofsen.routes r) with
      [Gofsen.mkRoute "GET" "/users/:id" h
         (Some [Gofsen.Lit "/"; Gofsen.Lit "u"; Gofsen.Lit "s"; Gofsen.Lit "e";
                Gofsen.Lit "r"; Gofsen.Lit "s"; Gofsen.Lit "/"; Gofsen.Seg]) ["id"]].
    cbn [Gofsen.findRouteIn]. unfold Gofsen.matchRoute.
    cbn [Gofsen.Method Gofsen.Pattern Gofsen.Route_Params Gofsen.FindStringSubmatch
         Gofsen.SegmentRegexp].
    change ("GET" =? "GET")%string with true. cbv iota.
    destruct (Gofsen.matchToks _ path) as [caps|] eqn:Hm.
    - apply users_id_pattern in Hm as (v & -> & Hne & Hns & ->).
      cbn [fmap option_fmap option_map].
      change (Gofsen.bindParams ["id"] [("/users/" ++ v)%string; v])
        with ({["id" := v]} : gmap string string).
      split.
      + intros [rt [= <- <-]]. eauto.
      + intros (v' & Hv' & _ & _ & ->). apply String.app_inj in Hv' as <-. eauto.
    - cbn [fmap option_fmap option_map]. split; [intros [rt [=]]|].
      intros (v & -> & Hne & Hns & _).
      assert (Hsome : Gofsen.matchToks
        [Gofsen.Lit "/"; Gofsen.Lit "u"; Gofsen.Lit "s"; Gofsen.Lit "e"; Gofsen.Lit "r";
         Gofsen.Lit "s"; Gofsen.Lit "/"; Gofsen.Seg] ("/users/" ++ v) = Some [v])
        by (apply users_id_pattern; eauto).
      congruence. }
  assert (Hnone : Gofsen.findRoute r "GET" "/users" = None) by reflexivity.
  split; [|split; [exact Hnone|split; [|exact Hgen]]].
  - eexists. split; reflexivity.
  - intros now events q hd. eexists. split.
    + apply ServeHTTP_no_route. exact Hnone.
    + repeat split; reflexivity.
Qed.

(** ** Package gofsen: registration order *)

(** C1, as stated, fails: with [/users/:id] registered before the static
    [/users/new], both under GET, the static route is in the table, yet
    [GET /users/new] resolves to the dynamic route with [{id: new}] and
    not to a route with empty parameters. *)
Lemma findRoute_earlier_dynamic_shadows_static :
  let r := Gofsen.GET "/users/new" (Gofsen.record "static")
             (Gofsen.GET "/users/:id" (Gofsen.record "dynamic") Gofsen.New) in
  (exists rt, rt ∈ Gofsen.routes r /\ Gofsen.Method rt = "GET"
              /\ Gofsen.Path rt = "/users/new" /\ Gofsen.Pattern rt = None)
  /\ (exists rt, Gofsen.findRoute r "GET" "/users/new" = Some (rt, {["id" := "new"]})
                 /\ Gofsen.Path rt = "/users/:id")
  /\ ~ (exists rt, Gofsen.findRoute r "GET" "/users/new" = Some (rt, ∅)).
Proof.
  intros r. split; [|split].
  - exists (Gofsen.mkRoute "GET" "/users/new" (Gofsen.record "static") None []).
    split; [|repeat split].
    apply list_elem_of_In. right. left. reflexivity.
  - eexists. split; [vm_compute; reflexivity | reflexivity].
  - intros [rt Hrt]. vm_compute in Hrt. discriminate Hrt.
Qed.

(** With the static route registered first it is the one returned, with
    empty parameters. *)
Lemma findRoute_first_registered_witness :
  let static := Gofsen.mkRoute "GET" "/users/new" (Gofsen.record "static") None [] in
  let r := Gofsen.GET "/users/:id" (Gofsen.record "dynamic")
             (Gofsen.GET "/users/new" (Gofsen.record "static") Gofsen.New) in
  Gofsen.findRoute r "GET" "/users/new" = Some (static, ∅).
Proof.
  intros static r.
  refine (proj2 (findRoute_first_registered r "GET" "/users/new" [] _ static _ _) _ _ _).
  - reflexivity.
  - constructor.
  - reflexivity.
  - reflexivity.
  - reflexivity.
Defined.

(** A router with a Logger, a Recovery and one route: a request for
    another path runs none of them. *)
Lemma ServeHTTP_not_found_runs_no_middleware_witness :
  let r := Gofsen.GET "/test" (Gofsen.record "handler")
             (Gofsen.Use Gofsen.Recovery (Gofsen.Use Gofsen.Logger Gofsen.New)) in
  let req := Http.mkRequest "GET" "/nonexistent" "" ∅ in
  Gofsen.findRoute r (Http.Method req) (Http.URL_Path req) = None
  /\ exists c,
      Gofsen.ServeHTTP r "2024-01-01T00:00:00Z" [] Http.NewRecorder req = Gofsen.Returned c
      /\ Gofsen.Invoked c = []
      /\ Gofsen.middlewareIndex c = -1
      /\ Gofsen.Events c = []
      /\ Http.rw_body (Gofsen.ResponseWriter c) =
           Http.rw_body Http.NewRecorder
           ++ [Http.JSONDoc (Http.JObj [("error", Http.JStr "Route not found")])]
      /\ (Http.rw_status Http.NewRecorder = None ->
          Http.rw_status (Gofsen.ResponseWriter c) = Some 404).
Proof.
  intros r req. split; [reflexivity|].
  apply (ServeHTTP_not_found_runs_no_middleware r "2024-01-01T00:00:00Z" []
           Http.NewRecorder req).
  reflexivity.
Defined.

(** C7, as stated, fails on the gofsen router: after two registrations of
    [GET /x] a request for it runs the first handler and not the second. *)
Lemma gofsen_second_registration_not_run :
  let r := Gofsen.GET "/x" (Gofsen.record "second")
             (Gofsen.GET "/x" (Gofsen.record "first") Gofsen.New) in
  exists c,
    Gofsen.ServeHTTP r "2024-01-01T00:00:00Z" [] Http.NewRecorder
      (Http.mkRequest "GET" "/x" "" ∅) = Gofsen.Returned c
    /\ Gofsen.Events c = ["first"].
Proof. intros r. eexists. split; [vm_compute; reflexivity | reflexivity]. Qed.

(** ** Package gofsen: group middleware *)

(** C2 on the gofsen router.  A middleware registered on a group changes
    no answer of the router: a route registered on the group is served as
    if the group had no middleware.  At the example of the claim, with
    global middlewares A and B, a group with middleware C and a route
    registered on the group: the group holds C, the request runs A, B and
    the handler, and C is not run; the chain has the positions 0, 1 and 2
    only. *)
Theorem gofsen_group_middleware_not_run `{RE : Gofsen.RegexpLib} :
  (forall r g middleware method path h now events w req,
     Gofsen.ServeHTTP
       (Gofsen.RouteGroup_addRoute g method path h (Gofsen.RouteGroup_Use g middleware r))
       now events w req =
     Gofsen.ServeHTTP (Gofsen.RouteGroup_addRoute g method path h r) now events w req)
  /\ (let '(r0, g) := Gofsen.Group "/api"
                        (Gofsen.Use (Gofsen.passing "B")
                           (Gofsen.Use (Gofsen.passing "A") Gofsen.New)) in
      let r := Gofsen.RouteGroup_GET g "/x" (Gofsen.record "handler")
                 (Gofsen.RouteGroup_Use g (Gofsen.passing "C") r0) in
      (length <$> (Gofsen.group_middlewares <$> Gofsen.heap r !! g)) = Some 1%nat
      /\ exists c,
          Gofsen.ServeHTTP r "2024-01-01T00:00:00Z" [] Http.NewRecorder
            (Http.mkRequest "GET" "/api/x" "" ∅) = Gofsen.Returned c
          /\ Gofsen.Events c = ["A"; "B"; "handler"]
          /\ Gofsen.Invoked c = [0; 1; 2]%Z).
Proof.
  split; [intros; apply RouteGroup_Use_unobservable|].
  cbn. split; [reflexivity|].
  eexists. split; [vm_compute; reflexivity | split; reflexivity].
Qed.

(** ** internal/router: registration and composition *)

Lemma wrap_foldr (mws : list Internal.Middleware) (h : Internal.HandlerFunc) :
  Internal.wrap mws h = foldr (fun mw next => mw next) h mws.
Proof.
  unfold Internal.wrap. rewrite <- fold_left_rev_right, rev_involutive. reflexivity.
Qed.

Lemma wrap_passing (names : list string) (h : Internal.HandlerFunc) (ctx : Internal.Context) :
  Internal.wrap (map Internal.passing names) h ctx =
  h (Internal.mkContext (Internal.Request ctx) (Internal.Writer ctx) (Internal.Params ctx)
       (Internal.Env ctx) (Internal.Events ctx ++ names)).
Proof.
  rewrite wrap_foldr. revert ctx.
  induction names as [|n names IH]; intros ctx; cbn [map foldr].
  - rewrite app_nil_r. now destruct ctx.
  - unfold Internal.passing at 1. rewrite IH. cbn. rewrite <- app_assoc. reflexivity.

Qed.

Lemma lookup_Handle (method path : string) (h : Internal.HandlerFunc) (r : Internal.Router) :
  Internal.routes (Internal.Handle method path h r) !! method
    ≫= (fun methodRoutes => methodRoutes !! path) = Some h.
Proof.
  unfold Internal.Handle. cbn [Internal.routes].
  rewrite lookup_insert_eq. cbn. apply lookup_insert_eq.
Qed.

Lemma Handle_twice (method path : string) (h1 h2 : Internal.HandlerFunc) (r : Internal.Router) :
  Internal.Handle method path h2 (Internal.Handle method path h1 r) =
  Internal.Handle method path h2 r.
Proof.
  unfold Internal.Handle. cbn [Internal.routes Internal.middlewares].
  rewrite lookup_insert_eq. cbn [from_option id]. now rewrite !insert_insert_eq.
Qed.

Lemma ServeHTTP_Handle (rg : Internal.MapRange) (method path : string)
    (h : Internal.HandlerFunc) (r : Internal.Router) (env : Internal.Ambient)
    (events : list string) (w : Http.ResponseWriter) (q : string)
    (hd : gmap string (list string)) :
  Internal.ServeHTTP rg (Internal.Handle method path h r) env events w
    (Http.mkRequest method path q hd) =
  Internal.wrap (Internal.middlewares r) h
    (Internal.mkContext (Http.mkRequest method path q hd) w ∅ env events).
Proof.
  unfold Internal.ServeHTTP. cbn [Http.Method Http.URL_Path].
  now rewrite lookup_Handle.
Qed.

(** On the internal router a route registered on a group runs behind the
    global middlewares, then the middlewares the group had when the route
    was registered, each in registration order. *)
Lemma internal_group_chain (rg : Internal.MapRange) (g : Internal.RouteGroup)
    (method path : string) (h : Internal.HandlerFunc) (r : Internal.Router)
    (env : Internal.Ambient) (events : list string) (w : Http.ResponseWriter)
    (q : string) (hd : gmap string (list string)) :
  let req := Http.mkRequest method (Internal.prefix g ++ path)%string q hd in
  Internal.ServeHTTP rg (Internal.RouteGroup_Handle g method path h r) env events w req =
  foldr (fun mw next => mw next)
    (foldr (fun mw next => mw next) h (Internal.group_middlewares g))
    (Internal.middlewares r)
    (Internal.mkContext req w ∅ env events).
Proof.
  intros req. unfold Internal.RouteGroup_Handle, req.
  now rewrite ServeHTTP_Handle, !wrap_foldr.
Qed.

Lemma internal_group_chain_order (rg : Internal.MapRange) (globals locals : list string)
    (prefix method path : string) (env : Internal.Ambient) (w : Http.ResponseWriter) :
  let r := Internal.Use (map Internal.passing globals) Internal.emptyRouter in
  let g := Internal.RouteGroup_Use (map Internal.passing locals) (Internal.Group prefix) in
  let req := Http.mkRequest method (prefix ++ path)%string "" ∅ in
  Internal.ServeHTTP rg
    (Internal.RouteGroup_Handle g method path (Internal.record "handler") r) env [] w req =
  Internal.Returned
    (Internal.mkContext req w ∅ env (globals ++ locals ++ ["handler"])).
Proof.
  intros r g req. unfold Internal.RouteGroup_Handle.
  change (Internal.prefix g) with prefix. fold req.
  unfold req at 1. rewrite ServeHTTP_Handle. fold req.
  change (Internal.middlewares r) with (map Internal.passing globals).
  change (Internal.group_middlewares g) with (map Internal.passing locals).
  rewrite !wrap_passing. cbn. unfold Internal.record, Internal.emit. cbn.
  now rewrite <- app_assoc.
Qed.

(** C7 (amended). On the internal router the second registration of a
    (method, path) pair replaces the first: the router is the one the
    second registration alone would give, so the first handler is not in
    it, and a request for the pair runs the second handler behind the
    global middlewares.  On the gofsen router both registrations are kept
    and the second is never reached: every request is resolved and served
    as if the second registration had not been made, so the first handler
    keeps running. *)
Theorem duplicate_registration `{RE : Gofsen.RegexpLib} :
  (forall (r : Internal.Router) (method path : string) (h1 h2 : Internal.HandlerFunc),
      Internal.Handle method path h2 (Internal.Handle method path h1 r)
        = Internal.Handle method path h2 r
      /\ forall rg env events w q hd,
          Internal.ServeHTTP rg
            (Internal.Handle method path h2 (Internal.Handle method path h1 r))
            env events w (Http.mkRequest method path q hd)
          = foldr (fun mw next => mw next) h2 (Internal.middlewares r)
              (Internal.mkContext (Http.mkRequest method path q hd) w ∅ env events))
  /\ (forall (r : Gofsen.Router) (method template : string) (h1 h2 : Gofsen.HandlerFunc),
        let once := Gofsen.addRoute method template h1 r in
        let twice := Gofsen.addRoute method template h2 once in
        (forall m p, Gofsen.findRoute twice m p = Gofsen.findRoute once m p)
        /\ (forall now events w req,
              Gofsen.ServeHTTP twice now events w req = Gofsen.ServeHTTP once now events w req)).
Proof.
  split.
  - intros r method path h1 h2. split; [apply Handle_twice|].
    intros rg env events w q hd.
    now rewrite Handle_twice, ServeHTTP_Handle, wrap_foldr.
  - intros r method template h1 h2 once twice. split.
    + intros m p. apply findRoute_addRoute_twice.
    + intros now events w req. apply ServeHTTP_addRoute_twice.
Qed.

(** ** Error payloads *)

(** What [SendDetailedError] writes: one document after the status and the
    content type, with the members of [ErrorResponse] and, in detailed
    mode only, the details. *)
Lemma SendDetailedError_doc (gl : Internal.GofsenLogger) (code : Z) (message : string)
    (details : option Http.JSON) (ctx : Internal.Context) :
  exists doc,
    Internal.SendDetailedError gl code message details ctx =
      Internal.with_Writer
        (Http.Encode doc
           (Http.WriteHeader code
              (Http.SetHeader "Content-Type" "application/json" (Internal.Writer ctx)))) ctx
    /\ Http.member "error" doc = Some (Http.JStr (Http.StatusText code))
    /\ Http.member "message" doc =
         (if String.eqb message "" then None else Some (Http.JStr message))
    /\ Http.member "path" doc = Some (Http.JStr (Http.URL_Path (Internal.Request ctx)))
    /\ Http.member "method" doc = Some (Http.JStr (Http.Method (Internal.Request ctx)))
    /\ Http.member "timestamp" doc = Some (Http.JStr (Internal.Now (Internal.Env ctx)))
    /\ Http.member "code" doc = Some (Http.JNum code)
    /\ Http.member "details" doc = (if Internal.detailed gl then details else None).
Proof.
  unfold Internal.SendDetailedError, Internal.detailed.
  destruct (Internal.EnableDetailedErrors gl && (Internal.Level gl <=? Internal.LogDebug));
    (eexists; split; [reflexivity|]);
    unfold Internal.DetailedErrorResponse_members, Internal.ErrorResponse_members,
      Internal.omitempty_string; cbn [Internal.de_ErrorResponse Internal.de_Details
      Internal.de_Trace Internal.de_Headers Internal.er_Error Internal.er_Message
      Internal.er_Path Internal.er_Method Internal.er_Timestamp Internal.er_Code
      Internal.er_RequestID];
    destruct (String.eqb message ""); try destruct details; cbn; repeat split; reflexivity.
Qed.

Lemma SendDetailedError_response (gl : Internal.GofsenLogger) (code : Z) (message : string)
    (details : option Http.JSON) (ctx : Internal.Context) (doc : Http.JSON) :
  Internal.SendDetailedError gl code message details ctx =
    Internal.with_Writer
      (Http.Encode doc
         (Http.WriteHeader code
            (Http.SetHeader "Content-Type" "application/json" (Internal.Writer ctx)))) ctx ->
  let w' := Internal.Writer (Internal.SendDetailedError gl code message details ctx) in
  Http.rw_body w' = Http.rw_body (Internal.Writer ctx) ++ [Http.JSONDoc doc]
  /\ (Http.rw_status (Internal.Writer ctx) = None -> Http.rw_status w' = Some code).
Proof.
  intros -> w'. unfold w', Http.Encode. cbn [Internal.Writer Internal.with_Writer].
  autorewrite with writer. split; [reflexivity|]. now intros ->.
Qed.

Lemma ServeHTTP_unmatched (rg : Internal.MapRange) (r : Internal.Router)
    (env : Internal.Ambient) (events : list string) (w : Http.ResponseWriter)
    (req : Http.Request) :
  Internal.routes r !! Http.Method req
    ≫= (fun methodRoutes => methodRoutes !! Http.URL_Path req) = None ->
  exists code message details,
    (code = 404 \/ code = 405) /\ message <> ""
    /\ Internal.ServeHTTP rg r env events w req =
       Internal.Returned
         (Internal.SendDetailedError (Internal.Logger env) code message details
            (Internal.mkContext req w ∅ env events)).
Proof.
  intros Hnone. unfold Internal.ServeHTTP. rewrite Hnone.
  destruct (Internal.allowedMethodsFor rg r (Http.URL_Path req)) as [|first rest].
  - exists 404. do 2 eexists. split; [now left|]. split; [|reflexivity]. discriminate.
  - exists 405. do 2 eexists. split; [now right|]. split; [|reflexivity]. discriminate.
Qed.

(** C5, as stated, fails on the error helpers of the two [Context] types:
    [Error(400, ...)] of package gofsen writes an object with the members
    [error, method, path, status, time], and that of [internal/types] an
    object with the member [error] alone; neither has [message],
    [timestamp] or [code]. *)
Lemma Context_Error_lacks_diagnostic_keys :
  let req := Http.mkRequest "POST" "/users" "" ∅ in
  let c := Gofsen.mkContext req Http.NewRecorder ∅ ∅ 0 "2024-01-01T00:00:00Z" [] [] in
  let ctx := Internal.mkContext req Http.NewRecorder ∅
               (Internal.mkAmbient "2024-01-01T00:00:00Z" Internal.defaultLogger "") [] in
  (exists doc,
     Http.rw_body (Gofsen.ResponseWriter (Gofsen.Context_Error 400 "Invalid JSON" c))
       = [Http.JSONDoc doc]
     /\ Http.keys doc = ["error"; "method"; "path"; "status"; "time"]
     /\ ~ Http.hasKeys Internal.diagnosticKeys doc)
  /\ (exists doc,
       Http.rw_body (Internal.Writer (Internal.Context_Error 400 "Invalid JSON body" ctx))
         = [Http.JSONDoc doc]
       /\ Http.keys doc = ["error"]
       /\ ~ Http.hasKeys Internal.diagnosticKeys doc).
Proof.
  intros req c ctx. split; (eexists; split; [reflexivity|]; split; [reflexivity|]);
    intros Hkeys; unfold Http.hasKeys in Hkeys; rewrite Forall_forall in Hkeys;
    destruct (Hkeys "message") as [j Hj]; try discriminate Hj;
    unfold Internal.diagnosticKeys; set_solver.
Qed.

(** C5 (amended). Every response written by [SendDetailedError] with a
    non-empty message is an object with the members error, message, path,
    method, timestamp and code; the internal router's 404 and 405, the 401s
    of [AuthMiddleware] and the 500 of [RecoveryMiddleware] are written
    that way.  The [Error] helper of [internal/types] writes an object with
    the member error alone, the one of package gofsen an object with
    error, method, path, status and time, and the 404 of the gofsen router
    an object with the member error alone. *)
Theorem error_payload_shapes `{RE : Gofsen.RegexpLib} :
  (forall gl code message details ctx, message <> "" ->
     exists doc,
       Internal.SendDetailedError gl code message details ctx =
         Internal.with_Writer
           (Http.Encode doc
              (Http.WriteHeader code
                 (Http.SetHeader "Content-Type" "application/json" (Internal.Writer ctx)))) ctx
       /\ Http.hasKeys Internal.diagnosticKeys doc)
  /\ (forall rg r env events w req,
        Internal.routes r !! Http.Method req
          ≫= (fun methodRoutes => methodRoutes !! Http.URL_Path req) = None ->
        exists code message details,
          (code = 404 \/ code = 405) /\ message <> ""
          /\ Internal.ServeHTTP rg r env events w req =
             Internal.Returned
               (Internal.SendDetailedError (Internal.Logger env) code message details
                  (Internal.mkContext req w ∅ env events)))
  /\ (forall validate next ctx,
        let token := Http.Header_Get (Http.Header (Internal.Request ctx)) "Authorization" in
        token = "" \/ validate token = false ->
        exists message details,
          message <> ""
          /\ Internal.AuthMiddleware validate next ctx =
             Internal.Returned
               (Internal.SendDetailedError (Internal.Logger (Internal.Env ctx)) 401
                  message details ctx))
  /\ (forall next ctx v c,
        next ctx = Internal.Panicked v c ->
        exists message details,
          message <> ""
          /\ Internal.RecoveryMiddleware next ctx =
             Internal.Returned
               (Internal.SendDetailedError (Internal.Logger (Internal.Env c)) 500
                  message details c))
  /\ (forall status message ctx,
        Internal.Writer (Internal.Context_Error status message ctx) =
          Http.Encode (Http.JObj [("error", Http.JStr message)])
            (Http.WriteHeader status
               (Http.SetHeader "Content-Type" "application/json" (Internal.Writer ctx))))
  /\ (forall code message c, exists doc,
        Gofsen.ResponseWriter (Gofsen.Context_Error code message c) =
          Http.Encode doc
            (Http.SetHeader "Content-Type" "application/json"
               (Http.WriteHeader code (Gofsen.ResponseWriter c)))
        /\ Http.keys doc = ["error"; "method"; "path"; "status"; "time"])
  /\ (forall r now events w req,
        Gofsen.findRoute r (Http.Method req) (Http.URL_Path req) = None ->
        exists c,
          Gofsen.ServeHTTP r now events w req = Gofsen.Returned c
          /\ Gofsen.ResponseWriter c =
             Http.Encode (Http.JObj [("error", Http.JStr "Route not found")])
               (Http.SetHeader "Content-Type" "application/json" (Http.WriteHeader 404 w))).
Proof.
  repeat apply conj.
  - intros gl code message details ctx Hmsg.
    destruct (SendDetailedError_doc gl code message details ctx)
      as (doc & Heq & Herr & Hmessage & Hpath & Hmethod & Htime & Hcode & _).
    exists doc. split; [exact Heq|].
    apply String.eqb_neq in Hmsg. rewrite Hmsg in Hmessage.
    unfold Http.hasKeys, Internal.diagnosticKeys.
    repeat constructor; eauto.
  - intros rg r env events w req. apply ServeHTTP_unmatched.
  - intros validate next ctx token [Htoken | Hinvalid];
      unfold Internal.AuthMiddleware; fold token.
    + rewrite Htoken. do 2 eexists. split; [|reflexivity]. discriminate.
    + destruct (String.eqb token ""); [|rewrite Hinvalid];
        (do 2 eexists; split; [|reflexivity]); discriminate.
  - intros next ctx v c Hpanic. unfold Internal.RecoveryMiddleware. rewrite Hpanic.
    do 2 eexists. split; [|reflexivity]. discriminate.
  - reflexivity.
  - intros code message c. eexists. split; reflexivity.
  - intros r now events w req Hnone. eexists. split; [now apply ServeHTTP_no_route|].
    reflexivity.
Qed.

(** The 404 of the internal router, as [SendDetailedError] writes it. *)
Lemma error_payload_shapes_witness :
  let ctx := Internal.mkContext (Http.mkRequest "GET" "/nonexistent" "" ∅) Http.NewRecorder ∅
               (Internal.mkAmbient "2024-01-01T00:00:00Z" Internal.defaultLogger "") [] in
  "Route non trouvée" <> ""
  /\ exists doc,
      Internal.SendDetailedError Internal.defaultLogger 404 "Route non trouvée" None ctx =
        Internal.with_Writer
          (Http.Encode doc
             (Http.WriteHeader 404
                (Http.SetHeader "Content-Type" "application/json" (Internal.Writer ctx)))) ctx
      /\ Http.hasKeys Internal.diagnosticKeys doc.
Proof.
  intros ctx. split; [discriminate|].
  apply (proj1 (error_payload_shapes (RE := Gofsen.SegmentRegexp))
           Internal.defaultLogger 404 "Route non trouvée" None ctx).
  discriminate.
Defined.

(** ** internal/router: method not allowed *)

Section AllowedMethods.
Variable path : string.

Let visit (entry : string * gmap string Internal.HandlerFunc) : list string :=
  match snd entry !! path with
  | Some _ => [fst entry]
  | None => []
  end.

Lemma elem_of_visited (entries : list (string * gmap string Internal.HandlerFunc))
    (m : string) :
  m ∈ flat_map visit entries <->
  exists methodRoutes, (m, methodRoutes) ∈ entries /\ is_Some (methodRoutes !! path).
Proof.
  induction entries as [|[k v] entries IH]; cbn [flat_map].
  - split; [intros Hm; inversion Hm | intros (mr & Hm & _); inversion Hm].
  - rewrite elem_of_app, IH. unfold visit at 1. cbn [fst snd]. split.
    + intros [Hhere | (mr & Hin & Hsome)].
      * destruct (v !! path) eqn:Hv; [|inversion Hhere].
        apply list_elem_of_singleton in Hhere as ->.
        exists v. split; [left | rewrite Hv; eauto].
      * exists mr. split; [now right | exact Hsome].
    + intros (mr & Hin & Hsome). apply elem_of_cons in Hin as [[= -> ->] | Hin].
      * left. destruct Hsome as [h ->]. left.
      * right. eauto.
Qed.

Lemma NoDup_visited (entries : list (string * gmap string Internal.HandlerFunc)) :
  NoDup entries.*1 -> NoDup (flat_map visit entries).
Proof.
  induction entries as [|[k v] entries IH]; cbn [flat_map fmap list_fmap fst];
    [constructor|].
  intros [Hk Hrest]%NoDup_cons. specialize (IH Hrest).
  unfold visit at 1. cbn [fst snd]. destruct (v !! path); [|exact IH].
  cbn [app]. apply NoDup_cons. split; [|exact IH].
  intros (mr & Hin & _)%elem_of_visited. apply Hk.
  apply list_elem_of_fmap. now exists (k, mr).
Qed.

End AllowedMethods.

(** The list the 405 branch works with holds each method under which the
    path is registered exactly once, in the order the map is visited. *)
Lemma allowedMethodsFor_spec (rg : Internal.MapRange) (r : Internal.Router) (path : string) :
  Internal.range_ok rg ->
  NoDup (Internal.allowedMethodsFor rg r path)
  /\ forall m, m ∈ Internal.allowedMethodsFor rg r path <->
               exists methodRoutes, Internal.routes r !! m = Some methodRoutes
                                    /\ is_Some (methodRoutes !! path).
Proof.
  intros Hrg. unfold Internal.allowedMethodsFor. split.
  - apply NoDup_visited. rewrite (Hrg _ (Internal.routes r)).
    apply NoDup_fst_map_to_list.
  - intros m. rewrite elem_of_visited.
    setoid_rewrite (Hrg _ (Internal.routes r)).
    now setoid_rewrite elem_of_map_to_list.
Qed.

Lemma range_ok_map_to_list : Internal.range_ok (fun A m => map_to_list m).
Proof. intros A m. reflexivity. Qed.

(** C3, as stated, fails in three ways.  On the gofsen router a POST to
    [/health], registered under GET only, is answered 404.  On the internal
    router with the default logger the 405 answer has no details member.
    With the logger at debug level and [/health] registered under GET and
    DELETE, a visit of the map that meets GET first gives
    [allowed_methods = [GET, DELETE]], which is not sorted. *)
Lemma method_not_allowed_counterexample :
  let rg : Internal.MapRange := fun A m => map_to_list m in
  let req := Http.mkRequest "POST" "/health" "" ∅ in
  let now := "2024-01-01T00:00:00Z" in
  Internal.range_ok rg
  /\ (exists c,
        Gofsen.ServeHTTP (Gofsen.GET "/health" (Gofsen.record "health") Gofsen.New)
          now [] Http.NewRecorder req = Gofsen.Returned c
        /\ Http.rw_status (Gofsen.ResponseWriter c) = Some 404
        /\ Http.rw_body (Gofsen.ResponseWriter c)
           = [Http.JSONDoc (Http.JObj [("error", Http.JStr "Route not found")])])
  /\ (exists c doc,
        Internal.ServeHTTP rg
          (Internal.GET "/health" Internal.HealthCheckHandler Internal.emptyRouter)
          (Internal.mkAmbient now Internal.defaultLogger "") [] Http.NewRecorder req
          = Internal.Returned c
        /\ Http.rw_status (Internal.Writer c) = Some 405
        /\ Http.rw_body (Internal.Writer c) = [Http.JSONDoc doc]
        /\ Http.member "details" doc = None)
  /\ (exists c doc,
        Internal.ServeHTTP rg
          (Internal.DELETE "/health" Internal.HealthCheckHandler
             (Internal.GET "/health" Internal.HealthCheckHandler Internal.emptyRouter))
          (Internal.mkAmbient now (Internal.mkLogger Internal.LogDebug true) "") []
          Http.NewRecorder req
          = Internal.Returned c
        /\ Http.rw_body (Internal.Writer c) = [Http.JSONDoc doc]
        /\ Http.member "details" doc ≫= Http.member "allowed_methods"
           = Some (Http.JStrings ["GET"; "DELETE"])
        /\ ~ Sorted String.le ["GET"; "DELETE"]).
Proof.
  intros rg req now. split; [exact range_ok_map_to_list|]. split; [|split].
  - eexists. split; [vm_compute; reflexivity|]. split; reflexivity.
  - do 2 eexists. split; [vm_compute; reflexivity|]. repeat split; reflexivity.
  - do 2 eexists. split; [vm_compute; reflexivity|]. split; [reflexivity|].
    split; [reflexivity|].
    intros Hsorted. apply Sorted_inv in Hsorted as [_ Hhd].
    apply HdRel_inv in Hhd. vm_compute in Hhd. exact Hhd.
Qed.

(** C3 (amended). On the internal router a request whose path has a
    handler under some method but none under its own is answered 405
    (Method Not Allowed).  The allowed methods are collected in the order
    the route map is visited: each method with a handler for the path
    occurs exactly once, in no particular order.  They are sent, as
    [details.allowed_methods], only when the logger is in detailed mode;
    otherwise the answer has no details.  The gofsen router has no 405: a
    request that resolves to no route is answered 404 whatever other
    methods the path is registered under. *)
Theorem method_not_allowed `{RE : Gofsen.RegexpLib} :
  (forall rg r env events w req,
     Internal.range_ok rg ->
     Internal.routes r !! Http.Method req
       ≫= (fun methodRoutes => methodRoutes !! Http.URL_Path req) = None ->
     (exists m methodRoutes, Internal.routes r !! m = Some methodRoutes
                             /\ is_Some (methodRoutes !! Http.URL_Path req)) ->
     exists first rest doc c,
       let allowed := Internal.allowedMethodsFor rg r (Http.URL_Path req) in
       allowed = first :: rest
       /\ NoDup allowed
       /\ (forall m, m ∈ allowed <->
                     exists methodRoutes, Internal.routes r !! m = Some methodRoutes
                                          /\ is_Some (methodRoutes !! Http.URL_Path req))
       /\ Internal.ServeHTTP rg r env events w req = Internal.Returned c
       /\ Http.rw_body (Internal.Writer c) = Http.rw_body w ++ [Http.JSONDoc doc]
       /\ (Http.rw_status w = None -> Http.rw_status (Internal.Writer c) = Some 405)
       /\ Http.member "error" doc = Some (Http.JStr "Method Not Allowed")
       /\ Http.member "code" doc = Some (Http.JNum 405)
       /\ Http.member "details" doc =
            (if Internal.detailed (Internal.Logger env)
             then Some (Http.JObj
                          [("allowed_methods", Http.JStrings allowed);
                           ("suggestion", Http.JStr ("Essayez avec: " ++ first)%string)])
             else None))
  /\ (forall r now events w req,
        Gofsen.findRoute r (Http.Method req) (Http.URL_Path req) = None ->
        exists c,
          Gofsen.ServeHTTP r now events w req = Gofsen.Returned c
          /\ Http.rw_body (Gofsen.ResponseWriter c) =
               Http.rw_body w
               ++ [Http.JSONDoc (Http.JObj [("error", Http.JStr "Route not found")])]
          /\ (Http.rw_status w = None ->
              Http.rw_status (Gofsen.ResponseWriter c) = Some 404)).
Proof.
  split.
  - intros rg r env events w req Hrg Hnone (m & mr & Hm & Hpath).
    destruct (allowedMethodsFor_spec rg r (Http.URL_Path req) Hrg) as [Hnodup Hmem].
    destruct (Internal.allowedMethodsFor rg r (Http.URL_Path req)) as [|first rest] eqn:Hallowed.
    { assert (Hin : m ∈ @nil string) by (apply Hmem; eauto). inversion Hin. }
    pose (details := Some (Http.JObj
      [("allowed_methods", Http.JStrings (first :: rest));
       ("suggestion", Http.JStr ("Essayez avec: " ++ first)%string)])).
    pose (ctx := Internal.mkContext req w ∅ env events).
    destruct (SendDetailedError_doc (Internal.Logger env) 405
                "Méthode HTTP non autorisée pour cette route" details ctx)
      as (doc & Heq & Herr & _ & _ & _ & _ & Hcode & Hdetails).
    destruct (SendDetailedError_response _ _ _ _ _ _ Heq) as [Hbody Hstatus].
    exists first, rest, doc,
      (Internal.SendDetailedError (Internal.Logger env) 405
         "Méthode HTTP non autorisée pour cette route" details ctx).
    cbv zeta. repeat split; try assumption; try apply Hmem.
    unfold Internal.ServeHTTP. now rewrite Hnone, Hallowed.
  - intros r now events w req Hnone. eexists. split; [now apply ServeHTTP_no_route|].
    cbn [Gofsen.ResponseWriter]. unfold Http.Encode. autorewrite with writer.
    split; [reflexivity|]. now intros ->.
Qed.

(** The example of the specification in detailed mode: [/health] under GET
    only, a POST to it. *)
Lemma method_not_allowed_witness :
  let rg : Internal.MapRange := fun A m => map_to_list m in
  let r := Internal.GET "/health" Internal.HealthCheckHandler Internal.emptyRouter in
  let env := Internal.mkAmbient "2024-01-01T00:00:00Z"
               (Internal.mkLogger Internal.LogDebug true) "" in
  let req := Http.mkRequest "POST" "/health" "" ∅ in
  exists first rest doc c,
    Internal.allowedMethodsFor rg r "/health" = first :: rest
    /\ first :: rest = ["GET"]
    /\ Internal.ServeHTTP rg r env [] Http.NewRecorder req = Internal.Returned c
    /\ Http.rw_body (Internal.Writer c) = [Http.JSONDoc doc]
    /\ Http.rw_status (Internal.Writer c) = Some 405
    /\ Http.member "details" doc ≫= Http.member "allowed_methods"
       = Some (Http.JStrings ["GET"]).
Proof.
  intros rg r env req.
  destruct (proj1 (method_not_allowed (RE := Gofsen.SegmentRegexp))
              rg r env [] Http.NewRecorder req range_ok_map_to_list eq_refl)
    as (first & rest & doc & c & Hallowed & _ & _ & Hserve & Hbody & Hstatus & _ & _ & Hdetails).
  { exists "GET". eexists. split; [reflexivity|]. eexists. reflexivity. }
  cbv zeta in Hallowed, Hdetails.
  exists first, rest, doc, c.
  assert (Hget : first :: rest = ["GET"]) by (rewrite <- Hallowed; reflexivity).
  repeat split; try assumption.
  - now apply Hstatus.
  - rewrite Hdetails, Hallowed, Hget. reflexivity.
Defined.

Lemma allowedMethodsFor_single (rg : Internal.MapRange) (r : Internal.Router)
    (path m : string) :
  Internal.range_ok rg ->
  (forall m', (exists methodRoutes, Internal.routes r !! m' = Some methodRoutes
                                    /\ is_Some (methodRoutes !! path)) <-> m' = m) ->
  Internal.allowedMethodsFor rg r path = [m].
Proof.
  intros Hrg Honly.
  destruct (allowedMethodsFor_spec rg r path Hrg) as [Hnodup Hmem].
  assert (Hiff : forall m', m' ∈ Internal.allowedMethodsFor rg r path <-> m' = m).
  { intros m'. now rewrite Hmem. }
  destruct (Internal.allowedMethodsFor rg r path) as [|a [|b rest]].
  - assert (Hin : m ∈ @nil string) by now apply Hiff. inversion Hin.
  - f_equal. apply Hiff. left.
  - assert (a = m) as -> by (apply Hiff; left).
    assert (b = m) as -> by (apply Hiff; right; left).
    apply NoDup_cons in Hnodup as [Hnotin _]. exfalso. apply Hnotin. left.
Qed.

(** [/health] under GET only: whatever the visiting order, the allowed
    methods of a request for [/health] are [[GET]]. *)
Lemma health_allowed_methods (rg : Internal.MapRange) :
  Internal.range_ok rg ->
  Internal.allowedMethodsFor rg
    (Internal.GET "/health" Internal.HealthCheckHandler Internal.emptyRouter) "/health"
  = ["GET"].
Proof.
  intros Hrg. apply allowedMethodsFor_single; [exact Hrg|].
  intros m'. unfold Internal.GET, Internal.Handle, Internal.emptyRouter.
  cbn [Internal.routes Internal.middlewares]. rewrite lookup_empty. cbn [from_option id].
  split.
  - intros (mr & Hmr & _). destruct (decide (m' = "GET")) as [|Hne]; [assumption|].
    rewrite lookup_insert_ne in Hmr by congruence. now rewrite lookup_empty in Hmr.
  - intros ->. eexists. rewrite lookup_insert_eq. split; [reflexivity|].
    rewrite lookup_insert_eq. eauto.
Qed.

(** ** internal/router: dispatch through Recovery *)

Lemma ServeHTTP_found (rg : Internal.MapRange) (r : Internal.Router) (env : Internal.Ambient)
    (events : list string) (w : Http.ResponseWriter) (req : Http.Request)
    (h : Internal.HandlerFunc) :
  Internal.routes r !! Http.Method req
    ≫= (fun methodRoutes => methodRoutes !! Http.URL_Path req) = Some h ->
  Internal.ServeHTTP rg r env events w req =
  foldr (fun mw next => mw next) h (Internal.middlewares r)
    (Internal.mkContext req w ∅ env events).
Proof. intros Hh. unfold Internal.ServeHTTP. now rewrite Hh, wrap_foldr. Qed.


(** ** Recovery *)




(** ** CORS *)

Lemma originAllowed_spec (config : Gofsen.CORSConfig) (origin : string) :
  Gofsen.originAllowed config origin = true <->
  "*" ∈ Gofsen.AllowOrigins config \/ origin ∈ Gofsen.AllowOrigins config.
Proof.
  unfold Gofsen.originAllowed. rewrite existsb_exists. split.
  - intros (o & Hin%list_elem_of_In & Ho). apply orb_true_iff in Ho as [Ho | Ho];
      apply String.eqb_eq in Ho; subst; auto.
  - intros [Hin | Hin]; apply list_elem_of_In in Hin.
    + exists "*". split; [exact Hin | reflexivity].
    + exists origin. split; [exact Hin|]. rewrite String.eqb_refl. apply orb_true_r.
Qed.

(** The context [CORSWithConfig] hands on has the headers of the incoming
    one, plus the allow-origin header when the origin is allowed, under the
    three headers that are always set. *)
Lemma CORSWithConfig_header (config : Gofsen.CORSConfig)
    (next : Gofsen.Context -> Gofsen.Outcome) (c : Gofsen.Context) :
  let origin := Http.Header_Get (Http.Header (Gofsen.Request c)) "Origin" in
  exists c',
    (Gofsen.CORSWithConfig config next c = next c'
     \/ (Http.Method (Gofsen.Request c) = "OPTIONS"
         /\ Gofsen.CORSWithConfig config next c = Gofsen.Returned (Gofsen.Status 204 c')))
    /\ Http.rw_header (Gofsen.ResponseWriter (Gofsen.Status 204 c'))
       = Http.rw_header (Gofsen.ResponseWriter c')
    /\ Http.rw_header (Gofsen.ResponseWriter c') !! "Access-Control-Allow-Origin" =
         (if Gofsen.originAllowed config origin
          then Some [if negb (String.eqb origin "") then origin else "*"]
          else Http.rw_header (Gofsen.ResponseWriter c) !! "Access-Control-Allow-Origin").
Proof.
  intros origin. unfold Gofsen.CORSWithConfig. fold origin.
  eexists. split; [|split].
  - cbn [Gofsen.Request Gofsen.with_ResponseWriter].
    destruct (String.eqb_spec (Http.Method (Gofsen.Request c)) "OPTIONS") as [Hopt|_].
    + right. split; [exact Hopt | reflexivity].
    + left. reflexivity.
  - unfold Gofsen.Status. cbn [Gofsen.ResponseWriter Gofsen.with_ResponseWriter].
    now autorewrite with writer.
  - cbn [Gofsen.ResponseWriter Gofsen.with_ResponseWriter]. autorewrite with writer.
    rewrite !lookup_insert_ne by discriminate.
    destruct (Gofsen.originAllowed config origin); [|reflexivity].
    destruct (negb (String.eqb origin "")); autorewrite with writer;
      apply lookup_insert_eq.
Qed.

(** C9. On a response that has no allow-origin header yet, the context
    [CORSWithConfig] hands to the next step (or answers a preflight with)
    has [Access-Control-Allow-Origin] set to the request's origin exactly
    when the allow-list contains the wildcard or that origin; it is the
    wildcard when the list is exactly the wildcard and the request has no
    origin; and it is not set when the list contains neither the wildcard
    nor the origin. *)
Theorem CORSWithConfig_allow_origin (config : Gofsen.CORSConfig)
    (next : Gofsen.Context -> Gofsen.Outcome) (c : Gofsen.Context) :
  let origin := Http.Header_Get (Http.Header (Gofsen.Request c)) "Origin" in
  Http.rw_header (Gofsen.ResponseWriter c) !! "Access-Control-Allow-Origin" = None ->
  exists c',
    (Gofsen.CORSWithConfig config next c = next c'
     \/ (Http.Method (Gofsen.Request c) = "OPTIONS"
         /\ Gofsen.CORSWithConfig config next c = Gofsen.Returned (Gofsen.Status 204 c')))
    /\ Http.rw_header (Gofsen.ResponseWriter (Gofsen.Status 204 c'))
       = Http.rw_header (Gofsen.ResponseWriter c')
    /\ let allowOrigin :=
         Http.rw_header (Gofsen.ResponseWriter c') !! "Access-Control-Allow-Origin" in
       (origin <> "" ->
        (allowOrigin = Some [origin] <->
         "*" ∈ Gofsen.AllowOrigins config \/ origin ∈ Gofsen.AllowOrigins config))
       /\ (origin = "" -> Gofsen.AllowOrigins config = ["*"] -> allowOrigin = Some ["*"])
       /\ ("*" ∉ Gofsen.AllowOrigins config -> origin ∉ Gofsen.AllowOrigins config ->
           allowOrigin = None).
Proof.
  intros origin Hfresh.
  destruct (CORSWithConfig_header config next c) as (c' & Hrun & Hstatus & Hheader).
  fold origin in Hheader. rewrite Hfresh in Hheader.
  exists c'. split; [exact Hrun|]. split; [exact Hstatus|]. cbv zeta.
  rewrite Hheader. pose proof (originAllowed_spec config origin) as Hspec.
  split; [|split].
  - intros Hne. apply String.eqb_neq in Hne. rewrite Hne. cbn [negb].
    destruct (Gofsen.originAllowed config origin).
    + split; [intros _; now apply Hspec | reflexivity].
    + split; [discriminate|]. intros Hin. apply Hspec in Hin. discriminate.
  - intros Hempty Hlist.
    assert (Hallowed : Gofsen.originAllowed config origin = true).
    { apply Hspec. left. rewrite Hlist. left. }
    rewrite Hallowed, Hempty. reflexivity.
  - intros Hstar Horigin. destruct (Gofsen.originAllowed config origin); [|reflexivity].
    destruct (proj1 Hspec eq_refl); contradiction.
Qed.

(** The example of the specification: allow-list [[https://a.com]] and a
    request from [https://a.com]. *)
Lemma CORSWithConfig_allow_origin_witness :
  let config := Gofsen.mkCORSConfig ["https://a.com"] ["GET"; "POST"] ["Content-Type"] in
  let req := Http.mkRequest "GET" "/test" "" {["Origin" := ["https://a.com"]]} in
  let c := Gofsen.mkContext req Http.NewRecorder ∅ ∅ 0 "2024-01-01T00:00:00Z" [] [] in
  exists c',
    (Gofsen.CORSWithConfig config Gofsen.Returned c = Gofsen.Returned c'
     \/ (Http.Method (Gofsen.Request c) = "OPTIONS"
         /\ Gofsen.CORSWithConfig config Gofsen.Returned c
            = Gofsen.Returned (Gofsen.Status 204 c')))
    /\ Http.rw_header (Gofsen.ResponseWriter c') !! "Access-Control-Allow-Origin"
       = Some ["https://a.com"].
Proof.
  intros config req c.
  destruct (CORSWithConfig_allow_origin config Gofsen.Returned c eq_refl)
    as (c' & Hrun & _ & Hsome & _ & _).
  exists c'. split; [exact Hrun|].
  apply Hsome; [discriminate|]. right. left.
Defined.

(** The other half of the example: a request from [https://b.com] gets no
    allow-origin header. *)
Example CORSWithConfig_other_origin :
  let config := Gofsen.mkCORSConfig ["https://a.com"] ["GET"; "POST"] ["Content-Type"] in
  let req := Http.mkRequest "GET" "/test" "" {["Origin" := ["https://b.com"]]} in
  let c := Gofsen.mkContext req Http.NewRecorder ∅ ∅ 0 "2024-01-01T00:00:00Z" [] [] in
  exists c',
    Gofsen.CORSWithConfig config Gofsen.Returned c = Gofsen.Returned c'
    /\ Http.rw_header (Gofsen.ResponseWriter c') !! "Access-Control-Allow-Origin" = None
    /\ Http.rw_header (Gofsen.ResponseWriter c') !! "Access-Control-Allow-Methods"
       = Some ["GET, POST"].
Proof. intros config req c. eexists. split; [vm_compute; reflexivity|]. split; reflexivity. Qed.

(** Outside the cases above: an allow-list with an empty entry allows a
    request that has no origin, which then gets the wildcard. *)
Example CORSWithConfig_empty_entry :
  let config := Gofsen.mkCORSConfig [""] ["GET"] ["Content-Type"] in
  let req := Http.mkRequest "GET" "/test" "" ∅ in
  let c := Gofsen.mkContext req Http.NewRecorder ∅ ∅ 0 "2024-01-01T00:00:00Z" [] [] in
  exists c',
    Gofsen.CORSWithConfig config Gofsen.Returned c = Gofsen.Returned c'
    /\ Http.rw_header (Gofsen.ResponseWriter c') !! "Access-Control-Allow-Origin"
       = Some ["*"].
Proof. intros config req c. eexists. split; [vm_compute; reflexivity | reflexivity]. Qed.

(* ===================================================================== *)
(** * Further properties                                                  *)
(* ===================================================================== *)

(** ** Splitting and joining *)

Lemma ContainsByte_app (a b : string) (c : ascii) :
  GoStr.ContainsByte (a ++ b) c = GoStr.ContainsByte a c || GoStr.ContainsByte b c.
Proof.
  induction a as [|x a IH]; [reflexivity|].
  rewrite append_cons. cbn [GoStr.ContainsByte]. rewrite IH.
  now destruct (Ascii.eqb x c).
Qed.

Lemma SplitByteAcc_field (field s : string) (sep : ascii) (acc : string) :
  GoStr.ContainsByte field sep = false ->
  GoStr.SplitByteAcc (field ++ s) sep acc = GoStr.SplitByteAcc s sep (acc ++ field).
Proof.
  revert acc. induction field as [|c field IH]; intros acc Hno.
  - now rewrite append_nil_r.
  - cbn [GoStr.ContainsByte] in Hno. rewrite append_cons. cbn [GoStr.SplitByteAcc].
    destruct (Ascii.eqb c sep); [discriminate|].
    rewrite IH by exact Hno. now rewrite append_assoc.
Qed.

Lemma SplitByte_Join (field : string) (fields : list string) (sep : ascii) :
  Forall (fun f => GoStr.ContainsByte f sep = false) (field :: fields) ->
  GoStr.SplitByte (GoStr.Join (field :: fields) (String sep "")) sep = field :: fields.
Proof.
  unfold GoStr.SplitByte. revert field.
  induction fields as [|f fields IH]; intros field Hno.
  - apply Forall_cons in Hno as [Hfield _]. cbn [GoStr.Join].
    rewrite <- (append_nil_r field) at 1. now rewrite SplitByteAcc_field.
  - apply Forall_cons in Hno as [Hfield Hrest].
    change (GoStr.Join (field :: f :: fields) (String sep ""))
      with (field ++ String sep "" ++ GoStr.Join (f :: fields) (String sep ""))%string.
    rewrite SplitByteAcc_field by exact Hfield.
    change (String sep "" ++ ?x)%string with (String sep x).
    cbn [GoStr.SplitByteAcc]. rewrite Ascii.eqb_refl. change ("" ++ field)%string with field.
    f_equal. now apply IH.
Qed.

Lemma SplitByte_Join_fields (fields : list string) (sep : ascii) :
  fields <> [] ->
  Forall (fun f => GoStr.ContainsByte f sep = false) fields ->
  GoStr.SplitByte (GoStr.Join fields (String sep "")) sep = fields.
Proof. destruct fields; [congruence|]. intros _. apply SplitByte_Join. Qed.

Lemma SplitN2Acc_no_sep (s : string) (sep : ascii) (acc : string) :
  GoStr.ContainsByte s sep = false ->
  GoStr.SplitN2Acc s sep acc = [(acc ++ s)%string].
Proof.
  revert acc. induction s as [|c s IH]; intros acc Hno.
  - now rewrite append_nil_r.
  - cbn [GoStr.ContainsByte] in Hno. cbn [GoStr.SplitN2Acc].
    destruct (Ascii.eqb c sep); [discriminate|].
    rewrite IH by exact Hno. now rewrite append_assoc.
Qed.

Lemma SplitN2_pair (k v : string) (sep : ascii) :
  GoStr.ContainsByte k sep = false ->
  GoStr.SplitN2 (k ++ String sep v) sep = [k; v].
Proof.
  unfold GoStr.SplitN2. intros Hno.
  assert (Hgen : forall acc, GoStr.SplitN2Acc (k ++ String sep v) sep acc = [(acc ++ k)%string; v]).
  { induction k as [|c k IH]; intros acc.
    - change ("" ++ String sep v)%string with (String sep v).
      cbn [GoStr.SplitN2Acc]. now rewrite Ascii.eqb_refl, append_nil_r.
    - cbn [GoStr.ContainsByte] in Hno. rewrite append_cons. cbn [GoStr.SplitN2Acc].
      destruct (Ascii.eqb c sep); [discriminate|].
      rewrite IH by exact Hno. now rewrite append_assoc. }
  apply Hgen.
Qed.

(** ** Package gofsen: the query string *)

Lemma append_empty (a b : string) : (a ++ b)%string = "" -> a = "" /\ b = "".
Proof. destruct a; [intros Hb; split; [reflexivity | exact Hb] | discriminate]. Qed.

Lemma encodeQuery_empty (pairs : list (string * string)) :
  Gofsen.encodeQuery pairs = "" -> pairs = [].
Proof.
  unfold Gofsen.encodeQuery. destruct pairs as [|[k v] [|kv rest]]; [reflexivity| |];
    cbn [map GoStr.Join fst snd]; intros Hempty.
  - apply append_empty in Hempty as [_ Hempty]. discriminate.
  - apply append_empty in Hempty as [Hempty _].
    apply append_empty in Hempty as [_ Hempty]. discriminate.
Qed.

Lemma fold_left_insert_pairs (pairs : list (string * string)) (m : gmap string string) :
  fold_left (fun query kv => <[fst kv := snd kv]> query) pairs m =
  foldr (fun kv query => <[fst kv := snd kv]> query) m (reverse pairs).
Proof.
  revert m. induction pairs as [|kv pairs IH]; intros m; [reflexivity|].
  cbn [fold_left]. now rewrite IH, reverse_cons, foldr_app.
Qed.

(** X1. A query string written from pairs whose keys have no [=] and no
    [&] and whose values have no [&] parses back to those pairs; when a
    key occurs several times its last value is kept. *)
Theorem parseQuery_encodeQuery (pairs : list (string * string)) :
  Forall (fun kv => GoStr.ContainsByte (fst kv) "=" = false
                    /\ GoStr.ContainsByte (fst kv) "&" = false
                    /\ GoStr.ContainsByte (snd kv) "&" = false) pairs ->
  Gofsen.parseQuery (Gofsen.encodeQuery pairs) = list_to_map (reverse pairs).
Proof.
  intros Hok. unfold Gofsen.parseQuery.
  destruct (String.eqb_spec (Gofsen.encodeQuery pairs) "") as [Hempty | Hne].
  { apply encodeQuery_empty in Hempty as ->. reflexivity. }
  destruct pairs as [|kv rest]; [now contradict Hne|].
  unfold Gofsen.encodeQuery.
  rewrite (SplitByte_Join_fields _ "&").
  2:{ discriminate. }
  2:{ apply Forall_map. eapply Forall_impl; [exact Hok|].
      intros [k v] (_ & Hk & Hv). cbn [fst snd] in *.
      rewrite !ContainsByte_app, Hk, Hv. reflexivity. }
  assert (Hfold : forall (l : list (string * string)) (m : gmap string string),
    Forall (fun kv => GoStr.ContainsByte (fst kv) "=" = false
                      /\ GoStr.ContainsByte (fst kv) "&" = false
                      /\ GoStr.ContainsByte (snd kv) "&" = false) l ->
    fold_left
      (fun query pair =>
         match GoStr.SplitN2 pair "=" with
         | [k; v] => <[k := v]> query
         | _ => query
         end) (map (fun kv => (fst kv ++ "=" ++ snd kv)%string) l) m
    = fold_left (fun query kv => <[fst kv := snd kv]> query) l m).
  { induction l as [|[k v] l IH]; intros m Hl; [reflexivity|].
    apply Forall_cons in Hl as [(Hk & _ & _) Hl]. cbn [map fold_left fst snd].
    change ("=" ++ v)%string with (String "=" v).
    rewrite SplitN2_pair by exact Hk. now apply IH. }
  rewrite Hfold by exact Hok. rewrite fold_left_insert_pairs. reflexivity.
Qed.

Lemma parseQuery_encodeQuery_witness :
  Gofsen.parseQuery (Gofsen.encodeQuery [("q", "gofsen"); ("page", "2"); ("q", "go=fast")])
  = list_to_map (reverse [("q", "gofsen"); ("page", "2"); ("q", "go=fast")]).
Proof.
  apply parseQuery_encodeQuery. repeat constructor.
Defined.

Lemma SplitByteAcc_no_byte (s : string) (sep b : ascii) (acc : string) :
  GoStr.ContainsByte s b = false -> GoStr.ContainsByte acc b = false ->
  Forall (fun f => GoStr.ContainsByte f b = false) (GoStr.SplitByteAcc s sep acc).
Proof.
  revert acc. induction s as [|c s IH]; intros acc Hs Hacc; cbn [GoStr.SplitByteAcc].
  - now constructor.
  - cbn [GoStr.ContainsByte] in Hs. destruct (Ascii.eqb c b) eqn:Hcb; [discriminate|].
    destruct (Ascii.eqb c sep).
    + constructor; [exact Hacc|]. now apply IH.
    + apply IH; [exact Hs|]. rewrite ContainsByte_app, Hacc. cbn. now rewrite Hcb.
Qed.

(** X2. A query string without any [=] gives no parameter at all: pairs
    that are not of the form [key=value] are dropped. *)
Theorem parseQuery_no_equals (rawQuery : string) :
  GoStr.ContainsByte rawQuery "=" = false ->
  Gofsen.parseQuery rawQuery = ∅.
Proof.
  intros Hno. unfold Gofsen.parseQuery.
  destruct (String.eqb rawQuery ""); [reflexivity|].
  pose proof (SplitByteAcc_no_byte rawQuery "&" "=" "" Hno eq_refl) as Hfields.
  fold (GoStr.SplitByte rawQuery "&") in Hfields.
  induction Hfields as [|f fields Hf _ IH]; [reflexivity|].
  cbn [fold_left]. unfold GoStr.SplitN2. rewrite SplitN2Acc_no_sep by exact Hf.
  exact IH.
Qed.

Lemma parseQuery_no_equals_witness : Gofsen.parseQuery "debug&verbose" = ∅.
Proof. apply parseQuery_no_equals. reflexivity. Defined.

(** ** Package gofsen: binding parameters *)

Lemma bindParams_from (whole : string) (caps names : list string) :
  forall (off : nat) (m : gmap string string),
  fold_left
    (fun params ip =>
       match (whole :: caps) !! (fst ip + 1)%nat with
       | Some v => <[snd ip := v]> params
       | None => params
       end)
    (imap (fun i param => ((off + i)%nat, param)) names) m
  = fold_left (fun query kv => <[fst kv := snd kv]> query) (zip names (drop off caps)) m.
Proof.
  induction names as [|n names IH]; intros off m; [reflexivity|].
  rewrite imap_cons. cbn [fold_left fst snd].
  replace (off + 0 + 1)%nat with (S off) by lia. cbn [lookup list_lookup].
  rewrite (imap_ext _ (fun i param => ((S off + i)%nat, param)))
    by (intros i x _; cbn; f_equal; lia).
  rewrite IH.
  destruct (caps !! off) as [v|] eqn:Hv.
  - rewrite (drop_S _ _ _ Hv). reflexivity.
  - apply lookup_ge_None in Hv.
    rewrite !drop_ge by lia. now rewrite zip_with_nil_r.
Qed.

(** X3. The parameters bound for a match are the template's names paired
    with the captures position by position: a name that occurs twice keeps
    its last capture, and names beyond the captures stay unbound. *)
Theorem bindParams_zip (whole : string) (names captures : list string) :
  Gofsen.bindParams names (whole :: captures) = list_to_map (reverse (zip names captures)).
Proof.
  unfold Gofsen.bindParams.
  rewrite (bindParams_from whole captures names 0 ∅), drop_0.
  apply fold_left_insert_pairs.
Qed.

(** ** Package gofsen: stopping and resuming the chain *)

(** With the cursor at or behind the last position, [Next] moves it and
    calls nothing. *)
Lemma Next_past_end (depth : nat) (chain : list Gofsen.MiddlewareFunc) (c : Gofsen.Context) :
  Z.of_nat (length chain) - 1 <= Gofsen.middlewareIndex c ->
  Gofsen.Next depth chain c =
  Gofsen.Returned (Gofsen.with_middlewareIndex (Gofsen.middlewareIndex c + 1) c).
Proof.
  intros Hend. destruct depth; cbn [Gofsen.Next]; cbv zeta;
    cbn [Gofsen.middlewareIndex Gofsen.with_middlewareIndex];
    destruct (Z.ltb_spec (Gofsen.middlewareIndex c + 1) (Z.of_nat (length chain)));
    try lia; reflexivity.
Qed.

Section GofsenChains.
Context `{RE : Gofsen.RegexpLib}.

(** X4. A global middleware that answers without calling [Next] ends the
    request: behind pass-through middlewares, the documentation's
    [authMiddleware] answers a request without [Authorization] with 401,
    and neither the middlewares registered after it nor the handler are
    called, whatever they are. *)
Theorem authMiddleware_stops_chain (r : Gofsen.Router) (before : list string)
    (rest : list Gofsen.MiddlewareFunc) (now : string) (events : list string)
    (w : Http.ResponseWriter) (req : Http.Request)
    (rt : Gofsen.Route) (ps : gmap string string) :
  Gofsen.middlewares r = map Gofsen.passing before ++ Gofsen.authMiddleware :: rest ->
  Gofsen.findRoute r (Http.Method req) (Http.URL_Path req) = Some (rt, ps) ->
  Http.Header_Get (Http.Header req) "Authorization" = "" ->
  Gofsen.ServeHTTP r now events w req =
  Gofsen.Returned
    (Gofsen.Context_Error 401 "Missing token"
       (Gofsen.mkContext req w ps (Gofsen.parseQuery (Http.URL_RawQuery req))
          (Z.of_nat (length before)) now (events ++ before)
          (map Z.of_nat (seq 0 (length before + 1))))).
Proof.
  intros Hmws Hfound Htoken. unfold Gofsen.ServeHTTP. rewrite Hfound, Hmws. cbv zeta.
  set (finalHandler := fun next c => Gofsen.Handler rt next c).
  set (nb := length before).
  match goal with |- Gofsen.Next (length ?ch) ?ch _ = _ => set (chain := ch) end.
  assert (Hlen : length chain = (nb + S (length rest + 1))%nat).
  { unfold chain. rewrite !length_app. cbn [length]. rewrite !length_map.
    unfold nb. lia. }
  assert (Hchain : chain = [] ++ map Gofsen.passing before ++
                     (Gofsen.authMiddleware :: rest ++ [finalHandler])).
  { unfold chain. cbn [app]. now rewrite <- app_assoc. }
  assert (Hauth : chain !! nb = Some Gofsen.authMiddleware).
  { rewrite Hchain. cbn [app].
    rewrite lookup_app_r by (rewrite length_map; unfold nb; lia).
    rewrite length_map. fold nb. now rewrite Nat.sub_diag. }
  rewrite Hlen.
  rewrite (Next_passing_in before [] _ _ _ chain Hchain) by (cbn; fold nb; lia).
  fold nb.
  cbn [app length Gofsen.Request Gofsen.ResponseWriter Gofsen.Params Gofsen.Query
       Gofsen.middlewareIndex Gofsen.Now Gofsen.Events Gofsen.Invoked
       Gofsen.with_Params].
  replace (nb + S (length rest + 1) - nb)%nat with (S (length rest + 1)) by lia.
  rewrite (Next_step _ chain _ nb Gofsen.authMiddleware)
    by (try exact Hauth; cbn [Gofsen.middlewareIndex]; lia).
  unfold Gofsen.authMiddleware at 1.
  cbn [Gofsen.Request Gofsen.invoked Gofsen.with_middlewareIndex].
  rewrite Htoken. cbn [String.eqb]. f_equal. f_equal.
  cbn [Gofsen.Request Gofsen.ResponseWriter Gofsen.Params Gofsen.Query
       Gofsen.middlewareIndex Gofsen.Now Gofsen.Events Gofsen.Invoked].
  unfold Gofsen.invoked, Gofsen.with_middlewareIndex.
  cbn [Gofsen.Request Gofsen.ResponseWriter Gofsen.Params Gofsen.Query
       Gofsen.middlewareIndex Gofsen.Now Gofsen.Events Gofsen.Invoked].
  f_equal. rewrite seq_app, map_app. reflexivity.
Qed.

(** X5. Global middlewares that call [Next] run in registration order,
    each once, then the handler of the resolved route: their marks come in
    that order and the positions called are 0 up to the handler's. *)
Theorem global_middleware_order (r : Gofsen.Router) (names : list string) (mark now : string)
    (events : list string) (w : Http.ResponseWriter) (req : Http.Request)
    (rt : Gofsen.Route) (ps : gmap string string) :
  Gofsen.middlewares r = map Gofsen.passing names ->
  Gofsen.findRoute r (Http.Method req) (Http.URL_Path req) = Some (rt, ps) ->
  Gofsen.Handler rt = Gofsen.record mark ->
  Gofsen.ServeHTTP r now events w req =
  Gofsen.Returned
    (Gofsen.mkContext req w ps (Gofsen.parseQuery (Http.URL_RawQuery req))
       (Z.of_nat (length names)) now (events ++ names ++ [mark])
       (map Z.of_nat (seq 0 (S (length names))))).
Proof.
  intros Hmws Hfound Hh.
  destruct (ServeHTTP_chain_order r names now events w req rt ps Hmws Hfound) as [next ->].
  rewrite Hh. unfold Gofsen.record, Gofsen.emit. cbn. now rewrite <- app_assoc.
Qed.

(** X6. [ServeHTTP] itself recovers nothing: when no Recovery is
    registered, the panic of a handler leaves [ServeHTTP] with the response
    as the middlewares left it. *)
Theorem panic_without_Recovery (r : Gofsen.Router) (names : list string) (v now : string)
    (events : list string) (w : Http.ResponseWriter) (req : Http.Request)
    (rt : Gofsen.Route) (ps : gmap string string) :
  Gofsen.middlewares r = map Gofsen.passing names ->
  Gofsen.findRoute r (Http.Method req) (Http.URL_Path req) = Some (rt, ps) ->
  Gofsen.Handler rt = Gofsen.panicking v ->
  exists c,
    Gofsen.ServeHTTP r now events w req = Gofsen.Panicked v c
    /\ Gofsen.ResponseWriter c = w
    /\ Gofsen.Events c = events ++ names.
Proof.
  intros Hmws Hfound Hh.
  destruct (ServeHTTP_chain_order r names now events w req rt ps Hmws Hfound) as [next ->].
  rewrite Hh. unfold Gofsen.panicking. eexists. split; [reflexivity|]. split; reflexivity.
Qed.

(** X7. Calling [Next] again when the chain has run to its end calls
    nothing: behind a middleware that calls [Next] twice, pass-through
    middlewares and the handler still run exactly once, in order. *)
Theorem second_Next_after_the_end (r : Gofsen.Router) (names : list string)
    (mark now : string) (events : list string) (w : Http.ResponseWriter)
    (req : Http.Request) (rt : Gofsen.Route) (ps : gmap string string) :
  Gofsen.middlewares r = Gofsen.callsNextTwice :: map Gofsen.passing names ->
  Gofsen.findRoute r (Http.Method req) (Http.URL_Path req) = Some (rt, ps) ->
  Gofsen.Handler rt = Gofsen.record mark ->
  Gofsen.ServeHTTP r now events w req =
  Gofsen.Returned
    (Gofsen.mkContext req w ps (Gofsen.parseQuery (Http.URL_RawQuery req))
       (Z.of_nat (length names) + 2) now (events ++ names ++ [mark])
       (map Z.of_nat (seq 0 (length names + 2)))).
Proof.
  intros Hmws Hfound Hh. unfold Gofsen.ServeHTTP. rewrite Hfound, Hmws. cbv zeta.
  set (finalHandler := fun next c => Gofsen.Handler rt next c).
  set (n := length names).
  match goal with |- Gofsen.Next (length ?ch) ?ch _ = _ => set (chain := ch) end.
  assert (Hlen : length chain = S (n + 1)).
  { unfold chain. rewrite length_app. cbn [length]. rewrite length_map. fold n. lia. }
  assert (Hchain : chain = [Gofsen.callsNextTwice] ++ map Gofsen.passing names
                           ++ [finalHandler]) by reflexivity.
  assert (Hfin : chain !! (n + 1)%nat = Some finalHandler).
  { rewrite Hchain, app_assoc.
    rewrite lookup_app_r by (rewrite length_app, length_map; cbn [length]; fold n; lia).
    rewrite length_app, length_map. cbn [length]. fold n.
    now replace (n + 1 - (1 + n))%nat with 0%nat by lia. }
  rewrite Hlen.
  rewrite (Next_step _ chain _ 0 Gofsen.callsNextTwice) by reflexivity.
  unfold Gofsen.callsNextTwice at 1.
  rewrite (Next_passing_in names _ _ _ _ chain Hchain) by (cbn; fold n; lia).
  fold n. replace (n + 1 - n)%nat with 1%nat by lia.
  rewrite (Next_step 0 chain _ (n + 1) finalHandler).
  2:{ cbn [Gofsen.middlewareIndex Gofsen.invoked Gofsen.with_middlewareIndex length]. lia. }
  2:{ exact Hfin. }
  unfold finalHandler at 1. rewrite Hh. unfold Gofsen.record.
  rewrite Next_past_end.
  2:{ rewrite Hlen.
      cbn [Gofsen.middlewareIndex Gofsen.emit Gofsen.invoked Gofsen.with_middlewareIndex].
      lia. }
  f_equal.
  cbv beta iota delta
    [Gofsen.emit Gofsen.invoked Gofsen.with_middlewareIndex Gofsen.with_Params
     Gofsen.Request Gofsen.ResponseWriter Gofsen.Params Gofsen.Query
     Gofsen.middlewareIndex Gofsen.Now Gofsen.Events Gofsen.Invoked].
  f_equal.
  - lia.
  - now rewrite <- !app_assoc.
  - cbn [app length].
    replace (n + 2)%nat with (1 + (n + 1))%nat by lia.
    rewrite (seq_app 1 (n + 1)), (seq_app n 1), !map_app. cbn [seq map Nat.add app].
    repeat f_equal; lia.
Qed.

(** X8. Calling [Next] again after a later middleware has stopped the
    chain resumes it behind that middleware: in front of the
    documentation's [authMiddleware], a middleware that calls [Next] twice
    lets the handler run on a request without [Authorization], after the
    401 has been written. *)
Theorem second_Next_resumes_behind_stop (r : Gofsen.Router) (now : string)
    (events : list string) (req : Http.Request) (rt : Gofsen.Route)
    (ps : gmap string string) :
  Gofsen.middlewares r = [Gofsen.callsNextTwice; Gofsen.authMiddleware] ->
  Gofsen.findRoute r (Http.Method req) (Http.URL_Path req) = Some (rt, ps) ->
  Http.Header_Get (Http.Header req) "Authorization" = "" ->
  exists next c,
    Gofsen.ServeHTTP r now events Http.NewRecorder req = Gofsen.Handler rt next c
    /\ Http.rw_status (Gofsen.ResponseWriter c) = Some 401
    /\ Gofsen.Invoked c = [0; 1; 2]
    /\ Gofsen.Events c = events.
Proof.
  intros Hmws Hfound Htoken. unfold Gofsen.ServeHTTP. rewrite Hfound, Hmws. cbv zeta.
  set (finalHandler := fun next c => Gofsen.Handler rt next c).
  match goal with |- context [Gofsen.Next (length ?ch) ?ch _] => set (chain := ch) end.
  change (length chain) with 3%nat.
  rewrite (Next_step _ chain _ 0 Gofsen.callsNextTwice) by reflexivity.
  unfold Gofsen.callsNextTwice at 1.
  rewrite (Next_step _ chain _ 1 Gofsen.authMiddleware) by reflexivity.
  unfold Gofsen.authMiddleware at 1.
  cbn [Gofsen.Request Gofsen.invoked Gofsen.with_middlewareIndex Gofsen.with_Params].
  rewrite Htoken. cbn [String.eqb].
  rewrite (Next_step _ chain _ 2 finalHandler) by reflexivity.
  unfold finalHandler at 1. do 2 eexists. split; [reflexivity|].
  split; [|split]; reflexivity.
Qed.

End GofsenChains.

Lemma authMiddleware_stops_chain_witness :
  let r := Gofsen.GET "/protected/profile" (Gofsen.record "profile")
             (Gofsen.Use (Gofsen.passing "late")
                (Gofsen.Use Gofsen.authMiddleware
                   (Gofsen.Use (Gofsen.passing "log") Gofsen.New))) in
  let req := Http.mkRequest "GET" "/protected/profile" "" ∅ in
  Gofsen.ServeHTTP r "2024-01-01T00:00:00Z" [] Http.NewRecorder req =
  Gofsen.Returned
    (Gofsen.Context_Error 401 "Missing token"
       (Gofsen.mkContext req Http.NewRecorder ∅ ∅ 1 "2024-01-01T00:00:00Z" ["log"] [0; 1])).
Proof.
  intros r req.
  exact (authMiddleware_stops_chain r ["log"] [Gofsen.passing "late"]
           "2024-01-01T00:00:00Z" [] Http.NewRecorder req _ _ eq_refl eq_refl eq_refl).
Defined.

Lemma global_middleware_order_witness :
  let r := Gofsen.GET "/test" (Gofsen.record "handler")
             (Gofsen.Use (Gofsen.passing "B") (Gofsen.Use (Gofsen.passing "A") Gofsen.New)) in
  let req := Http.mkRequest "GET" "/test" "" ∅ in
  Gofsen.ServeHTTP r "2024-01-01T00:00:00Z" [] Http.NewRecorder req =
  Gofsen.Returned
    (Gofsen.mkContext req Http.NewRecorder ∅ ∅ 2 "2024-01-01T00:00:00Z"
       ["A"; "B"; "handler"] [0; 1; 2]).
Proof.
  intros r req.
  exact (global_middleware_order r ["A"; "B"] "handler" "2024-01-01T00:00:00Z" []
           Http.NewRecorder req _ _ eq_refl eq_refl eq_refl).
Defined.

Lemma panic_without_Recovery_witness :
  let r := Gofsen.GET "/panic" (Gofsen.panicking "test panic")
             (Gofsen.Use (Gofsen.passing "log") Gofsen.New) in
  let req := Http.mkRequest "GET" "/panic" "" ∅ in
  exists c,
    Gofsen.ServeHTTP r "2024-01-01T00:00:00Z" [] Http.NewRecorder req
      = Gofsen.Panicked "test panic" c
    /\ Gofsen.ResponseWriter c = Http.NewRecorder
    /\ Gofsen.Events c = [] ++ ["log"].
Proof.
  intros r req.
  exact (panic_without_Recovery r ["log"] "test panic" "2024-01-01T00:00:00Z" []
           Http.NewRecorder req _ _ eq_refl eq_refl eq_refl).
Defined.

Lemma second_Next_after_the_end_witness :
  let r := Gofsen.GET "/test" (Gofsen.record "handler")
             (Gofsen.Use (Gofsen.passing "A") (Gofsen.Use Gofsen.callsNextTwice Gofsen.New)) in
  let req := Http.mkRequest "GET" "/test" "" ∅ in
  Gofsen.ServeHTTP r "2024-01-01T00:00:00Z" [] Http.NewRecorder req =
  Gofsen.Returned
    (Gofsen.mkContext req Http.NewRecorder ∅ ∅ 3 "2024-01-01T00:00:00Z"
       ["A"; "handler"] [0; 1; 2]).
Proof.
  intros r req.
  exact (second_Next_after_the_end r ["A"] "handler" "2024-01-01T00:00:00Z" []
           Http.NewRecorder req _ _ eq_refl eq_refl eq_refl).
Defined.

Lemma second_Next_resumes_behind_stop_witness :
  let r := Gofsen.GET "/protected/profile" (Gofsen.record "profile")
             (Gofsen.Use Gofsen.authMiddleware (Gofsen.Use Gofsen.callsNextTwice Gofsen.New)) in
  let req := Http.mkRequest "GET" "/protected/profile" "" ∅ in
  exists next c,
    Gofsen.ServeHTTP r "2024-01-01T00:00:00Z" [] Http.NewRecorder req
      = Gofsen.record "profile" next c
    /\ Http.rw_status (Gofsen.ResponseWriter c) = Some 401
    /\ Gofsen.Invoked c = [0; 1; 2]
    /\ Gofsen.Events c = [].
Proof.
  intros r req.
  exact (second_Next_resumes_behind_stop r "2024-01-01T00:00:00Z" [] req _ _
           eq_refl eq_refl eq_refl).
Defined.

(** ** Package gofsen: static templates and registration *)

Section GofsenRegistration.
Context `{RE : Gofsen.RegexpLib}.

(** X9. A template without a colon is never compiled: whatever the
    expression library, its route has no pattern and no parameter, and it
    matches exactly the requests for its own method and its own text, with
    empty parameters. *)
Theorem static_template_exact (method template : string) (h : Gofsen.HandlerFunc)
    (r : Gofsen.Router) :
  GoStr.ContainsByte template ":" = false ->
  exists rt,
    Gofsen.routes (Gofsen.addRoute method template h r) = Gofsen.routes r ++ [rt]
    /\ Gofsen.Pattern rt = None /\ Gofsen.Route_Params rt = []
    /\ Gofsen.Handler rt = h
    /\ forall m p ps,
         Gofsen.matchRoute rt m p = Some ps <-> (m = method /\ p = template /\ ps = ∅).
Proof.
  intros Hstatic. unfold Gofsen.addRoute, Gofsen.convertPathToRegex. rewrite Hstatic.
  cbn [negb Gofsen.routes]. eexists. do 4 (split; [reflexivity|]).
  intros m p ps. unfold Gofsen.matchRoute.
  cbn [Gofsen.Method Gofsen.Pattern Gofsen.Path]. split.
  - destruct (String.eqb_spec method m) as [<-|]; [|discriminate].
    destruct (String.eqb_spec template p) as [<-|]; [|discriminate].
    intros [= <-]. auto.
  - intros (-> & -> & ->). now rewrite !String.eqb_refl.
Qed.

(** X10. Registration only appends: a request that resolved before a
    route is added resolves to the same route and parameters afterwards,
    and a request that did not resolve is decided by the new route alone. *)
Theorem addRoute_keeps_resolutions (method template : string) (h : Gofsen.HandlerFunc)
    (r : Gofsen.Router) (m p : string) :
  (forall found, Gofsen.findRoute r m p = Some found ->
     Gofsen.findRoute (Gofsen.addRoute method template h r) m p = Some found)
  /\ (Gofsen.findRoute r m p = None ->
      exists rt,
        Gofsen.routes (Gofsen.addRoute method template h r) = Gofsen.routes r ++ [rt]
        /\ Gofsen.findRoute (Gofsen.addRoute method template h r) m p =
           (fun ps => (rt, ps)) <$> Gofsen.matchRoute rt m p).
Proof.
  unfold Gofsen.findRoute, Gofsen.addRoute.
  destruct (Gofsen.convertPathToRegex template) as [pattern params].
  cbn [Gofsen.routes]. split.
  - intros found Hfound. now rewrite findRouteIn_app, Hfound.
  - intros Hnone. eexists. split; [reflexivity|].
    rewrite findRouteIn_app, Hnone. cbn [Gofsen.findRouteIn].
    now destruct (Gofsen.matchRoute _ m p).
Qed.

End GofsenRegistration.

Lemma static_template_exact_witness :
  exists rt,
    Gofsen.routes (Gofsen.addRoute "GET" "/health" (Gofsen.record "health") Gofsen.New)
      = Gofsen.routes Gofsen.New ++ [rt]
    /\ Gofsen.Pattern rt = None /\ Gofsen.Route_Params rt = []
    /\ Gofsen.Handler rt = Gofsen.record "health"
    /\ forall m p ps,
         Gofsen.matchRoute rt m p = Some ps <-> (m = "GET" /\ p = "/health" /\ ps = ∅).
Proof.
  exact (static_template_exact "GET" "/health" (Gofsen.record "health") Gofsen.New eq_refl).
Defined.

Lemma addRoute_keeps_resolutions_witness :
  let r := Gofsen.GET "/users/:id" (Gofsen.record "show") Gofsen.New in
  Gofsen.findRoute (Gofsen.addRoute "GET" "/users/new" (Gofsen.record "new") r)
    "GET" "/users/new"
  = Gofsen.findRoute r "GET" "/users/new".
Proof.
  intros r.
  exact (proj1 (addRoute_keeps_resolutions "GET" "/users/new" (Gofsen.record "new") r
                  "GET" "/users/new") _ eq_refl).
Defined.

(** ** Package gofsen: preflight requests *)

(** X11. [CORSWithConfig] answers an OPTIONS request itself: the status
    is 204 on a fresh writer, the allowed methods and headers are the
    configured lists joined with a comma and a space, nothing is written to
    the body and the next step is not called.  Any other request goes on to
    the next step with the same three headers set. *)
Theorem CORSWithConfig_preflight (config : Gofsen.CORSConfig)
    (next : Gofsen.Context -> Gofsen.Outcome) (c : Gofsen.Context) :
  exists c',
    (if String.eqb (Http.Method (Gofsen.Request c)) "OPTIONS"
     then Gofsen.CORSWithConfig config next c = Gofsen.Returned (Gofsen.Status 204 c')
          /\ (Http.rw_status (Gofsen.ResponseWriter c) = None ->
              Http.rw_status (Gofsen.ResponseWriter (Gofsen.Status 204 c')) = Some 204)
          /\ Http.rw_body (Gofsen.ResponseWriter (Gofsen.Status 204 c'))
             = Http.rw_body (Gofsen.ResponseWriter c)
     else Gofsen.CORSWithConfig config next c = next c')
    /\ Gofsen.Events c' = Gofsen.Events c
    /\ Gofsen.Invoked c' = Gofsen.Invoked c
    /\ Http.rw_header (Gofsen.ResponseWriter c') !! "Access-Control-Allow-Methods"
       = Some [GoStr.Join (Gofsen.AllowMethods config) ", "]
    /\ Http.rw_header (Gofsen.ResponseWriter c') !! "Access-Control-Allow-Headers"
       = Some [GoStr.Join (Gofsen.AllowHeaders config) ", "]
    /\ Http.rw_header (Gofsen.ResponseWriter c') !! "Access-Control-Allow-Credentials"
       = Some ["true"].
Proof.
  unfold Gofsen.CORSWithConfig.
  set (w1 := if Gofsen.originAllowed config _ then _ else _).
  assert (Hw1 : Http.rw_status w1 = Http.rw_status (Gofsen.ResponseWriter c)
                /\ Http.rw_body w1 = Http.rw_body (Gofsen.ResponseWriter c)).
  { unfold w1. destruct (Gofsen.originAllowed _ _); [destruct (negb _)|]; now split. }
  destruct Hw1 as [Hstatus Hbody].
  eexists. split.
  - cbn [Gofsen.Request Gofsen.with_ResponseWriter].
    destruct (String.eqb (Http.Method (Gofsen.Request c)) "OPTIONS"); [|reflexivity].
    split; [reflexivity|]. unfold Gofsen.Status.
    cbn [Gofsen.ResponseWriter Gofsen.with_ResponseWriter]. autorewrite with writer.
    rewrite Hstatus, Hbody. split; [|reflexivity]. now intros ->.
  - cbn [Gofsen.ResponseWriter Gofsen.with_ResponseWriter Gofsen.Events Gofsen.Invoked].
    autorewrite with writer. repeat split.
    + rewrite !lookup_insert_ne by discriminate. apply lookup_insert_eq.
    + rewrite lookup_insert_ne by discriminate. apply lookup_insert_eq.
    + apply lookup_insert_eq.
Qed.

(** ** Package gofsen: templates segment by segment *)

Lemma prefix_app (a b : string) : String.prefix a (a ++ b) = true.
Proof.
  induction a as [|c a IH]; [now destruct b|].
  rewrite append_cons. cbn [String.prefix]. now destruct (ascii_dec c c).
Qed.

Lemma slice_from_app (a b : string) : GoStr.slice_from (String.length a) (a ++ b) = b.
Proof.
  apply list_ascii_of_string_inj. rewrite slice_from_chars.
  assert (Hchars : forall x y, list_ascii_of_string (x ++ y)
                               = list_ascii_of_string x ++ list_ascii_of_string y).
  { intros x y. induction x as [|c x IHx]; [reflexivity|].
    rewrite append_cons. cbn. now rewrite IHx. }
  rewrite Hchars, <- length_list_ascii. now rewrite drop_app_length.
Qed.

Lemma ReplaceFirst_at_colon (pre name rest new : string) :
  GoStr.ContainsByte pre ":" = false ->
  GoStr.ReplaceFirst (pre ++ String ":" name ++ rest) (String ":" name) new
  = (pre ++ new ++ rest)%string.
Proof.
  induction pre as [|c pre IH]; intros Hpre.
  - change ("" ++ ?x)%string with x.
    assert (Hrepl : forall s, GoStr.ReplaceFirst s (String ":" name) new =
              if String.prefix (String ":" name) s
              then (new ++ GoStr.slice_from (String.length (String ":" name)) s)%string
              else match s with
                   | EmptyString => EmptyString
                   | String x s' => String x (GoStr.ReplaceFirst s' (String ":" name) new)
                   end) by (intros [|x s']; reflexivity).
    rewrite Hrepl, prefix_app, slice_from_app. reflexivity.
  - cbn [GoStr.ContainsByte] in Hpre. destruct (Ascii.eqb_spec c ":") as [|Hc]; [discriminate|].
    rewrite !(append_cons c pre). cbn [GoStr.ReplaceFirst String.prefix].
    destruct (ascii_dec ":" c) as [Heq|_]; [now subst|].
    now rewrite IH.
Qed.

Lemma paramMatchesFrom_skip (t s : string) :
  GoStr.ContainsByte t ":" = false ->
  Gofsen.paramMatchesFrom (t ++ s) None = Gofsen.paramMatchesFrom s None.
Proof.
  induction t as [|c t IH]; intros Ht; [reflexivity|].
  cbn [GoStr.ContainsByte] in Ht. rewrite append_cons. cbn [Gofsen.paramMatchesFrom].
  destruct (Ascii.eqb c ":"); [discriminate|]. now apply IH.
Qed.

Lemma paramMatchesFrom_name (name s acc : string) :
  GoStr.ContainsByte name "/" = false ->
  (s = "" \/ exists s', s = String "/" s') ->
  Gofsen.paramMatchesFrom (name ++ s) (Some acc) =
  (if String.eqb (acc ++ name) "" then []
   else [((":" ++ acc ++ name)%string, (acc ++ name)%string)])
  ++ Gofsen.paramMatchesFrom s None.
Proof.
  revert acc. induction name as [|c name IH]; intros acc Hname Hs.
  - change ("" ++ s)%string with s. rewrite append_nil_r.
    destruct Hs as [-> | [s' ->]]; cbn [Gofsen.paramMatchesFrom].
    + now rewrite app_nil_r.
    + reflexivity.
  - cbn [GoStr.ContainsByte] in Hname. rewrite append_cons. cbn [Gofsen.paramMatchesFrom].
    destruct (Ascii.eqb c "/"); [discriminate|].
    rewrite IH by assumption. now rewrite append_assoc.
Qed.

Lemma templateOf_start (segs : list Gofsen.Segment) :
  Gofsen.templateOf segs = "" \/ exists s', Gofsen.templateOf segs = String "/" s'.
Proof. destruct segs; [now left | right; eexists; reflexivity]. Qed.

Lemma plain_no_byte (text : string) (b : ascii) :
  Gofsen.plainByte b = false ->
  forallb Gofsen.plainByte (list_ascii_of_string text) = true ->
  GoStr.ContainsByte text b = false.
Proof.
  intros Hb. induction text as [|c text IH]; [reflexivity|].
  cbn [list_ascii_of_string forallb GoStr.ContainsByte].
  intros [Hc Htext]%andb_true_iff.
  destruct (Ascii.eqb_spec c b) as [->|_]; [congruence|]. now apply IH.
Qed.

Lemma paramMatches_templateOf (segs : list Gofsen.Segment) :
  Forall (fun seg => Gofsen.wellFormed seg = true) segs ->
  Gofsen.paramMatches (Gofsen.templateOf segs) =
  map (fun name => ((":" ++ name)%string, name)) (Gofsen.markerNames segs).
Proof.
  unfold Gofsen.paramMatches.
  induction 1 as [|seg segs Hseg _ IH]; [reflexivity|].
  destruct seg as [text | name]; cbn [Gofsen.templateOf Gofsen.segmentText Gofsen.wellFormed] in *.
  - change ("/" ++ text ++ Gofsen.templateOf segs)%string
      with (String "/" (text ++ Gofsen.templateOf segs)).
    cbn [Gofsen.paramMatchesFrom]. change (Ascii.eqb "/" ":") with false. cbv iota.
    rewrite paramMatchesFrom_skip by (now apply plain_no_byte). exact IH.
  - apply andb_true_iff in Hseg as [Hne Hslash].
    apply negb_true_iff in Hne, Hslash.
    change ("/" ++ (":" ++ name) ++ Gofsen.templateOf segs)%string
      with (String "/" (String ":" (name ++ Gofsen.templateOf segs))).
    cbn [Gofsen.paramMatchesFrom]. change (Ascii.eqb "/" ":") with false.
    change (Ascii.eqb ":" ":") with true. cbv iota.
    rewrite paramMatchesFrom_name by (try exact Hslash; apply templateOf_start).
    change ("" ++ name)%string with name. rewrite Hne, IH. reflexivity.
Qed.

Lemma expression_fold (segs : list Gofsen.Segment) :
  Forall (fun seg => Gofsen.wellFormed seg = true) segs ->
  forall pre, GoStr.ContainsByte pre ":" = false ->
  fold_left (fun regexPath m => GoStr.ReplaceFirst regexPath (fst m) "([^/]+)")
    (map (fun name => ((":" ++ name)%string, name)) (Gofsen.markerNames segs))
    (pre ++ Gofsen.templateOf segs)%string
  = (pre ++ Gofsen.expressionOf segs)%string.
Proof.
  induction 1 as [|seg segs Hseg _ IH]; intros pre Hpre; [reflexivity|].
  destruct seg as [text | name];
    cbn [Gofsen.templateOf Gofsen.expressionOf Gofsen.segmentText Gofsen.wellFormed
         Gofsen.markerNames omap list_omap] in *.
  - replace (pre ++ "/" ++ text ++ Gofsen.templateOf segs)%string
      with (((pre ++ "/") ++ text) ++ Gofsen.templateOf segs)%string
      by now rewrite !append_assoc.
    replace (pre ++ "/" ++ text ++ Gofsen.expressionOf segs)%string
      with (((pre ++ "/") ++ text) ++ Gofsen.expressionOf segs)%string
      by now rewrite !append_assoc.
    apply IH. rewrite !ContainsByte_app, Hpre. cbn.
    now apply plain_no_byte.
  - cbn [map fold_left fst].
    change (":" ++ name)%string with (String ":" name).
    replace (pre ++ "/" ++ String ":" name ++ Gofsen.templateOf segs)%string
      with ((pre ++ "/") ++ String ":" name ++ Gofsen.templateOf segs)%string
      by now rewrite !append_assoc.
    rewrite ReplaceFirst_at_colon by (now rewrite ContainsByte_app, Hpre).
    replace (pre ++ "/" ++ "([^/]+)" ++ Gofsen.expressionOf segs)%string
      with (((pre ++ "/") ++ "([^/]+)") ++ Gofsen.expressionOf segs)%string
      by now rewrite !append_assoc.
    rewrite <- (append_assoc (pre ++ "/") "([^/]+)").
    apply IH. rewrite !ContainsByte_app, Hpre. reflexivity.
Qed.

Lemma parseBody_lits (text rest : string) :
  forallb (fun c => negb (Gofsen.isMeta c) && Utf8.asciiByte c)
    (list_ascii_of_string text) = true ->
  Gofsen.parseBody 0 (text ++ rest) =
  app (map Gofsen.Lit (list_ascii_of_string text)) <$> Gofsen.parseBody 0 rest.
Proof.
  induction text as [|c text IH]; intros Htext.
  - change ("" ++ rest)%string with rest. cbn [list_ascii_of_string map].
    now destruct (Gofsen.parseBody 0 rest).
  - cbn [list_ascii_of_string forallb] in Htext.
    apply andb_true_iff in Htext as [Hc Htext].
    apply andb_true_iff in Hc as [Hc Hascii]. apply negb_true_iff in Hc.
    rewrite append_cons. cbn [Gofsen.parseBody list_ascii_of_string map].
    assert (Hp : String.prefix "([^/]+)" (String c (text ++ rest)) = false).
    { cbn [String.prefix]. destruct (ascii_dec "(" c) as [<-|]; [discriminate Hc|reflexivity]. }
    rewrite Hp. destruct (Ascii.eqb_spec c "$") as [->|_]; [discriminate Hc|].
    rewrite Hc, Hascii, IH by exact Htext. cbn [negb].
    now destruct (Gofsen.parseBody 0 rest).
Qed.

Lemma plain_not_meta (text : string) :
  forallb Gofsen.plainByte (list_ascii_of_string text) = true ->
  forallb (fun c => negb (Gofsen.isMeta c) && Utf8.asciiByte c)
    (list_ascii_of_string text) = true.
Proof.
  rewrite !forallb_forall. intros Hall c Hc. specialize (Hall c Hc).
  unfold Gofsen.plainByte in Hall.
  apply andb_true_iff in Hall as [[[Hmeta _]%andb_true_iff _]%andb_true_iff Hascii].
  now rewrite Hmeta, Hascii.
Qed.

Lemma parseBody_group (rest : string) :
  Gofsen.parseBody 0 ("([^/]+)" ++ rest) = cons Gofsen.Seg <$> Gofsen.parseBody 0 rest.
Proof.
  change ("([^/]+)" ++ rest)%string
    with (String "(" (String "[" (String "^" (String "/" (String "]" (String "+"
           (String ")" rest))))))).
  cbn [Gofsen.parseBody].
  replace (String.prefix _ _) with true; [reflexivity|].
  cbn. now destruct rest.
Qed.

Lemma parseBody_slash (rest : string) :
  Gofsen.parseBody 0 (String "/" rest) = cons (Gofsen.Lit "/") <$> Gofsen.parseBody 0 rest.
Proof. reflexivity. Qed.

Lemma parseBody_expressionOf (segs : list Gofsen.Segment) :
  Forall (fun seg => Gofsen.wellFormed seg = true) segs ->
  Gofsen.parseBody 0 (Gofsen.expressionOf segs ++ "$") = Some (Gofsen.segmentsPattern segs).
Proof.
  induction 1 as [|seg segs Hseg _ IH]; [reflexivity|].
  destruct seg as [text | name];
    cbn [Gofsen.expressionOf Gofsen.segmentsPattern Gofsen.wellFormed] in *.
  - rewrite !append_assoc. change ("/" ++ ?x)%string with (String "/" x).
    rewrite parseBody_slash, parseBody_lits by (now apply plain_not_meta).
    rewrite IH. reflexivity.
  - rewrite !append_assoc. change ("/" ++ ?x)%string with (String "/" x).
    rewrite parseBody_slash, parseBody_group, IH. reflexivity.
Qed.

Lemma ContainsByte_templateOf (segs : list Gofsen.Segment) :
  Gofsen.markerNames segs <> [] -> GoStr.ContainsByte (Gofsen.templateOf segs) ":" = true.
Proof.
  induction segs as [|seg segs IH]; [now intros []|].
  cbn [Gofsen.templateOf]. rewrite !ContainsByte_app.
  destruct seg as [text | name]; cbn [Gofsen.markerNames omap list_omap Gofsen.segmentText].
  - intros Hm. fold (Gofsen.markerNames segs) in Hm. rewrite (IH Hm).
    now rewrite !orb_true_r.
  - intros _. reflexivity.
Qed.

Lemma convertPathToRegex_templateOf (segs : list Gofsen.Segment) :
  Forall (fun seg => Gofsen.wellFormed seg = true) segs ->
  Gofsen.markerNames segs <> [] ->
  Gofsen.convertPathToRegex (Gofsen.templateOf segs)
  = (Some (Gofsen.segmentsPattern segs), Gofsen.markerNames segs).
Proof.
  intros Hwf Hm. unfold Gofsen.convertPathToRegex.
  rewrite ContainsByte_templateOf by exact Hm. cbn [negb].
  rewrite paramMatches_templateOf by exact Hwf. cbv zeta.
  pose proof (expression_fold segs Hwf "" eq_refl) as Hfold.
  change ("" ++ ?x)%string with x in Hfold. rewrite Hfold.
  cbn [Gofsen.Compile Gofsen.SegmentRegexp Gofsen.compileSegments].
  change ("^" ++ ?x)%string with (String "^" x).
  cbn [Gofsen.compileSegments]. change (Ascii.eqb "^" "^") with true. cbv iota.
  rewrite parseBody_expressionOf by exact Hwf.
  rewrite map_map. cbn [snd]. now rewrite map_id.
Qed.


Lemma string_span (s : string) :
  exists v rest, s = (v ++ rest)%string /\ GoStr.ContainsByte v "/" = false
                 /\ (rest = "" \/ exists r, rest = String "/" r).
Proof.
  induction s as [|c s (v & rest & -> & Hv & Hrest)].
  - exists "", "". auto.
  - destruct (Ascii.eqb_spec c "/") as [->|Hc].
    + exists "", (String "/" (v ++ rest)). repeat split; eauto.
    + exists (String c v), rest. split; [reflexivity|]. split; [|exact Hrest].
      cbn [GoStr.ContainsByte]. now destruct (Ascii.eqb_spec c "/").
Qed.

(** Before an expression that accepts no text starting with a byte other
    than a slash, a group takes the whole run of bytes up to the next
    slash. *)
Lemma matchSeg_run (k : string -> option (list string)) (v rest : string) :
  (forall c s', c <> "/"%char -> k (String c s') = None) ->
  GoStr.ContainsByte v "/" = false ->
  (rest = "" \/ exists r, rest = String "/" r) ->
  forall taken,
  Gofsen.matchSeg k taken (v ++ rest) =
  if String.eqb (taken ++ v) "" then None else cons (taken ++ v)%string <$> k rest.
Proof.
  intros Hk. induction v as [|c v IH]; intros Hv Hrest taken.
  - change ("" ++ rest)%string with rest. rewrite append_nil_r.
    destruct Hrest as [-> | [r ->]]; reflexivity.
  - cbn [GoStr.ContainsByte] in Hv. rewrite append_cons. cbn [Gofsen.matchSeg].
    destruct (Ascii.eqb_spec c "/") as [|Hc]; [discriminate|].
    rewrite IH by assumption. rewrite append_assoc, append_cons.
    change ("" ++ v)%string with v.
    assert (Hne : String.eqb (taken ++ String c v) "" = false) by (now destruct taken).
    rewrite Hne. destruct (k rest); [reflexivity|]. cbn.
    rewrite Hk by exact Hc. now destruct (String.eqb taken "").
Qed.

Lemma segmentsPattern_head (segs : list Gofsen.Segment) (c : ascii) (s : string) :
  c <> "/"%char -> Gofsen.matchToks (Gofsen.segmentsPattern segs) (String c s) = None.
Proof.
  intros Hc. destruct segs as [|[text|name] segs]; cbn [Gofsen.segmentsPattern Gofsen.matchToks];
    [reflexivity| |]; destruct (Ascii.eqb_spec "/" c); congruence.
Qed.

Lemma matchToks_lits (text : string) (p : list Gofsen.Tok) (s : string) (caps : list string) :
  Gofsen.matchToks (map Gofsen.Lit (list_ascii_of_string text) ++ p) s = Some caps <->
  exists s', s = (text ++ s')%string /\ Gofsen.matchToks p s' = Some caps.
Proof.
  revert s. induction text as [|c text IH]; intros s.
  - cbn [list_ascii_of_string map app]. split; [eauto|].
    now intros (s' & -> & Hm).
  - cbn [list_ascii_of_string map app]. rewrite matchToks_Lit. split.
    + intros (s1 & -> & (s' & -> & Hm)%IH). eauto.
    + intros (s' & -> & Hm). exists (text ++ s')%string. split; [reflexivity|].
      apply IH. eauto.
Qed.

Lemma fill_start (segs : list Gofsen.Segment) (values : list string) :
  Gofsen.fill segs values = "" \/ exists r, Gofsen.fill segs values = String "/" r.
Proof.
  destruct segs as [|[text|name] segs]; [now left| |]; right; cbn [Gofsen.fill].
  - eexists; reflexivity.
  - destruct values; eexists; reflexivity.
Qed.

(** What the expression of a template accepts: the template with a value
    in place of each marker, and the groups are these values. *)
Lemma matchToks_segmentsPattern (segs : list Gofsen.Segment) :
  forall path caps,
  Gofsen.matchToks (Gofsen.segmentsPattern segs) path = Some caps <->
  length caps = length (Gofsen.markerNames segs) /\ Forall Gofsen.segmentValue caps
  /\ path = Gofsen.fill segs caps.
Proof.
  induction segs as [|[text|name] segs IH]; intros path caps.
  - cbn [Gofsen.segmentsPattern Gofsen.matchToks Gofsen.markerNames omap list_omap
         Gofsen.fill length].
    destruct (String.eqb_spec path "") as [->|Hne]; split.
    + intros [= <-]. auto.
    + intros (Hlen & _ & _). now destruct caps.
    + discriminate.
    + now intros (_ & _ & ->).
  - cbn [Gofsen.segmentsPattern Gofsen.markerNames omap list_omap Gofsen.fill].
    fold (Gofsen.markerNames segs).
    rewrite matchToks_Lit. setoid_rewrite matchToks_lits. split.
    + intros (s1 & -> & s2 & -> & (Hlen & Hvals & ->)%IH). auto.
    + intros (Hlen & Hvals & ->). eexists. split; [reflexivity|].
      eexists. split; [reflexivity|]. apply IH. auto.
  - cbn [Gofsen.segmentsPattern Gofsen.markerNames omap list_omap length].
    fold (Gofsen.markerNames segs).
    rewrite matchToks_Lit. cbn [Gofsen.matchToks]. split.
    + intros (s1 & -> & Hm).
      destruct (string_span s1) as (v & rest & -> & Hv & Hrest).
      rewrite (matchSeg_run _ v rest (segmentsPattern_head segs) Hv Hrest) in Hm.
      change ("" ++ v)%string with v in Hm.
      destruct (String.eqb_spec v "") as [|Hne]; [discriminate|].
      destruct (Gofsen.matchToks (Gofsen.segmentsPattern segs) rest) as [caps'|] eqn:Hrec;
        [|discriminate].
      cbn in Hm. injection Hm as <-. apply IH in Hrec as (Hlen & Hvals & ->).
      cbn [length Gofsen.fill]. split; [congruence|]. split; [|reflexivity].
      constructor; [split; assumption | exact Hvals].
    + intros (Hlen & Hvals & ->). destruct caps as [|v caps']; [discriminate|].
      cbn [Gofsen.fill]. apply Forall_cons in Hvals as [[Hne Hv] Hvals].
      exists (v ++ Gofsen.fill segs caps')%string. split; [reflexivity|].
      rewrite (matchSeg_run _ v _ (segmentsPattern_head segs) Hv (fill_start segs caps')).
      change ("" ++ v)%string with v.
      destruct (String.eqb_spec v "") as [|_]; [contradiction|].
      assert (Hrec : Gofsen.matchToks (Gofsen.segmentsPattern segs) (Gofsen.fill segs caps')
                     = Some caps').
      { apply IH. cbn [length] in Hlen. split; [congruence|]. split; [exact Hvals|reflexivity]. }
      now rewrite Hrec.
Qed.

(** X12. A template whose literal segments are plain ASCII text and that
    has at least one marker, registered with [addRoute]: the route keeps the
    marker names in order as its parameters, and it matches exactly the
    requests for its method whose path is the template with a value that is
    not empty and has no slash in place of each marker; the parameters pair
    the names with these values, the last value winning for a name used
    twice. *)
Theorem template_route (method : string) (segs : list Gofsen.Segment)
    (h : Gofsen.HandlerFunc) (r : Gofsen.Router) :
  Forall (fun seg => Gofsen.wellFormed seg = true) segs ->
  Gofsen.markerNames segs <> [] ->
  exists rt,
    Gofsen.routes (Gofsen.addRoute method (Gofsen.templateOf segs) h r)
      = Gofsen.routes r ++ [rt]
    /\ Gofsen.Route_Params rt = Gofsen.markerNames segs
    /\ Gofsen.Handler rt = h
    /\ forall m p ps,
         Gofsen.matchRoute rt m p = Some ps <->
         m = method
         /\ exists values,
              length values = length (Gofsen.markerNames segs)
              /\ Forall Gofsen.segmentValue values
              /\ p = Gofsen.fill segs values
              /\ ps = list_to_map (reverse (zip (Gofsen.markerNames segs) values)).
Proof.
  intros Hwf Hm. unfold Gofsen.addRoute.
  rewrite convertPathToRegex_templateOf by assumption.
  cbn [Gofsen.routes]. eexists. do 3 (split; [reflexivity|]).
  intros m p ps. unfold Gofsen.matchRoute.
  cbn [Gofsen.Method Gofsen.Pattern Gofsen.Path Gofsen.Route_Params
       Gofsen.FindStringSubmatch Gofsen.SegmentRegexp].
  assert (Hbind : forall caps,
    Gofsen.bindParams (Gofsen.markerNames segs) (p :: caps)
    = list_to_map (reverse (zip (Gofsen.markerNames segs) caps))).
  { intros caps. unfold Gofsen.bindParams.
    rewrite (bindParams_from p caps _ 0 ∅), drop_0. apply fold_left_insert_pairs. }
  split.
  - destruct (String.eqb_spec method m) as [<-|]; [|discriminate].
    destruct (Gofsen.matchToks (Gofsen.segmentsPattern segs) p) as [caps|] eqn:Hcaps;
      [|discriminate].
    cbn [fmap option_fmap option_map]. intros [= <-].
    apply matchToks_segmentsPattern in Hcaps as (Hlen & Hvals & ->).
    split; [reflexivity|]. exists caps. rewrite Hbind. auto.
  - intros (-> & values & Hlen & Hvals & -> & ->). rewrite String.eqb_refl.
    assert (Hcaps : Gofsen.matchToks (Gofsen.segmentsPattern segs) (Gofsen.fill segs values)
                    = Some values) by (apply matchToks_segmentsPattern; auto).
    rewrite Hcaps. cbn [fmap option_fmap option_map]. now rewrite Hbind.
Qed.

Lemma template_route_witness :
  let segs := [Gofsen.Static "posts"; Gofsen.Marker "post"; Gofsen.Static "comments";
               Gofsen.Marker "comment"] in
  exists rt,
    Gofsen.routes (Gofsen.addRoute "GET" (Gofsen.templateOf segs) (Gofsen.record "comment")
                     Gofsen.New) = Gofsen.routes Gofsen.New ++ [rt]
    /\ Gofsen.Route_Params rt = Gofsen.markerNames segs
    /\ Gofsen.Handler rt = Gofsen.record "comment"
    /\ forall m p ps,
         Gofsen.matchRoute rt m p = Some ps <->
         m = "GET"
         /\ exists values,
              length values = length (Gofsen.markerNames segs)
              /\ Forall Gofsen.segmentValue values
              /\ p = Gofsen.fill segs values
              /\ ps = list_to_map (reverse (zip (Gofsen.markerNames segs) values)).
Proof.
  intros segs.
  apply (template_route "GET" segs (Gofsen.record "comment") Gofsen.New).
  - repeat constructor.
  - discriminate.
Defined.

(** ** Package gofsen: what a handler reads and what goes on the wire *)

Lemma sent_WriteHeader (code : Z) (w : Http.ResponseWriter) :
  Http.rw_sent (Http.WriteHeader code w) =
  match Http.rw_status w with
  | Some _ => Http.rw_sent w
  | None => Http.rw_header w
  end.
Proof. unfold Http.WriteHeader. now destruct (Http.rw_status w). Qed.

Lemma sent_Write (b : Http.Chunk) (w : Http.ResponseWriter) :
  Http.rw_sent (Http.Write b w) =
  match Http.rw_status w with
  | Some _ => Http.rw_sent w
  | None => Http.rw_header w
  end.
Proof. unfold Http.Write. cbn [Http.rw_sent]. apply sent_WriteHeader. Qed.

Lemma sent_SetHeader (k v : string) (w : Http.ResponseWriter) :
  Http.rw_sent (Http.SetHeader k v w) = Http.rw_sent w.
Proof. reflexivity. Qed.

(** The first step of a chain of one: the handler runs on the context
    [ServeHTTP] built, with the cursor on it. *)
Lemma Next_handler_only (h : Gofsen.MiddlewareFunc) (c : Gofsen.Context) :
  Gofsen.middlewareIndex c = -1 ->
  Gofsen.Next 1 [h] c =
  h (Gofsen.Next 0 [h]) (Gofsen.invoked 0 (Gofsen.with_middlewareIndex 0 c)).
Proof. intros Hidx. now apply (Next_step 0 [h] c 0 h). Qed.

Section GofsenAnswers.
Context `{RE : Gofsen.RegexpLib}.

(** X13. [Error] with a final status code (200 to 999) and the 404 answer
    of [ServeHTTP] write the status before [JSON] sets the content type:
    on a writer nothing was written to, the headers that go out with the
    status are those present before the call, and the JSON content type
    only reaches the header map.  [JSON] alone sets the header first, and
    it goes out with status 200. *)
Theorem content_type_set_after_status (c : Gofsen.Context) :
  Http.rw_status (Gofsen.ResponseWriter c) = None ->
  (forall code message,
     200 <= code <= 999 ->
     let w := Gofsen.ResponseWriter (Gofsen.Context_Error code message c) in
     Http.rw_status w = Some code
     /\ Http.rw_sent w = Http.rw_header (Gofsen.ResponseWriter c)
     /\ Http.rw_header w
        = <["Content-Type" := ["application/json"]]> (Http.rw_header (Gofsen.ResponseWriter c)))
  /\ (forall data,
        let w := Gofsen.ResponseWriter (Gofsen.Context_JSON data c) in
        Http.rw_status w = Some 200
        /\ Http.rw_sent w
           = <["Content-Type" := ["application/json"]]> (Http.rw_header (Gofsen.ResponseWriter c)))
  /\ (forall (r : Gofsen.Router) now events req,
        Gofsen.findRoute r (Http.Method req) (Http.URL_Path req) = None ->
        exists c',
          Gofsen.ServeHTTP r now events (Gofsen.ResponseWriter c) req = Gofsen.Returned c'
          /\ Http.rw_status (Gofsen.ResponseWriter c') = Some 404
          /\ Http.rw_sent (Gofsen.ResponseWriter c') = Http.rw_header (Gofsen.ResponseWriter c)).
Proof.
  intros Hfresh. split; [|split].
  - intros code message Hcode w.
    unfold w, Gofsen.Context_Error, Gofsen.Context_JSON, Gofsen.Status, Http.Encode.
    cbn [Gofsen.ResponseWriter Gofsen.with_ResponseWriter].
    autorewrite with writer.
    rewrite sent_Write, status_SetHeader, status_WriteHeader, sent_SetHeader, sent_WriteHeader.
    rewrite Hfresh. auto.
  - intros data w. unfold w, Gofsen.Context_JSON, Http.Encode.
    cbn [Gofsen.ResponseWriter Gofsen.with_ResponseWriter].
    autorewrite with writer. rewrite sent_Write, status_SetHeader, Hfresh. auto.
  - intros r now events req Hnone. eexists. split; [now apply ServeHTTP_no_route|].
    cbn [Gofsen.ResponseWriter]. unfold Http.Encode. autorewrite with writer.
    rewrite sent_Write, status_SetHeader, status_WriteHeader, sent_SetHeader, sent_WriteHeader.
    rewrite Hfresh. auto.
Qed.

(** X14. The query test for every value that is valid UTF-8: with
    [/search] registered under GET for a handler that answers the query
    parameter [q], a request for [/search?q=v] where [v] is valid UTF-8
    and has no ampersand is answered 200 with [{query: v}], whatever the
    expression library. *)
Theorem query_handler_reads_value (v now : string) (events : list string)
    (hd : gmap string (list string)) :
  Utf8.ValidString v = true ->
  GoStr.ContainsByte v "&" = false ->
  let r := Gofsen.GET "/search" Gofsen.queryHandler Gofsen.New in
  exists c,
    Gofsen.ServeHTTP r now events Http.NewRecorder
      (Http.mkRequest "GET" "/search" ("q=" ++ v) hd) = Gofsen.Returned c
    /\ Http.rw_status (Gofsen.ResponseWriter c) = Some 200
    /\ Http.rw_body (Gofsen.ResponseWriter c)
       = [Http.JSONDoc (Http.JObj [("query", Http.JStr v)])]
    /\ Http.rw_sent (Gofsen.ResponseWriter c) !! "Content-Type" = Some ["application/json"]
    /\ Gofsen.Events c = events.
Proof.
  intros _ Hv r.
  assert (Hquery : Gofsen.parseQuery ("q=" ++ v) = {["q" := v]}).
  { unfold Gofsen.parseQuery. change (String.eqb ("q=" ++ v) "") with false. cbv iota.
    change ("q=" ++ v)%string with (GoStr.Join [("q=" ++ v)%string] "&") at 1.
    rewrite SplitByte_Join.
    2:{ constructor; [|constructor]. rewrite ContainsByte_app. now rewrite Hv. }
    cbn [fold_left].
    change ("q=" ++ v)%string with ("q" ++ String "=" v)%string.
    now rewrite SplitN2_pair. }
  unfold Gofsen.ServeHTTP, Gofsen.findRoute.
  cbn [Http.Method Http.URL_Path Http.URL_RawQuery].
  change (Gofsen.findRouteIn (Gofsen.routes r) "GET" "/search")
    with (Some (Gofsen.mkRoute "GET" "/search" Gofsen.queryHandler None [],
                (∅ : gmap string string))).
  cbv zeta. change (Gofsen.middlewares r) with (@nil Gofsen.MiddlewareFunc).
  cbn [app length].
  match goal with
  | |- context [Gofsen.Next 1 [?h] ?c] => rewrite (Next_handler_only h c) by reflexivity
  end.
  cbn [Gofsen.Handler]. unfold Gofsen.queryHandler at 1.
  eexists. split; [reflexivity|].
  unfold Gofsen.Context_JSON, Http.Encode, Gofsen.QueryParam.
  cbn [Gofsen.ResponseWriter Gofsen.with_ResponseWriter Gofsen.invoked
       Gofsen.with_middlewareIndex Gofsen.with_Params Gofsen.Query Gofsen.Events].
  rewrite Hquery, lookup_singleton_eq. cbn [from_option id].
  repeat split.
Qed.

End GofsenAnswers.

Lemma content_type_set_after_status_witness :
  let c := Gofsen.mkContext (Http.mkRequest "GET" "/protected/profile" "" ∅)
             Http.NewRecorder ∅ ∅ 0 "2024-01-01T00:00:00Z" [] [0] in
  let w := Gofsen.ResponseWriter (Gofsen.Context_Error 401 "Missing token" c) in
  Http.rw_status w = Some 401
  /\ Http.rw_sent w = ∅
  /\ Http.rw_header w = <["Content-Type" := ["application/json"]]> ∅.
Proof.
  intros c.
  apply (proj1 (content_type_set_after_status (RE := Gofsen.SegmentRegexp) c eq_refl)
           401 "Missing token").
  lia.
Defined.

Lemma query_handler_reads_value_witness :
  let r := Gofsen.GET "/search" Gofsen.queryHandler Gofsen.New in
  exists c,
    Gofsen.ServeHTTP r "2024-01-01T00:00:00Z" [] Http.NewRecorder
      (Http.mkRequest "GET" "/search" ("q=" ++ "gofsen") ∅) = Gofsen.Returned c
    /\ Http.rw_status (Gofsen.ResponseWriter c) = Some 200
    /\ Http.rw_body (Gofsen.ResponseWriter c)
       = [Http.JSONDoc (Http.JObj [("query", Http.JStr "gofsen")])]
    /\ Http.rw_sent (Gofsen.ResponseWriter c) !! "Content-Type" = Some ["application/json"]
    /\ Gofsen.Events c = [].
Proof.
  exact (query_handler_reads_value (RE := Gofsen.SegmentRegexp) "gofsen"
           "2024-01-01T00:00:00Z" [] ∅ eq_refl eq_refl).
Defined.

(** X15. The parameter test for every value that is valid UTF-8: with
    [/users/:id] registered under GET for a handler that answers the
    parameter [id], a request for [/users/v] where [v] is valid UTF-8, not
    empty and has no slash is answered 200 with [{id: v}], and the handler
    is the only step run. *)
Theorem params_handler_reads_capture (v now : string) (events : list string)
    (q : string) (hd : gmap string (list string)) :
  Utf8.ValidString v = true ->
  Gofsen.segmentValue v ->
  let r := Gofsen.GET "/users/:id" Gofsen.paramsHandler Gofsen.New in
  exists c,
    Gofsen.ServeHTTP r now events Http.NewRecorder
      (Http.mkRequest "GET" ("/users/" ++ v) q hd) = Gofsen.Returned c
    /\ Http.rw_status (Gofsen.ResponseWriter c) = Some 200
    /\ Http.rw_body (Gofsen.ResponseWriter c)
       = [Http.JSONDoc (Http.JObj [("id", Http.JStr v)])]
    /\ Http.rw_sent (Gofsen.ResponseWriter c) !! "Content-Type" = Some ["application/json"]
    /\ Gofsen.Events c = events
    /\ Gofsen.Invoked c = [0].
Proof.
  intros _ Hv r.
  set (segs := [Gofsen.Static "users"; Gofsen.Marker "id"]).
  assert (Hroutes : Gofsen.routes r =
            [Gofsen.mkRoute "GET" "/users/:id" Gofsen.paramsHandler
               (Some (Gofsen.segmentsPattern segs)) ["id"]]).
  { unfold r, Gofsen.GET, Gofsen.addRoute.
    change "/users/:id" with (Gofsen.templateOf segs) at 1.
    rewrite convertPathToRegex_templateOf; [reflexivity | repeat constructor | discriminate]. }
  assert (Hcaps : Gofsen.matchToks (Gofsen.segmentsPattern segs) ("/users/" ++ v) = Some [v]).
  { apply matchToks_segmentsPattern. split; [reflexivity|]. split; [constructor; [exact Hv | constructor]|].
    cbn [Gofsen.fill segs]. now rewrite append_nil_r. }
  unfold Gofsen.ServeHTTP, Gofsen.findRoute.
  cbn [Http.Method Http.URL_Path Http.URL_RawQuery]. rewrite Hroutes.
  cbn [Gofsen.findRouteIn]. unfold Gofsen.matchRoute.
  cbn [Gofsen.Method Gofsen.Pattern Gofsen.Route_Params Gofsen.FindStringSubmatch
       Gofsen.SegmentRegexp]. rewrite String.eqb_refl, Hcaps.
  cbn [fmap option_fmap option_map].
  cbv zeta. change (Gofsen.middlewares r) with (@nil Gofsen.MiddlewareFunc).
  cbn [app length].
  match goal with
  | |- context [Gofsen.Next 1 [?h] ?c] => rewrite (Next_handler_only h c) by reflexivity
  end.
  cbn [Gofsen.Handler]. unfold Gofsen.paramsHandler at 1.
  eexists. split; [reflexivity|].
  unfold Gofsen.Context_JSON, Http.Encode, Gofsen.Param.
  cbn [Gofsen.ResponseWriter Gofsen.with_ResponseWriter Gofsen.invoked
       Gofsen.with_middlewareIndex Gofsen.with_Params Gofsen.Params Gofsen.Events
       Gofsen.Invoked].
  change (Gofsen.bindParams ["id"] [("/users/" ++ v)%string; v]) with ({["id" := v]} : gmap string string).
  rewrite lookup_singleton_eq. cbn [from_option id].
  repeat split.
Qed.

Lemma params_handler_reads_capture_witness :
  let r := Gofsen.GET "/users/:id" Gofsen.paramsHandler Gofsen.New in
  exists c,
    Gofsen.ServeHTTP r "2024-01-01T00:00:00Z" [] Http.NewRecorder
      (Http.mkRequest "GET" ("/users/" ++ "123") "" ∅) = Gofsen.Returned c
    /\ Http.rw_status (Gofsen.ResponseWriter c) = Some 200
    /\ Http.rw_body (Gofsen.ResponseWriter c)
       = [Http.JSONDoc (Http.JObj [("id", Http.JStr "123")])]
    /\ Http.rw_sent (Gofsen.ResponseWriter c) !! "Content-Type" = Some ["application/json"]
    /\ Gofsen.Events c = []
    /\ Gofsen.Invoked c = [0].
Proof.
  apply (params_handler_reads_capture "123" "2024-01-01T00:00:00Z" [] "" ∅).
  - reflexivity.
  - split; [discriminate | reflexivity].
Defined.

(** ** internal/router: what a registration leaves alone *)

Lemma lookup_Handle_other (method path : string) (h : Internal.HandlerFunc)
    (r : Internal.Router) (m p : string) :
  (m, p) <> (method, path) ->
  Internal.routes (Internal.Handle method path h r) !! m
    ≫= (fun methodRoutes => methodRoutes !! p)
  = Internal.routes r !! m ≫= (fun methodRoutes => methodRoutes !! p).
Proof.
  intros Hne. unfold Internal.Handle. cbn [Internal.routes].
  destruct (decide (m = method)) as [->|Hm].
  - rewrite lookup_insert_eq. cbn [mbind option_bind].
    rewrite lookup_insert_ne by congruence.
    now destruct (Internal.routes r !! method).
  - now rewrite lookup_insert_ne by congruence.
Qed.

(** X16. Registering a route changes the answer to no request that was
    already dispatched to a handler under another method or path. *)
Theorem Handle_keeps_other_routes (rg : Internal.MapRange) (method path : string)
    (h h' : Internal.HandlerFunc) (r : Internal.Router) (env : Internal.Ambient)
    (events : list string) (w : Http.ResponseWriter) (req : Http.Request) :
  (Http.Method req, Http.URL_Path req) <> (method, path) ->
  Internal.routes r !! Http.Method req
    ≫= (fun methodRoutes => methodRoutes !! Http.URL_Path req) = Some h' ->
  Internal.ServeHTTP rg (Internal.Handle method path h r) env events w req
  = Internal.ServeHTTP rg r env events w req.
Proof.
  intros Hne Hh'.
  rewrite (ServeHTTP_found rg r env events w req h' Hh').
  apply (ServeHTTP_found rg (Internal.Handle method path h r)).
  now rewrite lookup_Handle_other.
Qed.

Lemma Handle_keeps_other_routes_witness :
  let r := Internal.GET "/health" Internal.HealthCheckHandler Internal.emptyRouter in
  let req := Http.mkRequest "GET" "/health" "" ∅ in
  Internal.ServeHTTP (fun A => map_to_list) (Internal.POST "/health" (Internal.record "post") r)
    (Internal.mkAmbient "2024-01-01T00:00:00Z" Internal.defaultLogger "") [] Http.NewRecorder req
  = Internal.ServeHTTP (fun A => map_to_list) r
      (Internal.mkAmbient "2024-01-01T00:00:00Z" Internal.defaultLogger "") [] Http.NewRecorder req.
Proof.
  intros r req.
  apply (Handle_keeps_other_routes _ "POST" "/health" _ Internal.HealthCheckHandler).
  - discriminate.
  - reflexivity.
Defined.

(** X17. Group middlewares are fixed when a route is registered, global
    middlewares when a request is served: a route registered on a group
    runs behind the middlewares the group had at that moment, not those
    the group received later, while a global middleware added after the
    registration runs in front of it all the same. *)
Theorem group_middlewares_fixed_at_registration (rg : Internal.MapRange)
    (globals lateGlobals locals lateLocals : list string) (prefix method path1 path2 : string)
    (env : Internal.Ambient) (w : Http.ResponseWriter) :
  path1 <> path2 ->
  let g := Internal.RouteGroup_Use (map Internal.passing locals) (Internal.Group prefix) in
  let g' := Internal.RouteGroup_Use (map Internal.passing lateLocals) g in
  let r :=
    Internal.Use (map Internal.passing lateGlobals)
      (Internal.RouteGroup_Handle g' method path2 (Internal.record "second")
         (Internal.RouteGroup_Handle g method path1 (Internal.record "first")
            (Internal.Use (map Internal.passing globals) Internal.emptyRouter))) in
  let req1 := Http.mkRequest method (prefix ++ path1)%string "" ∅ in
  let req2 := Http.mkRequest method (prefix ++ path2)%string "" ∅ in
  Internal.ServeHTTP rg r env [] w req1
  = Internal.Returned
      (Internal.mkContext req1 w ∅ env (globals ++ lateGlobals ++ locals ++ ["first"]))
  /\ Internal.ServeHTTP rg r env [] w req2
     = Internal.Returned
         (Internal.mkContext req2 w ∅ env
            (globals ++ lateGlobals ++ locals ++ lateLocals ++ ["second"])).
Proof.
  intros Hpaths g g' r req1 req2.
  assert (Hmws : Internal.middlewares r = map Internal.passing (globals ++ lateGlobals)).
  { unfold r. cbn. now rewrite map_app. }
  assert (Hfull : (prefix ++ path1)%string <> (prefix ++ path2)%string).
  { intros Heq. apply Hpaths. clear -Heq.
    induction prefix as [|c prefix IH]; [exact Heq|].
    rewrite !append_cons in Heq. injection Heq as Heq. now apply IH. }
  split.
  - rewrite (ServeHTTP_found rg r env [] w req1
               (Internal.wrap (map Internal.passing locals) (Internal.record "first"))).
    2:{ unfold r, Internal.Use, Internal.RouteGroup_Handle. cbn [Internal.routes].
        change (Internal.prefix g') with prefix. change (Internal.prefix g) with prefix.
        rewrite lookup_Handle_other by (cbn; congruence).
        cbn [Http.Method Http.URL_Path req1]. apply lookup_Handle. }
    rewrite Hmws, <- wrap_foldr, !wrap_passing.
    unfold Internal.record, Internal.emit. cbn. now rewrite <- !app_assoc.
  - rewrite (ServeHTTP_found rg r env [] w req2
               (Internal.wrap (map Internal.passing (locals ++ lateLocals))
                  (Internal.record "second"))).
    2:{ unfold r, Internal.Use, Internal.RouteGroup_Handle. cbn [Internal.routes].
        change (Internal.prefix g') with prefix.
        change (Internal.group_middlewares g')
          with (map Internal.passing locals ++ map Internal.passing lateLocals).
        rewrite <- map_app. cbn [Http.Method Http.URL_Path req2]. apply lookup_Handle. }
    rewrite Hmws, <- wrap_foldr, !wrap_passing.
    unfold Internal.record, Internal.emit. cbn. now rewrite <- !app_assoc.
Qed.

Lemma group_middlewares_fixed_at_registration_witness :
  let env := Internal.mkAmbient "2024-01-01T00:00:00Z" Internal.defaultLogger "" in
  let g := Internal.RouteGroup_Use [Internal.passing "auth"] (Internal.Group "/api") in
  let g' := Internal.RouteGroup_Use [Internal.passing "admin"] g in
  let r :=
    Internal.Use [Internal.passing "cors"]
      (Internal.RouteGroup_Handle g' "GET" "/admin" (Internal.record "second")
         (Internal.RouteGroup_Handle g "GET" "/me" (Internal.record "first")
            (Internal.Use [Internal.passing "logger"] Internal.emptyRouter))) in
  Internal.ServeHTTP (fun A => map_to_list) r env [] Http.NewRecorder
    (Http.mkRequest "GET" "/api/me" "" ∅)
  = Internal.Returned
      (Internal.mkContext (Http.mkRequest "GET" "/api/me" "" ∅) Http.NewRecorder ∅ env
         ["logger"; "cors"; "auth"; "first"]).
Proof.
  intros env g g' r.
  refine (proj1 (group_middlewares_fixed_at_registration (fun A => map_to_list)
                   ["logger"] ["cors"] ["auth"] ["admin"] "/api" "GET" "/me" "/admin"
                   env Http.NewRecorder _)).
  discriminate.
Defined.

(** ** internal/middlewares: authentication and origins *)

(** X18. [AuthMiddleware] behind pass-through middlewares: a request
    without [Authorization], or whose header the validator refuses, is
    answered 401 with the matching message, and neither the middlewares
    registered after it nor the handler are called, whatever they are; a
    request whose header the validator accepts goes on to them. *)
Theorem AuthMiddleware_guards (rg : Internal.MapRange) (r : Internal.Router)
    (before : list string) (rest : list Internal.Middleware) (validator : string -> bool)
    (env : Internal.Ambient) (events : list string) (req : Http.Request)
    (h : Internal.HandlerFunc) :
  Internal.middlewares r
    = map Internal.passing before ++ Internal.AuthMiddleware validator :: rest ->
  Internal.routes r !! Http.Method req
    ≫= (fun methodRoutes => methodRoutes !! Http.URL_Path req) = Some h ->
  let token := Http.Header_Get (Http.Header req) "Authorization" in
  (token = "" \/ validator token = false ->
   exists doc c,
     Internal.ServeHTTP rg r env events Http.NewRecorder req = Internal.Returned c
     /\ Internal.Events c = events ++ before
     /\ Http.rw_status (Internal.Writer c) = Some 401
     /\ Http.rw_body (Internal.Writer c) = [Http.JSONDoc doc]
     /\ Http.member "error" doc = Some (Http.JStr "Unauthorized")
     /\ Http.member "code" doc = Some (Http.JNum 401)
     /\ Http.member "message" doc =
        Some (Http.JStr (if String.eqb token "" then "En-tête Authorization manquant"
                         else "Token d'authentification invalide")))
  /\ (token <> "" -> validator token = true ->
      Internal.ServeHTTP rg r env events Http.NewRecorder req
      = foldr (fun mw next => mw next) h rest
          (Internal.mkContext req Http.NewRecorder ∅ env (events ++ before))).
Proof.
  intros Hmws Hh token.
  assert (Hserve : Internal.ServeHTTP rg r env events Http.NewRecorder req =
            Internal.AuthMiddleware validator (foldr (fun mw next => mw next) h rest)
              (Internal.mkContext req Http.NewRecorder ∅ env (events ++ before))).
  { rewrite (ServeHTTP_found _ _ _ _ _ _ _ Hh), Hmws, foldr_app.
    rewrite <- (wrap_foldr (map Internal.passing before)), wrap_passing. reflexivity. }
  rewrite Hserve. unfold Internal.AuthMiddleware.
  cbn [Internal.Request Internal.Env]. fold token. split.
  - intros Hrefused.
    set (ctx := Internal.mkContext req Http.NewRecorder ∅ env (events ++ before)).
    assert (Hanswer : exists message details,
      (if String.eqb token "" then
         Internal.Returned
           (Internal.SendDetailedError (Internal.Logger env) 401
              "En-tête Authorization manquant"
              (Some (Http.JObj
                 [("example", Http.JStr "Authorization: Bearer valid-token");
                  ("required_format", Http.JStr "Authorization: Bearer <token>")])) ctx)
       else if negb (validator token) then
         Internal.Returned
           (Internal.SendDetailedError (Internal.Logger env) 401
              "Token d'authentification invalide"
              (Some (Http.JObj
                 [("note", Http.JStr "Vérifiez que votre token est valide et non expiré");
                  ("token_format", Http.JStr "Bearer <token>")])) ctx)
       else foldr (fun mw next => mw next) h rest ctx)
      = Internal.Returned
          (Internal.SendDetailedError (Internal.Logger env) 401 message details ctx)
      /\ message = (if String.eqb token "" then "En-tête Authorization manquant"
                    else "Token d'authentification invalide")).
    { destruct (String.eqb_spec token "") as [Hempty|Hne].
      - do 2 eexists. split; reflexivity.
      - destruct Hrefused as [Hempty|Hbad]; [contradiction|]. rewrite Hbad.
        do 2 eexists. split; reflexivity. }
    destruct Hanswer as (message & details & -> & Hmessage).
    destruct (SendDetailedError_doc (Internal.Logger env) 401 message details ctx)
      as (doc & Hsend & Herror & Hmsg & _ & _ & _ & Hcode & _).
    destruct (SendDetailedError_response _ _ _ _ _ _ Hsend) as [Hbody Hstatus].
    exists doc. eexists. split; [reflexivity|].
    split; [now rewrite Hsend|]. split; [now apply Hstatus|]. split; [exact Hbody|].
    split; [exact Herror|]. split; [exact Hcode|].
    rewrite Hmsg, Hmessage. now destruct (String.eqb token "").
  - intros Hne Hok. destruct (String.eqb_spec token "") as [|_]; [contradiction|].
    now rewrite Hok.
Qed.

Lemma AuthMiddleware_guards_witness :
  let validator := String.eqb "Bearer valid-token" in
  let r := Internal.GET "/api/me" (Internal.record "me")
             (Internal.Use [Internal.passing "logger"; Internal.AuthMiddleware validator]
                Internal.emptyRouter) in
  let env := Internal.mkAmbient "2024-01-01T00:00:00Z" Internal.defaultLogger "" in
  let req := Http.mkRequest "GET" "/api/me" "" {["Authorization" := ["Bearer guess"]]} in
  exists doc c,
    Internal.ServeHTTP (fun A => map_to_list) r env [] Http.NewRecorder req
      = Internal.Returned c
    /\ Internal.Events c = ["logger"]
    /\ Http.rw_status (Internal.Writer c) = Some 401
    /\ Http.rw_body (Internal.Writer c) = [Http.JSONDoc doc]
    /\ Http.member "error" doc = Some (Http.JStr "Unauthorized")
    /\ Http.member "code" doc = Some (Http.JNum 401)
    /\ Http.member "message" doc = Some (Http.JStr "Token d'authentification invalide").
Proof.
  intros validator r env req.
  refine (proj1 (AuthMiddleware_guards (fun A => map_to_list) r ["logger"] [] validator
                   env [] req (Internal.record "me") _ _) _).
  - reflexivity.
  - reflexivity.
  - right. reflexivity.
Defined.

Lemma slice_to_prefix (n : nat) (s : string) : String.prefix (GoStr.slice_to n s) s = true.
Proof.
  unfold GoStr.slice_to. revert s. induction n as [|n IH]; intros [|c s]; try reflexivity.
  cbn [substring String.prefix]. destruct (ascii_dec c c); [apply IH | contradiction].
Qed.

Lemma slice_to_length (n : nat) (s : string) :
  (n <= String.length s)%nat -> String.length (GoStr.slice_to n s) = n.
Proof.
  unfold GoStr.slice_to. revert s. induction n as [|n IH]; intros [|c s] Hn;
    cbn [String.length] in *; try reflexivity; try lia.
  cbn [substring String.length]. rewrite IH; lia.
Qed.

(** X19. [maskAuthHeader] shows ten bytes of a header at most: an empty
    header stays empty, a header of ten bytes or fewer becomes three
    stars, and a longer one its first ten bytes followed by three stars. *)
Theorem maskAuthHeader_shows_ten_bytes (auth : string) :
  (Internal.maskAuthHeader auth = "" <-> auth = "")
  /\ (auth <> "" -> (String.length auth <= 10)%nat -> Internal.maskAuthHeader auth = "***")
  /\ ((10 < String.length auth)%nat ->
      exists shown,
        Internal.maskAuthHeader auth = (shown ++ "***")%string
        /\ String.length shown = 10%nat
        /\ String.prefix shown auth = true).
Proof.
  unfold Internal.maskAuthHeader, GoStr.len.
  destruct (String.eqb_spec auth "") as [->|Hne].
  - split; [tauto|]. split; [congruence | cbn; lia].
  - destruct (Z.leb_spec (Z.of_nat (String.length auth)) 10) as [Hshort|Hlong].
    + split; [split; [discriminate | contradiction]|]. split; [reflexivity | lia].
    + split; [|split; [lia|]].
      * split; [|contradiction]. intros Hempty.
        apply append_empty in Hempty as [_ Hstars]. discriminate.
      * intros _. exists (GoStr.slice_to 10 auth).
        split; [reflexivity|]. split; [apply slice_to_length; lia | apply slice_to_prefix].
Qed.

Lemma maskAuthHeader_shows_ten_bytes_witness :
  exists shown,
    Internal.maskAuthHeader "Bearer valid-token" = (shown ++ "***")%string
    /\ String.length shown = 10%nat
    /\ String.prefix shown "Bearer valid-token" = true.
Proof.
  apply (proj2 (proj2 (maskAuthHeader_shows_ten_bytes "Bearer valid-token"))).
  cbn. lia.
Defined.

Lemma IsAllowedOrigin_spec (origin : string) :
  Internal.IsAllowedOrigin origin = true <->
  origin = "https://example.com" \/ origin = "https://another-example.com".
Proof.
  unfold Internal.IsAllowedOrigin. cbn [existsb].
  rewrite !orb_true_iff, !String.eqb_eq. intuition congruence.
Qed.

(** X20. [CorsMiddleware] sets the four CORS headers exactly for the two
    fixed origins, echoing the origin, and leaves the writer alone for any
    other request; it then answers an OPTIONS request itself, with status
    200 on a fresh writer and without calling the next step, allowed origin
    or not, and passes any other request on. *)
Theorem CorsMiddleware_behaviour (next : Internal.HandlerFunc) (ctx : Internal.Context) :
  let origin := Http.Header_Get (Http.Header (Internal.Request ctx)) "Origin" in
  exists ctx1,
    (if String.eqb (Http.Method (Internal.Request ctx)) "OPTIONS"
     then Internal.CorsMiddleware next ctx
          = Internal.Returned
              (Internal.with_Writer (Http.WriteHeader 200 (Internal.Writer ctx1)) ctx1)
     else Internal.CorsMiddleware next ctx = next ctx1)
    /\ Internal.Request ctx1 = Internal.Request ctx
    /\ Internal.Events ctx1 = Internal.Events ctx
    /\ Http.rw_status (Internal.Writer ctx1) = Http.rw_status (Internal.Writer ctx)
    /\ Http.rw_body (Internal.Writer ctx1) = Http.rw_body (Internal.Writer ctx)
    /\ ((origin = "https://example.com" \/ origin = "https://another-example.com") ->
        Http.rw_header (Internal.Writer ctx1) =
        <["Access-Control-Allow-Credentials" := ["true"]]>
          (<["Access-Control-Allow-Headers" := ["Content-Type, Authorization"]]>
             (<["Access-Control-Allow-Methods" := ["GET, POST, PUT, DELETE, OPTIONS"]]>
                (<["Access-Control-Allow-Origin" := [origin]]>
                   (Http.rw_header (Internal.Writer ctx))))))
    /\ (~ (origin = "https://example.com" \/ origin = "https://another-example.com") ->
        ctx1 = ctx).
Proof.
  intros origin. unfold Internal.CorsMiddleware. fold origin.
  pose proof (IsAllowedOrigin_spec origin) as Hspec.
  destruct (Internal.IsAllowedOrigin origin) eqn:Hallowed.
  - assert (Hne : String.eqb origin "" = false).
    { destruct (proj1 Hspec eq_refl) as [-> | ->]; reflexivity. }
    rewrite Hne. cbn [negb andb].
    exists (Internal.SetCORSHeaders origin ctx).
    split.
    { unfold Internal.SetCORSHeaders. cbn [Internal.Request Internal.with_Writer].
      now destruct (String.eqb (Http.Method (Internal.Request ctx)) "OPTIONS"). }
    do 4 (split; [reflexivity|]).
    split; [reflexivity|]. intros Hnot. exfalso. apply Hnot, Hspec. reflexivity.
  - rewrite andb_false_r. exists ctx.
    split; [now destruct (String.eqb (Http.Method (Internal.Request ctx)) "OPTIONS")|].
    do 4 (split; [reflexivity|]).
    split; [|reflexivity]. intros Hyes. apply Hspec in Hyes. discriminate.
Qed.

(** ** Package gofsen: groups and preflight requests at the router *)

Section GofsenGroups.
Context `{RE : Gofsen.RegexpLib}.

(** X21. A group is a prefix and nothing else: registering a route on a
    group just created serves every request exactly as registering the
    prefixed template on the router itself would. *)
Theorem group_route_is_prefixed_route (r : Gofsen.Router) (prefix method path : string)
    (h : Gofsen.HandlerFunc) (now : string) (events : list string)
    (w : Http.ResponseWriter) (req : Http.Request) :
  let '(r0, g) := Gofsen.Group prefix r in
  Gofsen.ServeHTTP (Gofsen.RouteGroup_addRoute g method path h r0) now events w req
  = Gofsen.ServeHTTP (Gofsen.addRoute method (prefix ++ path) h r) now events w req.
Proof.
  unfold Gofsen.Group, Gofsen.RouteGroup_addRoute. cbn [Gofsen.heap].
  rewrite lookup_app_r by lia. rewrite Nat.sub_diag. cbn [lookup list_lookup Gofsen.prefix].
  unfold Gofsen.ServeHTTP, Gofsen.findRoute, Gofsen.addRoute.
  destruct (Gofsen.convertPathToRegex (prefix ++ path)) as [pattern params].
  reflexivity.
Qed.

(** X22. A request whose method no route was registered under is
    answered 404 before any middleware runs.  A preflight request is such
    a request unless a route was registered under OPTIONS: with a CORS
    middleware installed it is still answered 404, by the router, and the
    header map gains the content type only. *)
Theorem preflight_needs_OPTIONS_route (r : Gofsen.Router) (now : string)
    (events : list string) (w : Http.ResponseWriter) (req : Http.Request) :
  Forall (fun rt => Gofsen.Method rt <> Http.Method req) (Gofsen.routes r) ->
  Http.rw_status w = None ->
  exists c,
    Gofsen.ServeHTTP r now events w req = Gofsen.Returned c
    /\ Http.rw_status (Gofsen.ResponseWriter c) = Some 404
    /\ Http.rw_header (Gofsen.ResponseWriter c)
       = <["Content-Type" := ["application/json"]]> (Http.rw_header w)
    /\ Http.rw_sent (Gofsen.ResponseWriter c) = Http.rw_header w
    /\ Gofsen.Invoked c = [].
Proof.
  intros Hmethods Hfresh.
  assert (Hnone : Gofsen.findRoute r (Http.Method req) (Http.URL_Path req) = None).
  { apply findRouteIn_no_match. eapply Forall_impl; [exact Hmethods|].
    intros rt Hrt. unfold Gofsen.matchRoute.
    now destruct (String.eqb_spec (Gofsen.Method rt) (Http.Method req)). }
  eexists. split; [now apply ServeHTTP_no_route|].
  cbn [Gofsen.ResponseWriter Gofsen.Invoked]. unfold Http.Encode.
  autorewrite with writer.
  rewrite sent_Write, status_SetHeader, status_WriteHeader, sent_SetHeader, sent_WriteHeader.
  rewrite Hfresh. auto.
Qed.

End GofsenGroups.

Lemma preflight_needs_OPTIONS_route_witness :
  exists c,
    Gofsen.ServeHTTP
      (Gofsen.GET "/api/users" (Gofsen.record "users")
         (Gofsen.Use (Gofsen.CORSWithConfig
                        (Gofsen.mkCORSConfig ["*"] ["GET"; "OPTIONS"] ["Content-Type"]))
            Gofsen.New))
      "2024-01-01T00:00:00Z" [] Http.NewRecorder
      (Http.mkRequest "OPTIONS" "/api/users" "" {["Origin" := ["http://localhost:3000"]]})
    = Gofsen.Returned c
    /\ Http.rw_status (Gofsen.ResponseWriter c) = Some 404
    /\ Http.rw_header (Gofsen.ResponseWriter c)
       = <["Content-Type" := ["application/json"]]> (Http.rw_header Http.NewRecorder)
    /\ Http.rw_sent (Gofsen.ResponseWriter c) = Http.rw_header Http.NewRecorder
    /\ Gofsen.Invoked c = [].
Proof.
  apply (preflight_needs_OPTIONS_route (RE := Gofsen.SegmentRegexp)).
  - repeat constructor. discriminate.
  - reflexivity.
Defined.
